(** * Reconciliation engines of portalautomacao: a shallow embedding

    The development follows the two Python modules of the repository:

    - [conciliacao_bancaria_contabil.py]: [to_float_br], [limpar_prefixo],
      [normalizar_texto] and the greedy matcher [conciliar];
    - [conciliacao_bancaria_cliente.py]: [parse_valor], [esta_no_intervalo],
      the netting of ledger lines into invoice and receipt buckets,
      [realizar_matching] and the two computations of the final balance.

    The regular expressions of the program are modelled by a backtracking
    matcher; with it come [extrair_identificador_fin],
    [extrair_identificador_contabil], the searches of [processar_nf] and
    [processar_recebimento], [_encontrar_aba],
    [encontrar_possiveis_matches_data_valor], the statistics of
    [processar_conciliacao] and [confrontar_titulos].

    Python [float] is binary64 and is modelled by Rocq's primitive floats;
    [decimal.Decimal] is modelled by sign, coefficient and exponent under the
    default context (28 significant digits, half-even rounding, the
    InvalidOperation and Overflow traps enabled).  Texts are sequences of
    code points below 256. *)

From Stdlib Require Import ZArith NArith List String Ascii Bool Lia Floats
  Sorted.
Import ListNotations.

Set Warnings "-inexact-float".

(* ================================================================== *)
(** * Python text operations *)
(* ================================================================== *)

Module PyStr.

Local Open Scope string_scope.

Definition code (c : ascii) : N := N_of_ascii c.

Definition between (lo hi : N) (c : ascii) : bool :=
  (N.leb lo (code c) && N.leb (code c) hi)%bool.

Definition is_digit : ascii -> bool := between 48 57.
Definition is_AZ : ascii -> bool := between 65 90.
Definition is_az : ascii -> bool := between 97 122.

(** The regular-expression class [[A-Z0-9]]. *)
Definition is_AZ09 (c : ascii) : bool := (is_AZ c || is_digit c)%bool.

(** [str.isspace] on code points below 256: TAB..CR, FS..US, space, NEL
    and the no-break space. *)
Definition is_space (c : ascii) : bool :=
  (between 9 13 c || between 28 32 c || N.eqb (code c) 133
   || N.eqb (code c) 160)%bool.

Definition chr (n : N) : ascii := ascii_of_N n.

Definition newline : ascii := chr 10.

(** [str.upper], one code point at a time.  The sharp s (223) becomes the
    two letters SS; the micro sign and y-diaeresis, whose capitals lie above
    255, are left in place (no test of this development tells them apart
    from their capitals). *)
Definition upper_char (c : ascii) : string :=
  if is_az c then String (chr (code c - 32)) ""
  else if N.eqb (code c) 223 then "SS"
  else if (between 224 254 c && negb (N.eqb (code c) 247))%bool
       then String (chr (code c - 32)) ""
  else String c "".

Fixpoint upper (s : string) : string :=
  match s with
  | "" => ""
  | String c r => upper_char c ++ upper r
  end.

Definition lower_char (c : ascii) : ascii :=
  if is_AZ c then chr (code c + 32)
  else if (between 192 222 c && negb (N.eqb (code c) 215))%bool
       then chr (code c + 32)
  else c.

Fixpoint lower (s : string) : string :=
  match s with
  | "" => ""
  | String c r => String (lower_char c) (lower r)
  end.

Fixpoint lstrip (s : string) : string :=
  match s with
  | "" => ""
  | String c r => if is_space c then lstrip r else s
  end.

Definition is_empty (s : string) : bool :=
  match s with "" => true | _ => false end.

Fixpoint rstrip (s : string) : string :=
  match s with
  | "" => ""
  | String c r =>
      let r' := rstrip r in
      if (is_space c && is_empty r')%bool then "" else String c r'
  end.

Definition strip (s : string) : string := rstrip (lstrip s).

Fixpoint str_filter (p : ascii -> bool) (s : string) : string :=
  match s with
  | "" => ""
  | String c r => if p c then String c (str_filter p r) else str_filter p r
  end.

Fixpoint str_forall (p : ascii -> bool) (s : string) : bool :=
  match s with
  | "" => true
  | String c r => (p c && str_forall p r)%bool
  end.

(** [s.replace(c, "")] for a one-character [c]. *)
Definition remove_char (c : ascii) : string -> string :=
  str_filter (fun x => negb (Ascii.eqb x c)).

(** [s.replace(c, d)] for one-character [c] and [d]. *)
Fixpoint replace_char (c d : ascii) (s : string) : string :=
  match s with
  | "" => ""
  | String x r =>
      String (if Ascii.eqb x c then d else x) (replace_char c d r)
  end.

(** [s.replace('R$', '')]: occurrences are removed left to right, without
    rescanning what a removal brings together. *)
Fixpoint remove_RS (s : string) : string :=
  match s with
  | "" => ""
  | String c r =>
      match r with
      | String d r' =>
          if (Ascii.eqb c "R" && Ascii.eqb d "$")%bool
          then remove_RS r' else String c (remove_RS r)
      | "" => String c ""
      end
  end.

(** [c in s] for a one-character [c]. *)
Fixpoint has_char (c : ascii) (s : string) : bool :=
  match s with
  | "" => false
  | String x r => (Ascii.eqb x c || has_char c r)%bool
  end.

(** [s.endswith(c)] for a one-character [c]. *)
Fixpoint endswith_char (c : ascii) (s : string) : bool :=
  match s with
  | "" => false
  | String x "" => Ascii.eqb x c
  | String _ r => endswith_char c r
  end.

(** [s[:-1]]. *)
Fixpoint drop_last (s : string) : string :=
  match s with
  | "" => ""
  | String _ "" => ""
  | String x r => String x (drop_last r)
  end.

Definition startswith (p s : string) : bool := String.prefix p s.

(** [s[n:]]. *)
Fixpoint drop (n : nat) (s : string) : string :=
  match n, s with
  | O, _ => s
  | S _, "" => ""
  | S n', String _ r => drop n' r
  end.

(** [sub in s]. *)
Fixpoint contains (sub s : string) : bool :=
  (String.prefix sub s ||
   match s with
   | "" => false
   | String _ r => contains sub r
   end)%bool.

(** A regular expression's [$] (no MULTILINE): the end of the text, or just
    before a newline that ends it. *)
Definition at_end (s : string) : bool :=
  match s with
  | "" => true
  | String c "" => Ascii.eqb c newline
  | _ => false
  end.

(** The longest prefix of digits, and what follows it. *)
Fixpoint span_digits (s : string) : string * string :=
  match s with
  | "" => ("", "")
  | String c r =>
      if is_digit c
      then let '(d, t) := span_digits r in (String c d, t)
      else ("", s)
  end.

Definition digit_val (c : ascii) : N := code c - 48.

Fixpoint N_of_digits_from (acc : N) (s : string) : N :=
  match s with
  | "" => acc
  | String c r => N_of_digits_from (acc * 10 + digit_val c) r
  end.

(** The number a text of decimal digits denotes. *)
Definition N_of_digits (s : string) : N := N_of_digits_from 0 s.

(** Decimal digits of a number, least significant first, [fuel] bounding
    their count. *)
Fixpoint rev_digits (fuel : nat) (n : N) : list ascii :=
  match fuel with
  | O => []
  | S f =>
      chr (48 + N.modulo n 10) ::
      (if N.ltb n 10 then [] else rev_digits f (N.div n 10))
  end.

(** [str(n)] for a natural number. *)
Definition str_of_N (n : N) : string :=
  string_of_list_ascii (rev (rev_digits (S (N.to_nat (N.size n))) n)).

(** The number of decimal digits of [n] (1 for 0). *)
Definition digits10 (n : N) : Z :=
  Z.of_nat (List.length (rev_digits (S (N.to_nat (N.size n))) n)).

(** [str(n).zfill(w)]. *)
Definition zfill (w : nat) (n : N) : string :=
  let s := str_of_N n in
  string_of_list_ascii (repeat "0"%char (w - String.length s)) ++ s.

(** [str(z)] for an integer. *)
Definition str_of_Z (z : Z) : string :=
  match z with
  | Zneg p => String "-" (str_of_N (Npos p))
  | _ => str_of_N (Z.to_N z)
  end.

End PyStr.

(* ================================================================== *)
(** * Python numbers: exceptions, binary64 floats and Decimal *)
(* ================================================================== *)

Module PyNum.

Import PyStr.
Local Open Scope string_scope.

(** The exceptions the modelled code can meet. *)
Inductive exn : Type :=
| InvalidOperation   (* decimal.InvalidOperation *)
| DecimalOverflow    (* decimal.Overflow *)
| OverflowError
| ValueError
| TypeError.

(** The outcome of a call: a value, or a raised exception. *)
Inductive result (A : Type) : Type :=
| Ret (a : A)
| Raise (e : exn).

Arguments Ret {A} a.
Arguments Raise {A} e.

Definition bind {A B : Type} (r : result A) (k : A -> result B) : result B :=
  match r with
  | Ret a => k a
  | Raise e => Raise e
  end.

Notation "x <- r ;; k" := (bind r (fun x => k))
  (at level 61, r at next level, right associativity).

(** A bare [try: ... except: ...] around one expression. *)
Definition try_except {A : Type} (r : result A) (handler : A) : A :=
  match r with
  | Ret a => a
  | Raise _ => handler
  end.

Definition returns {A : Type} (r : result A) : Prop := exists a, r = Ret a.

(* ------------------------------------------------------------------ *)
(** ** Numeric literals *)

Definition split_sign (s : string) : bool * string :=
  match s with
  | String c r =>
      if Ascii.eqb c "+" then (false, r)
      else if Ascii.eqb c "-" then (true, r)
      else (false, s)
  | "" => (false, s)
  end.

(** The unsigned decimal number grammar that [float] and [Decimal] share:
    digits with an optional point and an optional exponent, at least one
    digit before the exponent.  The result is coefficient and exponent. *)
Definition parse_number (s : string) : option (N * Z) :=
  let '(ip, r1) := span_digits s in
  let '(fp, r2) :=
    match r1 with
    | String c t => if Ascii.eqb c "." then span_digits t else ("", r1)
    | "" => ("", r1)
    end in
  if (is_empty ip && is_empty fp)%bool then None
  else
    let mant := N_of_digits (ip ++ fp) in
    let scale := (- Z.of_nat (String.length fp))%Z in
    match r2 with
    | "" => Some (mant, scale)
    | String c t =>
        if (Ascii.eqb c "e" || Ascii.eqb c "E")%bool then
          let '(eneg, t') := split_sign t in
          let '(ed, r3) := span_digits t' in
          if (is_empty ed || negb (is_empty r3))%bool then None
          else
            let e := Z.of_N (N_of_digits ed) in
            Some (mant, (scale + (if eneg then - e else e))%Z)
        else None
    end.

(** [float] accepts an underscore only between two digits. *)
Fixpoint underscores_ok_from (prev_digit prev_us : bool) (s : string) : bool :=
  match s with
  | "" => negb prev_us
  | String c r =>
      if Ascii.eqb c "_"
      then (prev_digit && underscores_ok_from false true r)%bool
      else ((negb prev_us || is_digit c)
            && underscores_ok_from (is_digit c) false r)%bool
  end.

Definition underscores_ok : string -> bool := underscores_ok_from false false.

(* ------------------------------------------------------------------ *)
(** ** binary64 *)

(** The binary64 number nearest to [n/d] (ties to even), with sign [neg]. *)
Definition nearest_float (neg : bool) (n d : positive) : float :=
  let '(q, e, l) := SFdiv_core_binary prec emax (Zpos n) 0 (Zpos d) 0 in
  SF2Prim (binary_round_aux prec emax neg q e l).

Definition signed_zero (neg : bool) : float :=
  if neg then neg_zero else zero.

Definition signed_infinity (neg : bool) : float :=
  if neg then neg_infinity else infinity.

(** The float a decimal literal [coeff * 10^exp] reads as.  Magnitudes
    beyond 1e400 and below 1e-400 are infinite and zero without computing
    the power. *)
Definition float_of_literal (neg : bool) (coeff : N) (exp : Z) : float :=
  match coeff with
  | N0 => signed_zero neg
  | Npos p =>
      let adj := (digits10 coeff + exp)%Z in
      if (adj >? 400)%Z then signed_infinity neg
      else if (adj <? -400)%Z then signed_zero neg
      else
        match exp with
        | Zneg k => nearest_float neg p (10 ^ k)
        | _ => nearest_float neg (p * Z.to_pos (10 ^ exp)) 1
        end
  end.

(** [float(s)] for a text; [None] is ValueError. *)
Definition py_float (s : string) : option float :=
  let s := strip s in
  if (has_char "_" s && negb (underscores_ok s))%bool then None
  else
    let '(neg, body) := split_sign (remove_char "_" s) in
    let lb := lower body in
    if (String.eqb lb "inf" || String.eqb lb "infinity")%bool
    then Some (signed_infinity neg)
    else if String.eqb lb "nan" then Some nan
    else
      match parse_number body with
      | Some (m, e) => Some (float_of_literal neg m e)
      | None => None
      end.

(** [float(z)] for an integer: the nearest float, OverflowError beyond the
    range. *)
Definition float_of_int (z : Z) : result float :=
  match z with
  | Z0 => Ret zero
  | Zpos p =>
      let f := nearest_float false p 1 in
      if is_infinity f then Raise OverflowError else Ret f
  | Zneg p =>
      let f := nearest_float true p 1 in
      if is_infinity f then Raise OverflowError else Ret f
  end.

(** Half-even rounding of [n/d] to an integer. *)
Definition div_half_even (n d : Z) : Z :=
  let q := (n / d)%Z in
  let r := (n mod d)%Z in
  match (2 * r ?= d)%Z with
  | Lt => q
  | Gt => (q + 1)%Z
  | Eq => if Z.even q then q else (q + 1)%Z
  end.

(** [round(x, 2)]: the exact value of [x] is rounded half-even to two
    decimals, and the float nearest to that decimal is returned; NaN and
    the infinities are returned as they are. *)
Definition round2 (x : float) : float :=
  match Prim2SF x with
  | S754_finite s m e =>
      let n :=
        match e with
        | Zneg k => div_half_even (Zpos m * 100) (Zpos (2 ^ k))
        | _ => (Zpos m * 100 * 2 ^ e)%Z
        end in
      match n with
      | Zpos p => nearest_float s p 100
      | _ => signed_zero s
      end
  | _ => x
  end.

(* ------------------------------------------------------------------ *)
(** ** [repr] of a float

    [repr] prints the shortest decimal that reads back as the same float,
    the nearest to it when several are as short. *)

(** Strips the trailing zeros of [c * 10^p]; [fuel] bounds their count. *)
Fixpoint strip_zeros (fuel : nat) (c : N) (p : Z) : N * Z :=
  match fuel with
  | O => (c, p)
  | S f =>
      if (N.eqb (N.modulo c 10) 0 && negb (N.eqb c 0))%bool
      then strip_zeros f (N.div c 10) (p + 1)%Z
      else (c, p)
  end.

(** The search through 1, 2, ... significant digits.  The float is
    [fF * u] and the reals that round to it lie between [fL * u] and
    [fH * u] (bounds included when [incl]), for the unit [u = un/ud];
    [e10] is the decimal exponent of the float's leading digit and [k] the
    number of digits tried. *)
Fixpoint shortest_from (fuel : nat) (k : Z) (e10 : Z) (incl : bool)
    (fL fF fH un ud : Z) : N * Z :=
  let p := (e10 - k + 1)%Z in
  let a := (ud * 10 ^ Z.max p 0)%Z in
  let b := (un * 10 ^ Z.max (- p) 0)%Z in
  let c_lo := ((fF * b) / a)%Z in
  let c_hi := (c_lo + 1)%Z in
  let inside (c : Z) :=
    if incl
    then ((fL * b <=? c * a) && (c * a <=? fH * b))%Z%bool
    else ((fL * b <? c * a) && (c * a <? fH * b))%Z%bool in
  let pick (c : Z) := (Z.to_N c, p) in
  match fuel with
  | O => pick c_lo
  | S f =>
      match inside c_lo, inside c_hi with
      | true, false => pick c_lo
      | false, true => pick c_hi
      | true, true =>
          match (fF * b - c_lo * a ?= c_hi * a - fF * b)%Z with
          | Lt => pick c_lo
          | Gt => pick c_hi
          | Eq => if Z.even c_lo then pick c_lo else pick c_hi
          end
      | false, false => shortest_from f (k + 1)%Z e10 incl fL fF fH un ud
      end
  end.

(** The shortest digits of the finite float [m * 2^e]: an integer [c] and
    an exponent [p] with the float nearest to [c * 10^p] being that float. *)
Definition shortest_digits (m : positive) (e : Z) : N * Z :=
  let boundary := (Pos.eqb m (2 ^ 52) && (-1074 <? e)%Z)%bool in
  let fF := (4 * Zpos m)%Z in
  let fH := (fF + 2)%Z in
  let fL := if boundary then (fF - 1)%Z else (fF - 2)%Z in
  let un := (2 ^ Z.max (e - 2) 0)%Z in
  let ud := (2 ^ Z.max (2 - e) 0)%Z in
  let n := (fF * un)%Z in
  let e10 :=
    if (ud <=? n)%Z then (digits10 (Z.to_N (n / ud)) - 1)%Z
    else
      let j0 := (digits10 (Z.to_N ud) - digits10 (Z.to_N n))%Z in
      if (ud <=? n * 10 ^ j0)%Z then (- j0)%Z else (- (j0 + 1))%Z in
  let '(c, p) := shortest_from 17 1 e10 (Z.even (Zpos m)) fL fF fH un ud in
  strip_zeros 400 c p.

(** [repr(x)], which is also [str(x)], for a float. *)
Definition float_repr (x : float) : string :=
  match Prim2SF x with
  | S754_nan => "nan"
  | S754_infinity s => if s then "-inf" else "inf"
  | S754_zero s => if s then "-0.0" else "0.0"
  | S754_finite s m e =>
      let '(c, p) := shortest_digits m e in
      let ds := str_of_N c in
      let nd := Z.of_nat (String.length ds) in
      let decpt := (nd + p)%Z in
      let zeros (z : Z) := string_of_list_ascii (repeat "0"%char (Z.to_nat z)) in
      let body :=
        if ((decpt <=? -4) || (16 <? decpt))%Z%bool then
          let x10 := (decpt - 1)%Z in
          let es := str_of_N (Z.to_N (Z.abs x10)) in
          let es := if (String.length es <? 2)%nat then "0" ++ es else es in
          (match ds with
           | String d "" => String d ""
           | String d r => String d ("." ++ r)
           | "" => ""
           end) ++ "e" ++ (if (x10 <? 0)%Z then "-" else "+") ++ es
        else if (decpt <=? 0)%Z then "0." ++ zeros (- decpt)%Z ++ ds
        else if (nd <=? decpt)%Z then ds ++ zeros (decpt - nd)%Z ++ ".0"
        else substring 0 (Z.to_nat decpt) ds ++ "."
             ++ drop (Z.to_nat decpt) ds in
      (if s then "-" else "") ++ body
  end.

(* ------------------------------------------------------------------ *)
(** ** [decimal.Decimal] under the default context *)

(** A finite number is [(-1)^neg * coeff * 10^exp]; the payload of a NaN is
    not kept. *)
Inductive Decimal : Type :=
| DFin (neg : bool) (coeff : N) (exp : Z)
| DInf (neg : bool)
| DNaN (neg : bool)
| DsNaN (neg : bool).

Definition ctx_prec : Z := 28.
Definition ctx_Emax : Z := 999999.
Definition ctx_Emin : Z := -999999.
Definition ctx_Etiny : Z := ctx_Emin - ctx_prec + 1.
Definition ctx_Etop : Z := ctx_Emax - ctx_prec + 1.

(** [Decimal(s)] for a text; [None] is InvalidOperation.  The constructor
    is exact: the context does not round it. *)
Definition Decimal_of_string (s : string) : option Decimal :=
  let '(neg, body) := split_sign (remove_char "_" (strip s)) in
  let lb := lower body in
  if (String.eqb lb "inf" || String.eqb lb "infinity")%bool
  then Some (DInf neg)
  else if (startswith "nan" lb && str_forall is_digit (drop 3 lb))%bool
  then Some (DNaN neg)
  else if (startswith "snan" lb && str_forall is_digit (drop 4 lb))%bool
  then Some (DsNaN neg)
  else
    match parse_number body with
    | Some (m, e) => Some (DFin neg m e)
    | None => None
    end.

(** [Decimal(z)] for an integer. *)
Definition Decimal_of_Z (z : Z) : Decimal :=
  DFin (z <? 0)%Z (Z.abs_N z) 0.

Definition D_zero : Decimal := DFin false 0 0.

(** [coeff / 10^k], rounded half-even. *)
Definition shift_half_even (coeff : N) (k : Z) : N :=
  Z.to_N (div_half_even (Z.of_N coeff) (10 ^ k)).

(** The context's rounding of a finite result ([Decimal._fix]): at most
    [ctx_prec] digits, an exponent not below [ctx_Etiny], and the Overflow
    trap when the number exceeds the exponent range. *)
Definition fix_ctx (neg : bool) (coeff : N) (exp : Z) : result Decimal :=
  if N.eqb coeff 0
  then Ret (DFin neg 0 (Z.min (Z.max exp ctx_Etiny) ctx_Emax))
  else
    let exp_min := (digits10 coeff + exp - ctx_prec)%Z in
    if (exp_min >? ctx_Etop)%Z then Raise DecimalOverflow
    else
      let exp_min := Z.max exp_min ctx_Etiny in
      if (exp <? exp_min)%Z then
        let c := shift_half_even coeff (exp_min - exp) in
        let '(c, e) :=
          if (digits10 c >? ctx_prec)%Z
          then (N.div c 10, (exp_min + 1)%Z) else (c, exp_min) in
        if (e >? ctx_Etop)%Z then Raise DecimalOverflow
        else Ret (DFin neg c e)
      else Ret (DFin neg coeff exp).

(** What an arithmetic operation does with NaN operands, if there is one:
    a signaling NaN raises, a quiet one is the result. *)
Definition check_nans (a b : Decimal) : option (result Decimal) :=
  match a, b with
  | DsNaN _, _ | _, DsNaN _ => Some (Raise InvalidOperation)
  | DNaN s, _ => Some (Ret (DNaN s))
  | _, DNaN s => Some (Ret (DNaN s))
  | _, _ => None
  end.

(** The signed coefficient of a finite number brought to exponent [e]. *)
Definition scaled (neg : bool) (coeff : N) (exp e : Z) : Z :=
  let v := (Z.of_N coeff * 10 ^ (exp - e))%Z in
  if neg then (- v)%Z else v.

Definition Dadd (a b : Decimal) : result Decimal :=
  match check_nans a b with
  | Some r => r
  | None =>
      match a, b with
      | DInf s, DInf t =>
          if Bool.eqb s t then Ret (DInf s) else Raise InvalidOperation
      | DInf s, _ => Ret (DInf s)
      | _, DInf t => Ret (DInf t)
      | DFin s c e, DFin t d f =>
          let x := Z.min e f in
          let v := (scaled s c e x + scaled t d f x)%Z in
          if (v =? 0)%Z
          then fix_ctx (if (N.eqb c 0 && N.eqb d 0)%bool then (s && t)%bool
                    else false) 0 x
          else fix_ctx (v <? 0)%Z (Z.abs_N v) x
      | _, _ => Raise InvalidOperation
      end
  end.

Definition Dnegate (a : Decimal) : Decimal :=
  match a with
  | DFin s c e => DFin (negb s) c e
  | DInf s => DInf (negb s)
  | DNaN s => DNaN (negb s)
  | DsNaN s => DsNaN (negb s)
  end.

Definition Dsub (a b : Decimal) : result Decimal :=
  match check_nans a b with
  | Some r => r
  | None => Dadd a (Dnegate b)
  end.

Definition Dmul (a b : Decimal) : result Decimal :=
  match check_nans a b with
  | Some r => r
  | None =>
      match a, b with
      | DInf s, DInf t => Ret (DInf (xorb s t))
      | DInf s, DFin t d _ =>
          if N.eqb d 0 then Raise InvalidOperation else Ret (DInf (xorb s t))
      | DFin s c _, DInf t =>
          if N.eqb c 0 then Raise InvalidOperation else Ret (DInf (xorb s t))
      | DFin s c e, DFin t d f => fix_ctx (xorb s t) (c * d) (e + f)
      | _, _ => Raise InvalidOperation
      end
  end.

(** [abs(a)]. *)
Definition Dabs (a : Decimal) : result Decimal :=
  match a with
  | DsNaN _ => Raise InvalidOperation
  | DNaN s => Ret (DNaN s)
  | DInf _ => Ret (DInf false)
  | DFin _ c e => fix_ctx false c e
  end.

(** [a < b]: an ordering comparison signals on every NaN. *)
Definition Dlt (a b : Decimal) : result bool :=
  match a, b with
  | DFin s c e, DFin t d f =>
      let x := Z.min e f in
      Ret (scaled s c e x <? scaled t d f x)%Z
  | DInf s, DInf t => Ret (s && negb t)%bool
  | DInf s, DFin _ _ _ => Ret s
  | DFin _ _ _, DInf t => Ret (negb t)
  | _, _ => Raise InvalidOperation
  end.


(** [sum(xs)] over Decimals: the fold starts from the integer 0. *)
Definition Dsum (xs : list Decimal) : result Decimal :=
  fold_left (fun acc x => a <- acc ;; Dadd a x) xs (Ret D_zero).

(* ------------------------------------------------------------------ *)
(** ** [datetime.datetime] *)

Record datetime : Type := mk_datetime {
  dt_year : N; dt_month : N; dt_day : N;
  dt_hour : N; dt_minute : N; dt_second : N; dt_microsecond : N
}.

Definition dt_fields (d : datetime) : list N :=
  [dt_year d; dt_month d; dt_day d; dt_hour d; dt_minute d; dt_second d;
   dt_microsecond d].

Fixpoint lex_leb (a b : list N) : bool :=
  match a, b with
  | x :: a', y :: b' =>
      if N.ltb x y then true else if N.ltb y x then false else lex_leb a' b'
  | _, _ => true
  end.

(** [a <= b] on naive datetimes. *)
Definition dt_leb (a b : datetime) : bool := lex_leb (dt_fields a) (dt_fields b).

(** [str(d)]. *)
Definition str_of_datetime (d : datetime) : string :=
  zfill 4 (dt_year d) ++ "-" ++ zfill 2 (dt_month d) ++ "-"
  ++ zfill 2 (dt_day d) ++ " " ++ zfill 2 (dt_hour d) ++ ":"
  ++ zfill 2 (dt_minute d) ++ ":" ++ zfill 2 (dt_second d)
  ++ (if N.eqb (dt_microsecond d) 0 then ""
      else "." ++ zfill 6 (dt_microsecond d)).

Definition is_leap (y : N) : bool :=
  (N.eqb (N.modulo y 4) 0
   && (negb (N.eqb (N.modulo y 100) 0) || N.eqb (N.modulo y 400) 0))%bool.

Definition days_in_month (y m : N) : N :=
  if N.eqb m 2 then (if is_leap y then 29 else 28)
  else if (N.eqb m 4 || N.eqb m 6 || N.eqb m 9 || N.eqb m 11)%bool then 30
  else 31.

(** The constructor's range check (ValueError outside it). *)
Definition valid_datetime (d : datetime) : bool :=
  (N.leb 1 (dt_year d) && N.leb (dt_year d) 9999
   && N.leb 1 (dt_month d) && N.leb (dt_month d) 12
   && N.leb 1 (dt_day d)
   && N.leb (dt_day d) (days_in_month (dt_year d) (dt_month d))
   && N.leb (dt_hour d) 23 && N.leb (dt_minute d) 59
   && N.leb (dt_second d) 59)%bool.

(** One numeric field of [strptime]: one or two digits, the two-digit
    reading first and kept when it is at most [hi] (and at least [lo]) and
    [next] accepts what follows it; otherwise the one-digit reading.  A
    day may also be a space and a digit. *)
Definition two_digits (lo hi : N) (s : string) : option (N * string) :=
  match s with
  | String a (String b r) =>
      if (is_digit a && is_digit b)%bool then
        let v := (digit_val a * 10 + digit_val b)%N in
        if (N.leb lo v && N.leb v hi)%bool then Some (v, r) else None
      else None
  | _ => None
  end.

Definition one_digit (lo : N) (s : string) : option (N * string) :=
  match s with
  | String a r =>
      if (is_digit a && N.leb lo (digit_val a))%bool
      then Some (digit_val a, r) else None
  | "" => None
  end.

Definition expect (c : ascii) (s : string) : option string :=
  match s with
  | String a r => if Ascii.eqb a c then Some r else None
  | "" => None
  end.

(** [\s+]: one or more whitespace characters. *)
Definition expect_spaces (s : string) : option string :=
  match s with
  | String a r => if is_space a then Some (lstrip r) else None
  | "" => None
  end.

Definition field_then {A : Type} (lo hi : N) (s : string)
    (next : string -> option A) : option (N * A) :=
  match
    match two_digits lo hi s with
    | Some (v, r) =>
        match next r with Some a => Some (v, a) | None => None end
    | None => None
    end
  with
  | Some x => Some x
  | None =>
      match one_digit lo s with
      | Some (v, r) =>
          match next r with Some a => Some (v, a) | None => None end
      | None => None
      end
  end.

Definition day_then {A : Type} (s : string)
    (next : string -> option A) : option (N * A) :=
  match field_then 1 31 s next with
  | Some x => Some x
  | None =>
      match s with
      | String a r =>
          if Ascii.eqb a " " then
            match one_digit 1 r with
            | Some (v, r') =>
                match next r' with Some x => Some (v, x) | None => None end
            | None => None
            end
          else None
      | "" => None
      end
  end.

(** The last field, seconds: the first of [6[0-1]], [[0-5]\d], [\d] that
    matches, whatever follows. *)
Definition seconds_field (s : string) : option (N * string) :=
  match two_digits 0 61 s with
  | Some x => Some x
  | None => one_digit 0 s
  end.

(** [datetime.strptime(s, "%Y-%m-%d %H:%M:%S")]; [None] is ValueError. *)
Definition strptime (s : string) : option datetime :=
  match s with
  | String y1 (String y2 (String y3 (String y4 r))) =>
      if (is_digit y1 && is_digit y2 && is_digit y3 && is_digit y4)%bool then
        let year := N_of_digits (String y1 (String y2 (String y3 (String y4 "")))) in
        match expect "-" r with
        | None => None
        | Some r =>
          match
            field_then 1 12 r (fun r =>
            match expect "-" r with
            | None => None
            | Some r =>
              day_then r (fun r =>
              match expect_spaces r with
              | None => None
              | Some r =>
                field_then 0 23 r (fun r =>
                match expect ":" r with
                | None => None
                | Some r =>
                  field_then 0 59 r (fun r =>
                  match expect ":" r with
                  | None => None
                  | Some r => seconds_field r
                  end)
                end)
              end)
            end)
          with
          | Some (mo, (da, (ho, (mi, (se, rest))))) =>
              let d := mk_datetime year mo da ho mi se 0 in
              if (is_empty rest && valid_datetime d)%bool then Some d
              else None
          | None => None
          end
        end
      else None
  | _ => None
  end.

(* ------------------------------------------------------------------ *)
(** ** Cell values *)

(** What a spreadsheet cell or a caller hands to the parsers.  [POther]
    stands for an object of any other type, known by its [str()]. *)
Inductive pyval : Type :=
| PNone
| PBool (b : bool)
| PInt (z : Z)
| PFloat (f : float)
| PStr (s : string)
| PDatetime (d : datetime)
| POther (repr : string).

(** [str(v)]. *)
Definition py_str (v : pyval) : string :=
  match v with
  | PNone => "None"
  | PBool b => if b then "True" else "False"
  | PInt z => str_of_Z z
  | PFloat f => float_repr f
  | PStr s => s
  | PDatetime d => str_of_datetime d
  | POther r => r
  end.

(** Truthiness ([if v], [not v]). *)
Definition truthy (v : pyval) : bool :=
  match v with
  | PNone => false
  | PBool b => b
  | PInt z => negb (Z.eqb z 0)
  | PFloat f => negb (PrimFloat.eqb f zero)
  | PStr s => negb (is_empty s)
  | PDatetime _ => true
  | POther _ => true
  end.

End PyNum.

(* ================================================================== *)
(** * Python regular expressions, as far as the program uses them *)
(* ================================================================== *)

Module PyRe.

Import PyStr.
Local Open Scope string_scope.

(** The patterns of the program are built from character classes,
    sequences, alternatives, repetitions of a class (greedy or lazy, with a
    lower and an optional upper bound) and one capturing group. *)
Inductive regex : Type :=
| Eps
| Cls (p : ascii -> bool)
| Seq (a b : regex)
| Alt (a b : regex)
| Rep (p : ascii -> bool) (lo : nat) (hi : option nat) (guloso : bool)
| Grp (a : regex).

(** [x?] tries [x] first. *)
Definition Opt (a : regex) : regex := Alt a Eps.

(** A letter under IGNORECASE: itself or its other case. *)
Definition letra_ci (l : ascii) (c : ascii) : bool :=
  (Ascii.eqb c l || Ascii.eqb (lower_char c) (lower_char l))%bool.

(** A literal text, with or without IGNORECASE. *)
Fixpoint Lit (ci : bool) (s : string) : regex :=
  match s with
  | "" => Eps
  | String l r => Seq (Cls (if ci then letra_ci l else Ascii.eqb l)) (Lit ci r)
  end.

(** [.]: any character but the newline. *)
Definition ponto (c : ascii) : bool := negb (Ascii.eqb c newline).

(** Group 1 of a match; [None] while the group has not taken part. *)
Definition captura : Type := option string.

(** The text between two positions of the subject, each given by what
    remains to be read. *)
Definition texto_entre (s t : string) : string :=
  substring 0 (String.length s - String.length t) s.

(** The repetition of a class from [s], [n] characters taken so far: a
    greedy one tries one more character before it tries to stop, a lazy one
    tries to stop first. *)
Fixpoint repetir {R : Type} (p : ascii -> bool) (lo : nat) (hi : option nat)
    (guloso : bool) (k : string -> option R) (n : nat) (s : string)
    : option R :=
  let pode := match hi with Some h => (n <? h)%nat | None => true end in
  match s with
  | String c r =>
      if (p c && pode)%bool then
        if guloso then
          match repetir p lo hi guloso k (S n) r with
          | Some x => Some x
          | None => if (lo <=? n)%nat then k s else None
          end
        else
          match (if (lo <=? n)%nat then k s else None) with
          | Some x => Some x
          | None => repetir p lo hi guloso k (S n) r
          end
      else if (lo <=? n)%nat then k s else None
  | "" => if (lo <=? n)%nat then k s else None
  end.

(** The backtracking matcher: [k] is what remains of the pattern; the
    first way to match that [k] accepts is the match. *)
Fixpoint casar {R : Type} (r : regex) (s : string) (g : captura)
    (k : string -> captura -> option R) : option R :=
  match r with
  | Eps => k s g
  | Cls p =>
      match s with
      | String c t => if p c then k t g else None
      | "" => None
      end
  | Seq a b => casar a s g (fun t g' => casar b t g' k)
  | Alt a b =>
      match casar a s g k with
      | Some x => Some x
      | None => casar b s g k
      end
  | Rep p lo hi guloso => repetir p lo hi guloso (fun t => k t g) 0 s
  | Grp a => casar a s g (fun t _ => k t (Some (texto_entre s t)))
  end.

(** [re.match(r, s)]: group 1 and what follows the match. *)
Definition re_match (r : regex) (s : string) : option (captura * string) :=
  casar r s None (fun t g => Some (g, t)).

(** [re.search(r, s)]: the leftmost position where [r] matches; group 1. *)
Fixpoint re_search (r : regex) (s : string) : option captura :=
  match re_match r s with
  | Some (g, _) => Some g
  | None =>
      match s with
      | String _ t => re_search r t
      | "" => None
      end
  end.

(** [m.group(1)] of a search, when there is a match. *)
Definition grupo_1 (r : regex) (s : string) : option string :=
  match re_search r s with
  | Some (Some g) => Some g
  | _ => None
  end.

(** The patterns are searched in turn: the first one found gives its
    group. *)
Fixpoint primeiro_grupo (patterns : list regex) (s : string)
    : option string :=
  match patterns with
  | [] => None
  | p :: ps =>
      match grupo_1 p s with
      | Some g => Some g
      | None => primeiro_grupo ps s
      end
  end.

End PyRe.

(* ================================================================== *)
(** * conciliacao_bancaria_contabil.py *)
(* ================================================================== *)

Module Contabil.

Import PyStr PyNum.
Local Open Scope string_scope.

(* ------------------------------------------------------------------ *)
(** ** to_float_br *)

Definition is_None (v : pyval) : bool :=
  match v with PNone => true | _ => false end.

(** [isinstance(v, (int, float))]; a bool is an int. *)
Definition isinstance_int_float (v : pyval) : bool :=
  match v with PBool _ | PInt _ | PFloat _ => true | _ => false end.

Definition isinstance_float (v : pyval) : bool :=
  match v with PFloat _ => true | _ => false end.

(** [pd.isna(v)] on a scalar. *)
Definition pd_isna (v : pyval) : bool :=
  match v with
  | PNone => true
  | PFloat f => is_nan f
  | _ => false
  end.

(** [float(v)] for a number or a text. *)
Definition float_of (v : pyval) : result float :=
  match v with
  | PBool b => Ret (if b then one else zero)
  | PInt z => float_of_int z
  | PFloat f => Ret f
  | PStr s =>
      match py_float s with
      | Some f => Ret f
      | None => Raise ValueError
      end
  | _ => Raise TypeError
  end.

Definition to_float_br (x : pyval) : result float :=
  if (isinstance_int_float x && negb (pd_isna x))%bool then float_of x
  else if (is_None x || (isinstance_float x && pd_isna x))%bool then Ret zero
  else
    let s := strip (py_str x) in
    if (String.eqb s "" || String.eqb (lower s) "nan")%bool then Ret zero
    else
      let s := remove_char " " s in
      let s :=
        if has_char "," s
        then replace_char "," "." (remove_char "." s) else s in
      Ret (try_except (float_of (PStr s)) zero).

(* ------------------------------------------------------------------ *)
(** ** limpar_prefixo and normalizar_texto *)

Definition prefixos_comuns : list string :=
  ["MED-"; "FT-"; "DP-"; "BOL-"; "NF-"; "RC-"; "FOL-";
   "MED"; "FT"; "DP"; "BOL"; "NF"; "RC"; "FOL"].

(** The loop over the prefixes: the first that the upper-cased text starts
    with is cut off, and the loop stops. *)
Fixpoint cortar_prefixo (ps : list string) (txt : string) : string :=
  match ps with
  | [] => txt
  | p :: ps' =>
      if startswith p (upper txt) then drop (String.length p) txt
      else cortar_prefixo ps' txt
  end.

(** [re.sub(r"-[A-Z]$", "", txt)]. *)
Fixpoint sub_traco_letra (s : string) : string :=
  match s with
  | "" => ""
  | String c r =>
      match r with
      | String u r' =>
          if (Ascii.eqb c "-" && is_AZ u && at_end r')%bool then r'
          else String c (sub_traco_letra r)
      | "" => String c ""
      end
  end.

(** [re.sub(r"-\d{1,2}$", "", txt)]. *)
Fixpoint sub_traco_digitos (s : string) : string :=
  match s with
  | "" => ""
  | String c r =>
      if Ascii.eqb c "-" then
        match r with
        | String d1 r1 =>
            if is_digit d1 then
              match r1 with
              | String d2 r2 =>
                  if (is_digit d2 && at_end r2)%bool then r2
                  else if at_end r1 then r1
                  else String c (sub_traco_digitos r)
              | "" => ""
              end
            else String c (sub_traco_digitos r)
        | "" => String c ""
        end
      else String c (sub_traco_digitos r)
  end.

Definition limpar_prefixo (txt : string) : string :=
  if is_empty txt then ""
  else
    let txt := strip txt in
    let txt := cortar_prefixo prefixos_comuns txt in
    let txt := sub_traco_letra txt in
    sub_traco_digitos txt.

(** [None] is Python's [None]. *)
Definition normalizar_texto (txt : option string) : string :=
  match txt with
  | None => ""
  | Some t =>
      let t := limpar_prefixo t in
      let s := strip (upper t) in
      str_filter is_AZ09 s
  end.

Definition extrair_numeros (txt : string) : string :=
  if is_empty txt then ""
  else str_filter is_digit (limpar_prefixo txt).

(* ------------------------------------------------------------------ *)
(** ** The ledgers and the result table of conciliar *)

Local Open Scope list_scope.

Inductive tipo_fin : Type := ENTRADA | SAIDA.
Inductive tipo_contabil : Type := DEBITO | CREDITO.

Definition tipo_contabil_eqb (a b : tipo_contabil) : bool :=
  match a, b with
  | DEBITO, DEBITO | CREDITO, CREDITO => true
  | _, _ => false
  end.

(** A pandas Timestamp, in nanoseconds; [None] is NaT or a missing value. *)
Definition timestamp : Type := Z.

Definition ns_por_dia : Z := 86400 * 1000000000.

(** [(a - b).days]: whole days, rounded down. *)
Definition dias (a b : timestamp) : Z := ((a - b) / ns_por_dia)%Z.

(** One line of the financial report, with the columns [ler_financeiro]
    adds. *)
Record linha_fin : Type := mk_linha_fin {
  TEXTO_FIN : string;
  TEXTO_FIN_NORM : string;
  TEXTO_FIN_NUM : string;
  IDENTIFICADOR_FIN : string;
  VALOR_FIN : float;
  TIPO_FIN : tipo_fin;
  DATA_FIN : option timestamp
}.

(** One line of the accounting report, with the columns [ler_contabil]
    adds. *)
Record linha_cont : Type := mk_linha_cont {
  HIST_TXT : string;
  HIST_NORM : string;
  HIST_NUM : string;
  IDENTIFICADOR : string;
  VALOR_CONTABIL : float;
  TIPO_CONTABIL : tipo_contabil;
  DATA_CONTABIL : option timestamp
}.

(** A DataFrame: whether it has the date column, and its lines.  The index
    label of a line is its position. *)
Record df_fin : Type := mk_df_fin {
  fin_tem_data : bool;
  fin_linhas : list linha_fin
}.

Record df_cont : Type := mk_df_cont {
  cont_tem_data : bool;
  cont_linhas : list linha_cont
}.

Inductive status : Type := OK | DIVERGENTE.

(** One row of the result.  An empty text cell of a type or date column is
    [None]; dates are kept as timestamps (their dd/mm/yyyy rendering is not
    modelled).  [origem_fin] and [origem_cont] are ghost fields: the
    positions of the source lines the row was built from. *)
Record linha_out : Type := mk_linha_out {
  STATUS : status;
  DATA_RELATORIO_FINANCEIRO : option timestamp;
  TIPO_RELATORIO_FINANCEIRO : option tipo_fin;
  TEXTO_RELATORIO_FINANCEIRO : string;
  VALOR_RELATORIO_FINANCEIRO : float;
  DATA_RELATORIO_CONTABIL : option timestamp;
  TIPO_RELATORIO_CONTABIL : option tipo_contabil;
  HISTORICO_RELATORIO_CONTABIL : string;
  VALOR_RELATORIO_CONTABIL : float;
  DIF : float;
  OBS : string;
  origem_fin : option nat;
  origem_cont : option nat
}.

Definition enumerate {A : Type} (l : list A) : list (nat * A) :=
  combine (seq 0 (List.length l)) l.

(* ------------------------------------------------------------------ *)
(** ** The index by rounded value and type *)

Definition chave : Type := (float * tipo_contabil)%type.

(** Equality of dictionary keys: floats by [==] (a NaN equals nothing),
    types by name. *)
Definition chave_eqb (a b : chave) : bool :=
  (PrimFloat.eqb (fst a) (fst b) && tipo_contabil_eqb (snd a) (snd b))%bool.

Definition indice : Type := list (chave * list nat).

(** [d.setdefault(k, []).append(i)]. *)
Fixpoint setdefault_append (k : chave) (i : nat) (d : indice) : indice :=
  match d with
  | [] => [(k, [i])]
  | (k', l) :: d' =>
      if chave_eqb k' k then (k', l ++ [i]) :: d'
      else (k', l) :: setdefault_append k i d'
  end.

(** [d.get(k, [])]. *)
Fixpoint dict_get (k : chave) (d : indice) : list nat :=
  match d with
  | [] => []
  | (k', l) :: d' => if chave_eqb k' k then l else dict_get k d'
  end.

Definition cont_by_val_tipo (cont : list linha_cont) : indice :=
  fold_left
    (fun d ir =>
       setdefault_append
         (round2 (VALOR_CONTABIL (snd ir)), TIPO_CONTABIL (snd ir))
         (fst ir) d)
    (enumerate cont) [].

Definition tipo_cont_de (t : tipo_fin) : tipo_contabil :=
  match t with ENTRADA => DEBITO | SAIDA => CREDITO end.

Definition cent : float := 0.01.
Definition dois_cent : float := 0.02.

Section Conciliar.

(** [list(set(l))]: the members of [l], each once, in the order the set
    yields them. *)
Variable list_set : list nat -> list nat.

Definition candidatos_por_valor_tipo (idx : indice) (v : float)
    (tipo : tipo_fin) (tol : float) : list nat :=
  let tipo_cont := tipo_cont_de tipo in
  let base := round2 v in
  let keys :=
    (base, tipo_cont) ::
    (if PrimFloat.leb cent tol then
       [ (round2 (base - cent), tipo_cont);
         (round2 (base + cent), tipo_cont);
         (round2 (base - dois_cent), tipo_cont);
         (round2 (base + dois_cent), tipo_cont) ]
     else []) in
  list_set (flat_map (fun k => dict_get k idx) keys).

(** [len(a) / b] for text lengths: true division of integers. *)
Definition div_len (a b : nat) : float :=
  match a, b with
  | O, _ => zero
  | _, O => nan
  | _, _ => nearest_float false (Pos.of_nat a) (Pos.of_nat b)
  end.

(** [min(a, b)] on floats: [b] when [b < a], else [a]. *)
Definition py_min (a b : float) : float :=
  if PrimFloat.ltb b a then b else a.

Definition nonempty (s : string) : bool := negb (is_empty s).

Definition match_num (txt_num hist_num : string) : bool :=
  (nonempty txt_num && nonempty hist_num && contains txt_num hist_num)%bool.

Definition match_id (id_fin id_cont : string) : bool :=
  (nonempty id_fin && nonempty id_cont
   && (6 <=? String.length id_fin)%nat && contains id_fin id_cont)%bool.

Definition score_match (txt_norm hist_norm txt_num hist_num : string)
    (data_fin data_cont : option timestamp) (usar_data : bool)
    (id_fin id_cont : string) : float :=
  if (is_empty txt_norm || is_empty hist_norm)%bool then zero
  else
    let cov :=
      py_min (div_len (String.length txt_norm)
                      (Nat.max (String.length hist_norm) 1)) one in
    let bonus_inicio :=
      if startswith txt_norm hist_norm then 0.2%float else zero in
    let bonus_num := if match_num txt_num hist_num then 0.3%float else zero in
    let bonus_id := if match_id id_fin id_cont then 0.5%float else zero in
    let bonus_data :=
      match usar_data, data_fin, data_cont with
      | true, Some df, Some dc =>
          let dif_dias := Z.abs (dias df dc) in
          if (dif_dias =? 0)%Z then 0.5%float
          else if (dif_dias =? 1)%Z then 0.3%float
          else zero
      | _, _, _ => zero
      end in
    (cov + bonus_inicio + bonus_num + bonus_id + bonus_data)%float.

(** The state of the loop over the candidates of one financial line. *)
Definition melhor : Type := (option nat * float)%type.

(** One turn of the loop over [cand_idxs]. *)
Definition passo_candidato (cont : list linha_cont) (usados : list nat)
    (usar_data : bool) (tolerancia : float) (f : linha_fin)
    (data_fin : option timestamp) (m : melhor) (idx_c : nat) : melhor :=
  if existsb (Nat.eqb idx_c) usados then m
  else
    match nth_error cont idx_c with
    | None => m  (* unreachable: the candidates are indices of the frame *)
    | Some r =>
        let v_fin := VALOR_FIN f in
        let v_c := VALOR_CONTABIL r in
        if PrimFloat.ltb tolerancia (abs (v_fin - v_c)) then m
        else if negb (tipo_contabil_eqb (TIPO_CONTABIL r)
                        (tipo_cont_de (TIPO_FIN f))) then m
        else
          let data_cont := if usar_data then DATA_CONTABIL r else None in
          if match usar_data, data_fin, data_cont with
             | true, Some df, Some dc => (1 <? Z.abs (dias df dc))%Z
             | _, _, _ => false
             end
          then m
          else
            let txt_norm := TEXTO_FIN_NORM f in
            let txt_num := TEXTO_FIN_NUM f in
            let id_fin := IDENTIFICADOR_FIN f in
            let match_texto := contains txt_norm (HIST_NORM r) in
            if negb (match_texto || match_num txt_num (HIST_NUM r)
                     || match_id id_fin (IDENTIFICADOR r))
            then m
            else
              let sc :=
                score_match txt_norm (HIST_NORM r) txt_num (HIST_NUM r)
                  data_fin data_cont usar_data id_fin (IDENTIFICADOR r) in
              if PrimFloat.ltb (snd m) sc then (Some idx_c, sc) else m
    end.

Definition linha_ok (i : nat) (f : linha_fin) (data_fin : option timestamp)
    (j : nat) (r : linha_cont) (cont_tem : bool) : linha_out :=
  {| STATUS := OK;
     DATA_RELATORIO_FINANCEIRO := data_fin;
     TIPO_RELATORIO_FINANCEIRO := Some (TIPO_FIN f);
     TEXTO_RELATORIO_FINANCEIRO := TEXTO_FIN f;
     VALOR_RELATORIO_FINANCEIRO := VALOR_FIN f;
     DATA_RELATORIO_CONTABIL := if cont_tem then DATA_CONTABIL r else None;
     TIPO_RELATORIO_CONTABIL := Some (TIPO_CONTABIL r);
     HISTORICO_RELATORIO_CONTABIL := HIST_TXT r;
     VALOR_RELATORIO_CONTABIL := VALOR_CONTABIL r;
     DIF := abs (VALOR_FIN f - VALOR_CONTABIL r);
     OBS := "Conciliado automaticamente";
     origem_fin := Some i;
     origem_cont := Some j |}.

Definition linha_divergente_fin (i : nat) (f : linha_fin)
    (data_fin : option timestamp) : linha_out :=
  {| STATUS := DIVERGENTE;
     DATA_RELATORIO_FINANCEIRO := data_fin;
     TIPO_RELATORIO_FINANCEIRO := Some (TIPO_FIN f);
     TEXTO_RELATORIO_FINANCEIRO := TEXTO_FIN f;
     VALOR_RELATORIO_FINANCEIRO := VALOR_FIN f;
     DATA_RELATORIO_CONTABIL := None;
     TIPO_RELATORIO_CONTABIL := None;
     HISTORICO_RELATORIO_CONTABIL := "";
     VALOR_RELATORIO_CONTABIL := zero;
     DIF := VALOR_FIN f;
     OBS := "Nao conciliado";
     origem_fin := Some i;
     origem_cont := None |}.

Definition linha_sobra_cont (j : nat) (r : linha_cont) (cont_tem : bool)
    : linha_out :=
  {| STATUS := DIVERGENTE;
     DATA_RELATORIO_FINANCEIRO := None;
     TIPO_RELATORIO_FINANCEIRO := None;
     TEXTO_RELATORIO_FINANCEIRO := "";
     VALOR_RELATORIO_FINANCEIRO := zero;
     DATA_RELATORIO_CONTABIL := if cont_tem then DATA_CONTABIL r else None;
     TIPO_RELATORIO_CONTABIL := Some (TIPO_CONTABIL r);
     HISTORICO_RELATORIO_CONTABIL := HIST_TXT r;
     VALOR_RELATORIO_CONTABIL := VALOR_CONTABIL r;
     DIF := VALOR_CONTABIL r;
     OBS := "Sem correspondencia no Financeiro";
     origem_fin := None;
     origem_cont := Some j |}.

(** The state of the loop over the financial lines: [usados_cont] and
    [out]. *)
Definition estado : Type := (list nat * list linha_out)%type.

(** One turn of the loop over [fin_df.iterrows()]. *)
Definition passo_fin (cont : df_cont) (idx : indice) (usar_data : bool)
    (tolerancia : float) (min_len : Z) (st : estado)
    (ifl : nat * linha_fin) : estado :=
  let '(usados, out) := st in
  let '(i, f) := ifl in
  let txt_norm := TEXTO_FIN_NORM f in
  let id_fin := IDENTIFICADOR_FIN f in
  if ((Z.of_nat (String.length txt_norm) <? min_len)%Z
      && (Z.of_nat (String.length id_fin) <? min_len)%Z)%bool
  then st
  else
    let data_fin := if usar_data then DATA_FIN f else None in
    let cand_idxs :=
      candidatos_por_valor_tipo idx (VALOR_FIN f) (TIPO_FIN f) tolerancia in
    let m :=
      fold_left
        (passo_candidato (cont_linhas cont) usados usar_data tolerancia f
           data_fin)
        cand_idxs (None, (-1)%float) in
    match fst m with
    | Some j =>
        match nth_error (cont_linhas cont) j with
        | Some r =>
            (usados ++ [j],
             out ++ [linha_ok i f data_fin j r (cont_tem_data cont)])
        | None => st
        end
    | None => (usados, out ++ [linha_divergente_fin i f data_fin])
    end.

(** The last loop: what is left of the accounting report. *)
Definition sobras (cont : df_cont) (usados : list nat) : list linha_out :=
  flat_map
    (fun jr =>
       if existsb (Nat.eqb (fst jr)) usados then []
       else [linha_sobra_cont (fst jr) (snd jr) (cont_tem_data cont)])
    (enumerate (cont_linhas cont)).

Definition conciliar (fin : df_fin) (cont : df_cont) (tolerancia : float)
    (min_len : Z) : list linha_out :=
  let usar_data := (fin_tem_data fin && cont_tem_data cont)%bool in
  let idx := cont_by_val_tipo (cont_linhas cont) in
  let '(usados, out) :=
    fold_left (passo_fin cont idx usar_data tolerancia min_len)
      (enumerate (fin_linhas fin)) ([], []) in
  out ++ sobras cont usados.

End Conciliar.

Import PyRe.
Import PyRe.
Local Open Scope string_scope.

(* ------------------------------------------------------------------ *)
(** ** extrair_identificador_fin and extrair_identificador_contabil *)













Local Open Scope string_scope.

(* ------------------------------------------------------------------ *)
(** ** _encontrar_aba *)

(** The exceptions of the functions below: those of [exn], the
    IndexError of a subscript out of range (here [nome.split()[0]]) and the
    KeyError of a column that a DataFrame does not have. *)
Inductive excecao : Type := Erro (e : exn) | IndexError | KeyError.

(** The longest prefix without white space. *)
Fixpoint ate_espaco (s : string) : string :=
  match s with
  | "" => ""
  | String c r => if is_space c then "" else String c (ate_espaco r)
  end.

(** [s.split()[0]]; [None] when [s.split()] is empty. *)
Definition primeira_palavra (s : string) : option string :=
  match lstrip s with
  | "" => None
  | t => Some (ate_espaco t)
  end.

(** [str.isdigit] of one code point below 256: the ten digits and the
    superscripts two, three and one. *)
Definition isdigit (c : ascii) : bool :=
  (is_digit c || N.eqb (code c) 178 || N.eqb (code c) 179
   || N.eqb (code c) 185)%bool.

(** [nome.split()[0].lower() if " " in nome else nome[:5].lower()];
    [None] for the IndexError. *)
Definition nome_prefix (nome : string) : option string :=
  if has_char " " nome
  then option_map lower (primeira_palavra nome)
  else Some (lower (substring 0 5 nome)).

(** The three tests of the inner loop, in turn; [None] for the
    IndexError. *)
Definition aba_corresponde (sheet nome : string) : option bool :=
  if String.eqb sheet nome then Some true
  else
    match nome_prefix nome with
    | None => None
    | Some p =>
        if startswith p (lower sheet) then Some true
        else
          Some match nome, sheet with
               | String n _, String s _ => (isdigit n && Ascii.eqb s n)%bool
               | _, _ => false
               end
    end.

(** The inner loop; [None] when no name fits the sheet. *)
Fixpoint procurar_nome (sheet : string) (nomes_possiveis : list string)
    : option (string + excecao) :=
  match nomes_possiveis with
  | [] => None
  | nome :: r =>
      match aba_corresponde sheet nome with
      | None => Some (inr IndexError)
      | Some true => Some (inl sheet)
      | Some false => procurar_nome sheet r
      end
  end.

Fixpoint _encontrar_aba (sheet_names nomes_possiveis : list string)
    : string + excecao :=
  match sheet_names with
  | [] => inr (Erro ValueError)
  | sheet :: r =>
      match procurar_nome sheet nomes_possiveis with
      | Some x => x
      | None => _encontrar_aba r nomes_possiveis
      end
  end.

(** The names [ler_contabil] looks for. *)
Definition nomes_contabil : list string :=
  ["3-Lancamentos Contabeis"; "3-Lancamentos Contabeis"; "3-"].

Local Open Scope string_scope.
Local Open Scope list_scope.

(* ------------------------------------------------------------------ *)
(** ** encontrar_possiveis_matches_data_valor *)

(** One row of the possible matches: its STATUS is "REVISAR" and its OBS
    "Data e valor proximos"; both dates are known. *)
Record linha_revisao : Type := mk_linha_revisao {
  REV_DATA_FINANCEIRO : timestamp;
  REV_TIPO_FINANCEIRO : option tipo_fin;
  REV_TEXTO_FINANCEIRO : string;
  REV_VALOR_FINANCEIRO : float;
  REV_DATA_CONTABIL : timestamp;
  REV_TIPO_CONTABIL : tipo_contabil;
  REV_HISTORICO_CONTABIL : string;
  REV_VALOR_CONTABIL : float;
  REV_DIF : float
}.

(** [STATUS != "OK"]. *)
Definition nao_ok (row : linha_out) : bool :=
  match STATUS row with OK => false | DIVERGENTE => true end.

(** ["DEBITO" if tipo_fin == "ENTRADA" else "CREDITO"], where the type
    read from the result may be the empty cell. *)
Definition tipo_cont_esperado (t : option tipo_fin) : tipo_contabil :=
  match t with
  | Some ENTRADA => DEBITO
  | _ => CREDITO
  end.

(** The loop over the accounting lines for one divergent row. *)
Definition possiveis_da_linha (cont : list linha_cont) (tolerancia : float)
    (row : linha_out) (data_fin : timestamp) : list linha_revisao :=
  let tipo_fin := TIPO_RELATORIO_FINANCEIRO row in
  let valor_fin := VALOR_RELATORIO_FINANCEIRO row in
  flat_map
    (fun r =>
       if negb (tipo_contabil_eqb (TIPO_CONTABIL r)
                  (tipo_cont_esperado tipo_fin)) then []
       else
         match DATA_CONTABIL r with
         | None => []
         | Some data_c =>
             let valor_c := VALOR_CONTABIL r in
             if PrimFloat.ltb tolerancia (abs (valor_fin - valor_c)) then []
             else if (1 <? Z.abs (dias data_fin data_c))%Z then []
             else
               [mk_linha_revisao data_fin tipo_fin
                  (TEXTO_RELATORIO_FINANCEIRO row) valor_fin data_c
                  (TIPO_CONTABIL r) (HIST_TXT r) valor_c
                  (abs (valor_fin - valor_c))]
         end)
    cont.

(** The result table of [conciliar] as a DataFrame: built from no row, it
    has no column, and [conc_df["STATUS"]] raises KeyError. *)
Definition encontrar_possiveis_matches_data_valor (fin : df_fin)
    (cont : df_cont) (conc : list linha_out) (tolerancia : float)
    : list linha_revisao + excecao :=
  if (negb (fin_tem_data fin) || negb (cont_tem_data cont))%bool then inl []
  else
    match conc with
    | [] => inr KeyError
    | _ =>
        let diverg_fin :=
          filter
            (fun row =>
               (nao_ok row
                && negb (String.eqb (TEXTO_RELATORIO_FINANCEIRO row) ""))%bool)
            conc in
        inl
          (flat_map
             (fun row =>
                match
                  find (fun f => String.eqb (TEXTO_FIN f)
                                   (TEXTO_RELATORIO_FINANCEIRO row))
                    (fin_linhas fin)
                with
                | None => []
                | Some f =>
                    match DATA_FIN f with
                    | None => []
                    | Some data_fin =>
                        possiveis_da_linha (cont_linhas cont) tolerancia row
                          data_fin
                    end
                end)
             diverg_fin)
    end.

(* ------------------------------------------------------------------ *)
(** ** processar_conciliacao *)

(** [max(a, b)] on floats: [b] when [b > a], else [a]. *)
Definition py_max (a b : float) : float :=
  if PrimFloat.ltb a b then b else a.

(** The counts of the [stats] dictionary, and the three J - K balances
    (their renderings as "R$ ..." texts are not modelled). *)
Record estatisticas : Type := mk_estatisticas {
  stat_total : nat;
  stat_ok : nat;
  stat_nao_ok : nat;
  stat_percentual : float;
  stat_revisao_qtd : nat;
  stat_contabil_j_menos_k : float;
  stat_financeiro_j_menos_k : float;
  stat_diferenca_fin_menos_cont : float
}.

(** The totals the readers return with each report. *)
Record totais : Type := mk_totais { SOMA_J : float; SOMA_K : float }.

Section ProcessarConciliacao.

Variable list_set : list nat -> list nat.

(** [processar_conciliacao] from the two reports as the readers return
    them; the writing of the workbook is left out. *)
Definition processar_conciliacao (fin : df_fin) (fin_totais : totais)
    (cont : df_cont) (cont_totais : totais) (tolerancia : float)
    (min_len : Z) : estatisticas + excecao :=
  let conc := conciliar list_set fin cont tolerancia min_len in
  match conc with
  | [] => inr KeyError   (* conc_df["STATUS"], line 521 *)
  | _ =>
      let divergentes := filter nao_ok conc in
      match encontrar_possiveis_matches_data_valor fin cont conc
              (py_max tolerancia dois_cent) with
      | inr e => inr e
      | inl possiveis =>
          let revisao := List.length divergentes + List.length possiveis in
          let contabil_J_menos_K := (SOMA_J cont_totais - SOMA_K cont_totais)%float in
          let financeiro_J_menos_K := (SOMA_J fin_totais - SOMA_K fin_totais)%float in
          let total := List.length conc in
          let ok := List.length (filter (fun row => negb (nao_ok row)) conc) in
          let nao_ok := total - ok in
          let perc :=
            round2 (div_len ok total * 100)%float in
          inl (mk_estatisticas total ok nao_ok perc revisao
                 contabil_J_menos_K financeiro_J_menos_K
                 (financeiro_J_menos_K - contabil_J_menos_K)%float)
      end
  end.

End ProcessarConciliacao.

End Contabil.

(* ================================================================== *)
(** * conciliacao_bancaria_cliente.py *)
(* ================================================================== *)

Module Cliente.

Import PyStr PyNum.
Local Open Scope string_scope.
Local Open Scope list_scope.

(* ------------------------------------------------------------------ *)
(** ** parse_valor *)

Definition is_None (v : pyval) : bool :=
  match v with PNone => true | _ => false end.

(** [v == ''] *)
Definition eq_vazio (v : pyval) : bool :=
  match v with PStr s => is_empty s | _ => false end.

Definition isinstance_int_float (v : pyval) : bool :=
  match v with PBool _ | PInt _ | PFloat _ => true | _ => false end.

(** [Decimal(s)]: the constructor raises InvalidOperation on a text it
    cannot read. *)
Definition Decimal_str (s : string) : result Decimal :=
  match Decimal_of_string s with
  | Some d => Ret d
  | None => Raise InvalidOperation
  end.

Definition D_um : Decimal := DFin false 1 0.
Definition D_menos_um : Decimal := DFin true 1 0.

(** The replacement of the separators (lines 150-156). *)
Definition trocar_separadores (valor_str : string) : string :=
  if (has_char "," valor_str && has_char "." valor_str)%bool
  then replace_char "," "." (remove_char "." valor_str)
  else if has_char "," valor_str
  then replace_char "," "." valor_str
  else valor_str.

(** The currency sign and the spaces are removed (lines 136-139). *)
Definition limpar_valor (valor : pyval) : string :=
  remove_char " " (remove_RS (strip (py_str valor))).

(** The trailing D or C and the multiplier it stands for (lines 141-148). *)
Definition separar_sufixo (valor_str : string) : string * Decimal :=
  if endswith_char "D" valor_str
  then (strip (drop_last valor_str), D_um)
  else if endswith_char "C" valor_str
  then (strip (drop_last valor_str), D_menos_um)
  else (valor_str, D_um).

Definition parse_valor (valor : pyval) : result Decimal :=
  if (is_None valor || eq_vazio valor)%bool then Ret D_zero
  else if isinstance_int_float valor then Decimal_str (py_str valor)
  else
    let valor_str := limpar_valor valor in
    let '(valor_str, multiplicador) := separar_sufixo valor_str in
    let valor_str := trocar_separadores valor_str in
    Ret (try_except (d <- Decimal_str valor_str ;; Dmul d multiplicador)
                    D_zero).

(* ------------------------------------------------------------------ *)
(** ** The state of a ConciliacaoCliente *)

Record lancamento : Type := mk_lancamento {
  linha : nat;
  data : pyval;
  lote : string;
  historico : string;
  debito : Decimal;
  credito : Decimal;
  saldo_atual : string
}.

(** A bucket of [self.nfs] or [self.recebimentos]. *)
Record bucket : Type := mk_bucket {
  numero : string;
  total_debito : Decimal;
  total_credito : Decimal;
  valor_liquido : Decimal;
  lancamentos_do_bucket : list lancamento
}.

(** An entry of [self.matches]. *)
Record casamento : Type := mk_casamento {
  nf_numero : string;
  nf_valor : Decimal;
  rec_numero : string;
  rec_valor : Decimal;
  diferenca : Decimal
}.

(** A Python dict with text keys: the pairs in insertion order. *)
Definition dict (A : Type) : Type := list (string * A).

Definition dict_has {A : Type} (k : string) (d : dict A) : bool :=
  existsb (fun kv => String.eqb (fst kv) k) d.

Fixpoint dict_lookup {A : Type} (k : string) (d : dict A) : option A :=
  match d with
  | [] => None
  | (k', v) :: d' => if String.eqb k' k then Some v else dict_lookup k d'
  end.

(** [d[k] = v] for a key already present keeps its place. *)
Fixpoint dict_set {A : Type} (k : string) (v : A) (d : dict A) : dict A :=
  match d with
  | [] => [(k, v)]
  | (k', v') :: d' =>
      if String.eqb k' k then (k', v) :: d' else (k', v') :: dict_set k v d'
  end.


Record sistema : Type := mk_sistema {
  saldo_inicial : Decimal;
  data_inicio : option datetime;
  data_fim : option datetime;
  lancamentos : list lancamento;
  nfs : dict bucket;
  recebimentos : dict bucket;
  matches : list casamento;
  nao_encontrados_nf : list bucket;
  nao_encontrados_rec : list bucket
}.

(** [ConciliacaoCliente()] with the parameters
    [processar_conciliacao_cliente] sets. *)
Definition novo_sistema (si : Decimal) (di df : option datetime) : sistema :=
  mk_sistema si di df [] [] [] [] [] [].

(* ------------------------------------------------------------------ *)
(** ** esta_no_intervalo *)

(** [a <= b] where [a] may be [None]: TypeError then. *)
Definition leb_opt_l (a : option datetime) (b : datetime) : result bool :=
  match a with
  | Some x => Ret (dt_leb x b)
  | None => Raise TypeError
  end.

Definition leb_opt_r (a : datetime) (b : option datetime) : result bool :=
  match b with
  | Some y => Ret (dt_leb a y)
  | None => Raise TypeError
  end.

(** [self.data_inicio <= d <= self.data_fim], the second comparison only
    when the first holds. *)
Definition no_intervalo (st : sistema) (d : datetime) : result bool :=
  lo <- leb_opt_l (data_inicio st) d ;;
  if lo then leb_opt_r d (data_fim st) else Ret false.

Definition esta_no_intervalo (st : sistema) (data : pyval) : result bool :=
  match data with
  | PNone => Ret false
  | PDatetime d => no_intervalo st d
  | PStr s =>
      match strptime s with
      | Some d => no_intervalo st d
      | None => Ret false
      end
  | _ => Ret false
  end.

(* ------------------------------------------------------------------ *)
(** ** realizar_matching *)

Definition D_um_centavo : Decimal := DFin false 1 (-2).

(** [abs(a - b) < Decimal('0.01')]. *)
Definition valores_batem (a b : Decimal) : result bool :=
  d <- Dsub a b ;;
  m <- Dabs d ;;
  Dlt m D_um_centavo.

(** The state of the two nested loops: [self.matches], [nfs_matcheadas],
    [recs_matcheados]. *)
Definition estado_matching : Type :=
  (list casamento * list string * list string)%type.

(** One turn of the inner loop. *)
Definition passo_rec (nf : string * bucket) (acc : result estado_matching)
    (rc : string * bucket) : result estado_matching :=
  st <- acc ;;
  let '(ms, nfs_m, recs_m) := st in
  ok <- valores_batem (valor_liquido (snd nf)) (valor_liquido (snd rc)) ;;
  if ok then
    dif <- Dsub (valor_liquido (snd nf)) (valor_liquido (snd rc)) ;;
    Ret (ms ++ [mk_casamento (fst nf) (valor_liquido (snd nf))
                             (fst rc) (valor_liquido (snd rc)) dif],
         nfs_m ++ [fst nf], recs_m ++ [fst rc])
  else Ret st.

(** One turn of the outer loop. *)
Definition passo_nf (recs : dict bucket) (acc : result estado_matching)
    (nf : string * bucket) : result estado_matching :=
  fold_left (passo_rec nf) recs acc.

Definition em (k : string) (l : list string) : bool :=
  existsb (String.eqb k) l.

Definition nao_casados (d : dict bucket) (casados : list string)
    : list bucket :=
  flat_map (fun kv => if em (fst kv) casados then [] else [snd kv]) d.

Definition realizar_matching (st : sistema) : result sistema :=
  r <- fold_left (passo_nf (recebimentos st)) (nfs st)
         (Ret (matches st, [], [])) ;;
  let '(ms, nfs_matcheadas, recs_matcheados) := r in
  Ret (mk_sistema (saldo_inicial st) (data_inicio st) (data_fim st)
         (lancamentos st) (nfs st) (recebimentos st) ms
         (nao_encontrados_nf st ++ nao_casados (nfs st) nfs_matcheadas)
         (nao_encontrados_rec st
          ++ nao_casados (recebimentos st) recs_matcheados)).

(* ------------------------------------------------------------------ *)
(** ** The final balance, computed twice *)










(* ------------------------------------------------------------------ *)
(** ** processar_lancamentos *)

(** The cells of one sheet row that the loop reads: columns B, C, D, J, K
    and L. *)
Record linha_planilha : Type := mk_linha_planilha {
  cel_data : pyval;
  cel_lote : pyval;
  cel_historico : pyval;
  cel_debito : pyval;
  cel_credito : pyval;
  cel_saldo_atual : pyval
}.

Definition novo_bucket (numero : string) : bucket :=
  mk_bucket numero D_zero D_zero D_zero [].

Definition set_lancamentos (st : sistema) (l : list lancamento) : sistema :=
  mk_sistema (saldo_inicial st) (data_inicio st) (data_fim st) l (nfs st)
    (recebimentos st) (matches st) (nao_encontrados_nf st)
    (nao_encontrados_rec st).

Definition set_nfs (st : sistema) (d : dict bucket) : sistema :=
  mk_sistema (saldo_inicial st) (data_inicio st) (data_fim st)
    (lancamentos st) d (recebimentos st) (matches st)
    (nao_encontrados_nf st) (nao_encontrados_rec st).

Definition set_recebimentos (st : sistema) (d : dict bucket) : sistema :=
  mk_sistema (saldo_inicial st) (data_inicio st) (data_fim st)
    (lancamentos st) (nfs st) d (matches st) (nao_encontrados_nf st)
    (nao_encontrados_rec st).

(** The bucket of [numero], created when the number is new. *)
Definition obter_bucket (numero : string) (d : dict bucket) : bucket :=
  match dict_lookup numero d with
  | Some b => b
  | None => novo_bucket numero
  end.

Section Lancamentos.

(** The cascades of regular expressions that find the document number in a
    line's description: lines 252-258 for an invoice, lines 284-290 for a
    receipt.  [None]: no pattern matched. *)
Variable numero_da_nf : string -> option string.
Variable numero_do_recebimento : string -> option string.

Definition processar_nf (st : sistema) (l : lancamento) : result sistema :=
  match numero_da_nf (historico l) with
  | None => Ret st
  | Some numero_nf =>
      let nf := obter_bucket numero_nf (nfs st) in
      td <- Dadd (total_debito nf) (debito l) ;;
      tc <- Dadd (total_credito nf) (credito l) ;;
      vl <- Dsub td tc ;;
      Ret (set_nfs st
             (dict_set numero_nf
                (mk_bucket (numero nf) td tc vl
                   (lancamentos_do_bucket nf ++ [l]))
                (nfs st)))
  end.

Definition processar_recebimento (st : sistema) (l : lancamento)
    : result sistema :=
  match numero_do_recebimento (historico l) with
  | None => Ret st
  | Some numero_rec =>
      let rc := obter_bucket numero_rec (recebimentos st) in
      td <- Dadd (total_debito rc) (debito l) ;;
      tc <- Dadd (total_credito rc) (credito l) ;;
      vl <- Dsub tc td ;;
      Ret (set_recebimentos st
             (dict_set numero_rec
                (mk_bucket (numero rc) td tc vl
                   (lancamentos_do_bucket rc ++ [l]))
                (recebimentos st)))
  end.

Definition str_ou_vazio (v : pyval) : string :=
  if truthy v then py_str v else "".

(** One turn of the loop over the sheet rows. *)
Definition processar_linha (st : sistema) (nl : nat * linha_planilha)
    : result sistema :=
  let '(row_num, c) := nl in
  debito <- parse_valor (cel_debito c) ;;
  credito <- parse_valor (cel_credito c) ;;
  dentro <- esta_no_intervalo st (cel_data c) ;;
  if negb dentro then Ret st
  else
    let l :=
      mk_lancamento row_num (cel_data c) (str_ou_vazio (cel_lote c))
        (str_ou_vazio (cel_historico c)) debito credito
        (str_ou_vazio (cel_saldo_atual c)) in
    let st := set_lancamentos st (lancamentos st ++ [l]) in
    st <-
      (if (truthy (cel_historico c) && truthy (cel_lote c)
           && startswith "008820001" (py_str (cel_lote c)))%bool
       then processar_nf st l else Ret st) ;;
    if ((truthy (cel_lote c) && startswith "008850001" (py_str (cel_lote c)))
        || (truthy (cel_historico c)
            && contains "RECEBIM" (upper (py_str (cel_historico c)))))%bool
    then processar_recebimento st l
    else Ret st.

(** The sheet rows from [data_start_row = 3] on. *)
Definition numerar (rows : list linha_planilha)
    : list (nat * linha_planilha) :=
  combine (seq 3 (List.length rows)) rows.

Definition processar_lancamentos (st : sistema) (rows : list linha_planilha)
    : result sistema :=
  fold_left (fun acc nl => s <- acc ;; processar_linha s nl)
    (numerar rows) (Ret st).

End Lancamentos.

Import PyRe.
Import PyRe.
Local Open Scope string_scope.

(** The class [[\s:]]. *)
Definition espaco_ou_dois_pontos (c : ascii) : bool :=
  (is_space c || Ascii.eqb c ":")%bool.

(** The class [[SE:]] under IGNORECASE. *)
Definition classe_SE (c : ascii) : bool :=
  (letra_ci "S" c || letra_ci "E" c || Ascii.eqb c ":")%bool.

(** [NF[SE:]?[\s:]+(\d+)], IGNORECASE. *)
Definition re_nf : regex :=
  Seq (Lit true "NF")
    (Seq (Opt (Cls classe_SE))
       (Seq (Rep espaco_ou_dois_pontos 1 None true)
          (Grp (Rep is_digit 1 None true)))).

(** [ISS[:\s]+(\d+)], IGNORECASE. *)
Definition re_iss : regex :=
  Seq (Lit true "ISS")
    (Seq (Rep espaco_ou_dois_pontos 1 None true)
       (Grp (Rep is_digit 1 None true))).

(** [(\d{9})]. *)
Definition re_9_digitos : regex := Grp (Rep is_digit 9 (Some 9) true).

(** [(\d{6,})]. *)
Definition re_6_digitos : regex := Grp (Rep is_digit 6 None true).

(** [(\d{7,})]. *)
Definition re_7_digitos : regex := Grp (Rep is_digit 7 None true).

(** [RECEBIM.*?[:\s]+(?:ND)?(\d{6,})], IGNORECASE. *)
Definition re_recebim : regex :=
  Seq (Lit true "RECEBIM")
    (Seq (Rep ponto 0 None false)
       (Seq (Rep espaco_ou_dois_pontos 1 None true)
          (Seq (Opt (Lit true "ND")) re_6_digitos))).

(** [ND(\d{6,})], IGNORECASE. *)
Definition re_nd : regex := Seq (Lit true "ND") re_6_digitos.

(** The number of the invoice in a description: the cascade of searches of
    [processar_nf]. *)
Definition numero_da_nf (historico : string) : option string :=
  primeiro_grupo [re_nf; re_iss; re_9_digitos; re_6_digitos] historico.

(** The number of the receipt in a description: the cascade of searches of
    [processar_recebimento]. *)
Definition numero_do_recebimento (historico : string) : option string :=
  primeiro_grupo [re_recebim; re_nd; re_7_digitos; re_6_digitos] historico.

Local Open Scope string_scope.
Local Open Scope list_scope.

(* ------------------------------------------------------------------ *)
(** ** confrontar_titulos *)















End Cliente.

(* ================================================================== *)
(** * Properties of the text normalisation *)
(* ================================================================== *)

Import PyStr PyNum.

Section TextFacts.

Local Open Scope string_scope.

Lemma between_spec (lo hi : N) (c : ascii) :
  between lo hi c = true <-> (lo <= code c <= hi)%N.
Proof.
  unfold between. rewrite andb_true_iff, !N.leb_le. tauto.
Qed.

Lemma is_AZ09_spec (c : ascii) :
  is_AZ09 c = true -> (48 <= code c <= 57 \/ 65 <= code c <= 90)%N.
Proof.
  unfold is_AZ09, is_AZ, is_digit. rewrite orb_true_iff, !between_spec. tauto.
Qed.

Lemma between_false (lo hi : N) (c : ascii) :
  (code c < lo \/ hi < code c)%N -> between lo hi c = false.
Proof.
  intros H. destruct (between lo hi c) eqn:E; [|reflexivity].
  apply between_spec in E. lia.
Qed.

Lemma is_AZ09_not_space (c : ascii) : is_AZ09 c = true -> is_space c = false.
Proof.
  intros H. apply is_AZ09_spec in H. unfold is_space.
  rewrite !orb_false_iff, !N.eqb_neq.
  repeat split; try (apply between_false); lia.
Qed.

Lemma is_AZ09_not_dash (c : ascii) :
  is_AZ09 c = true -> Ascii.eqb c "-" = false.
Proof.
  intros H. apply is_AZ09_spec in H. apply Ascii.eqb_neq. intros ->.
  cbv in H. destruct H as [[H1 H2]|[H1 H2]];
    first [ now apply H1 | now apply H2 ].
Qed.

Lemma upper_char_AZ09 (c : ascii) :
  is_AZ09 c = true -> upper_char c = String c "".
Proof.
  intros H. apply is_AZ09_spec in H. unfold upper_char, is_az.
  rewrite (between_false 97 122) by lia.
  replace (N.eqb (code c) 223) with false by (symmetry; apply N.eqb_neq; lia).
  rewrite (between_false 224 254) by lia. reflexivity.
Qed.

Lemma str_filter_forall (p : ascii -> bool) (s : string) :
  str_forall p (str_filter p s) = true.
Proof.
  induction s as [|c r IH]; simpl; [reflexivity|].
  destruct (p c) eqn:E; simpl; [rewrite E|]; assumption.
Qed.

Lemma str_filter_id (p : ascii -> bool) (s : string) :
  str_forall p s = true -> str_filter p s = s.
Proof.
  induction s as [|c r IH]; simpl; [reflexivity|].
  intros H. apply andb_true_iff in H as [Hc Hr].
  rewrite Hc, IH by assumption. reflexivity.
Qed.

Lemma upper_AZ09 (s : string) :
  str_forall is_AZ09 s = true -> upper s = s.
Proof.
  induction s as [|c r IH]; simpl; [reflexivity|].
  intros H. apply andb_true_iff in H as [Hc Hr].
  rewrite upper_char_AZ09, IH by assumption. reflexivity.
Qed.

Lemma lstrip_AZ09 (s : string) :
  str_forall is_AZ09 s = true -> lstrip s = s.
Proof.
  destruct s as [|c r]; simpl; [reflexivity|].
  intros H. apply andb_true_iff in H as [Hc _].
  rewrite is_AZ09_not_space by assumption. reflexivity.
Qed.

Lemma rstrip_AZ09 (s : string) :
  str_forall is_AZ09 s = true -> rstrip s = s.
Proof.
  induction s as [|c r IH]; simpl; [reflexivity|].
  intros H. apply andb_true_iff in H as [Hc Hr].
  rewrite is_AZ09_not_space, IH by assumption. reflexivity.
Qed.

Lemma strip_AZ09 (s : string) :
  str_forall is_AZ09 s = true -> strip s = s.
Proof.
  intros H. unfold strip. rewrite lstrip_AZ09 by assumption.
  now apply rstrip_AZ09.
Qed.

Lemma sub_traco_letra_AZ09 (s : string) :
  str_forall is_AZ09 s = true -> Contabil.sub_traco_letra s = s.
Proof.
  induction s as [|c r IH]; [reflexivity|].
  intros H. simpl in H. apply andb_true_iff in H as [Hc Hr].
  simpl. destruct r as [|u r']; [reflexivity|].
  rewrite is_AZ09_not_dash by assumption. simpl.
  f_equal. now apply IH.
Qed.

Lemma sub_traco_digitos_AZ09 (s : string) :
  str_forall is_AZ09 s = true -> Contabil.sub_traco_digitos s = s.
Proof.
  induction s as [|c r IH]; [reflexivity|].
  intros H. simpl in H. apply andb_true_iff in H as [Hc Hr].
  simpl. rewrite is_AZ09_not_dash by assumption.
  f_equal. now apply IH.
Qed.

Lemma prefix_app_l (p q s : string) :
  String.prefix (p ++ q) s = true -> String.prefix p s = true.
Proof.
  revert s. induction p as [|a p IH]; intros s H.
  - now destruct s.
  - destruct s as [|b s]; simpl in *; [discriminate|].
    destruct (ascii_dec a b); [|discriminate]. now apply IH.
Qed.

(** The prefixes of [prefixos_comuns] that carry no dash. *)
Definition prefixos_sem_traco : list string :=
  ["MED"; "FT"; "DP"; "BOL"; "NF"; "RC"; "FOL"].

Lemma cortar_prefixo_nenhum (y : string) :
  (forall p, In p prefixos_sem_traco -> startswith p (upper y) = false) ->
  Contabil.cortar_prefixo Contabil.prefixos_comuns y = y.
Proof.
  intros H.
  assert (Hd : forall p, In p prefixos_sem_traco ->
                 startswith (p ++ "-") (upper y) = false).
  { intros p Hp. destruct (startswith (p ++ "-") (upper y)) eqn:E;
      [|reflexivity].
    apply prefix_app_l in E. unfold startswith in H.
    rewrite (H p Hp) in E. discriminate. }
  assert (Hin : forall p, existsb (String.eqb p) prefixos_sem_traco = true ->
                 In p prefixos_sem_traco).
  { intros p Hp. apply existsb_exists in Hp as (q & Hq & E).
    apply String.eqb_eq in E. now subst. }
  unfold Contabil.prefixos_comuns, Contabil.cortar_prefixo.
  repeat match goal with
  | |- context [startswith ?p (upper y)] =>
      first
        [ rewrite (H p) by (apply Hin; reflexivity)
        | let D := fresh "D" in
          pose proof (Hd (substring 0 (String.length p - 1) p)
                         ltac:(apply Hin; reflexivity)) as D;
          cbn in D; rewrite D; clear D ]
  end.
  reflexivity.
Qed.

Lemma normalizar_texto_AZ09 (x : option string) :
  str_forall is_AZ09 (Contabil.normalizar_texto x) = true.
Proof.
  destruct x as [t|]; simpl; [apply str_filter_forall | reflexivity].
Qed.

(** A text made of capitals and digits that starts with none of the bare
    prefixes is left as it is. *)
Lemma normalizar_texto_fixo (y : string) :
  str_forall is_AZ09 y = true ->
  (forall p, In p prefixos_sem_traco -> startswith p y = false) ->
  Contabil.normalizar_texto (Some y) = y.
Proof.
  intros Hy Hp. unfold Contabil.normalizar_texto, Contabil.limpar_prefixo.
  destruct (is_empty y) eqn:Ee.
  - destruct y; [reflexivity | discriminate].
  - rewrite (strip_AZ09 y) by assumption.
    rewrite cortar_prefixo_nenhum
      by (intros p Hin; rewrite upper_AZ09 by assumption; now apply Hp).
    rewrite (sub_traco_letra_AZ09 y), (sub_traco_digitos_AZ09 y)
      by assumption.
    rewrite (upper_AZ09 y), (strip_AZ09 y) by assumption.
    now apply str_filter_id.
Qed.

End TextFacts.

(** C4, as stated, fails: the prefix loop cuts one prefix per call, so a
    second normalisation cuts the prefix that the first one uncovered.
    [normalizar_texto("FTFT123")] is ["FT123"], whose normalisation is
    ["123"]. *)
Lemma normalizar_texto_nao_idempotente :
  Contabil.normalizar_texto (Some "FTFT123"%string) = "FT123"%string /\
  Contabil.normalizar_texto
    (Some (Contabil.normalizar_texto (Some "FTFT123"%string)))
  = "123"%string /\
  Contabil.normalizar_texto
    (Some (Contabil.normalizar_texto (Some "FTFT123"%string)))
  <> Contabil.normalizar_texto (Some "FTFT123"%string).
Proof.
  repeat split; try reflexivity. vm_compute. discriminate.
Qed.

(** C4, amended: [normalizar_texto] is idempotent on every text whose
    normalised form starts with none of the prefixes MED, FT, DP, BOL, NF,
    RC, FOL. *)
Theorem normalizar_texto_idempotente_sem_prefixo (x : string) :
  (forall p, In p prefixos_sem_traco ->
     startswith p (Contabil.normalizar_texto (Some x)) = false) ->
  Contabil.normalizar_texto (Some (Contabil.normalizar_texto (Some x)))
  = Contabil.normalizar_texto (Some x).
Proof.
  intros H. apply normalizar_texto_fixo; [|exact H].
  apply normalizar_texto_AZ09.
Qed.

Lemma normalizar_texto_idempotente_sem_prefixo_witness :
  Contabil.normalizar_texto (Some "FT-12345-A"%string) = "12345"%string /\
  Contabil.normalizar_texto
    (Some (Contabil.normalizar_texto (Some "FT-12345-A"%string)))
  = Contabil.normalizar_texto (Some "FT-12345-A"%string).
Proof.
  split; [reflexivity|].
  apply (normalizar_texto_idempotente_sem_prefixo "FT-12345-A"%string).
  intros p Hp. unfold prefixos_sem_traco in Hp. simpl in Hp.
  repeat (destruct Hp as [<-|Hp]; [reflexivity|]). contradiction.
Defined.

(* ================================================================== *)
(** * Properties of the amount parsers *)
(* ================================================================== *)

Section ParserFacts.

Local Open Scope string_scope.

Lemma str_forall_impl (p q : ascii -> bool) (s : string) :
  (forall c, p c = true -> q c = true) ->
  str_forall p s = true -> str_forall q s = true.
Proof.
  intros Hpq. induction s as [|c r IH]; simpl; [reflexivity|].
  intros H. apply andb_true_iff in H as [Hc Hr].
  now rewrite (Hpq c Hc), IH.
Qed.

Lemma str_forall_app (p : ascii -> bool) (s t : string) :
  str_forall p (s ++ t) = (str_forall p s && str_forall p t)%bool.
Proof.
  induction s as [|c r IH]; simpl; [reflexivity|].
  now rewrite IH, andb_assoc.
Qed.

(** *** The operations of the parsers bring no new character *)

Lemma has_char_filter (c : ascii) (p : ascii -> bool) (s : string) :
  has_char c s = false -> has_char c (str_filter p s) = false.
Proof.
  induction s as [|a r IH]; simpl; [reflexivity|].
  intros H. apply orb_false_iff in H as [Ha Hr].
  destruct (p a); simpl; [rewrite Ha|]; now apply IH.
Qed.

Lemma has_char_lstrip (c : ascii) (s : string) :
  has_char c s = false -> has_char c (lstrip s) = false.
Proof.
  induction s as [|a r IH]; simpl; [reflexivity|].
  intros H. destruct (is_space a); [|exact H].
  apply orb_false_iff in H as [_ Hr]. now apply IH.
Qed.

Lemma has_char_rstrip (c : ascii) (s : string) :
  has_char c s = false -> has_char c (rstrip s) = false.
Proof.
  induction s as [|a r IH]; simpl; [reflexivity|].
  intros H. apply orb_false_iff in H as [Ha Hr].
  destruct (is_space a && is_empty (rstrip r))%bool; [reflexivity|].
  simpl. rewrite Ha. now apply IH.
Qed.

Lemma has_char_strip (c : ascii) (s : string) :
  has_char c s = false -> has_char c (strip s) = false.
Proof.
  intros H. unfold strip. now apply has_char_rstrip, has_char_lstrip.
Qed.

Lemma has_char_remove_RS (c : ascii) (s : string) :
  has_char c s = false -> has_char c (remove_RS s) = false.
Proof.
  enough (G : forall s,
             (has_char c s = false -> has_char c (remove_RS s) = false) /\
             (forall a, has_char c (String a s) = false ->
                        has_char c (remove_RS (String a s)) = false))
    by apply G.
  clear s. induction s as [|b r [IH1 IH2]]; split; try reflexivity.
  - intros a H. exact H.
  - intros H. now apply IH2.
  - intros a H. simpl in H.
    apply orb_false_iff in H as [Ha H]. apply orb_false_iff in H as [Hb Hr].
    change (remove_RS (String a (String b r)))
      with (if (Ascii.eqb a "R" && Ascii.eqb b "$")%bool
            then remove_RS r else String a (remove_RS (String b r))).
    destruct (Ascii.eqb a "R" && Ascii.eqb b "$")%bool.
    + now apply IH1.
    + simpl has_char. rewrite Ha. apply IH2. simpl. now rewrite Hb, Hr.
Qed.

Lemma has_char_drop_last (c : ascii) (s : string) :
  has_char c s = false -> has_char c (drop_last s) = false.
Proof.
  induction s as [|a r IH]; simpl; [reflexivity|].
  intros H. apply orb_false_iff in H as [Ha Hr].
  destruct r as [|b r']; [reflexivity|].
  simpl has_char at 1. rewrite Ha. now apply IH.
Qed.

Lemma has_char_limpar_valor (c : ascii) (s : string) :
  has_char c s = false -> has_char c (Cliente.limpar_valor (PStr s)) = false.
Proof.
  intros H. unfold Cliente.limpar_valor, remove_char. simpl py_str.
  now apply has_char_filter, has_char_remove_RS, has_char_strip.
Qed.

Lemma trocar_separadores_sem_virgula (s : string) :
  has_char "," s = false -> Cliente.trocar_separadores s = s.
Proof.
  intros H. unfold Cliente.trocar_separadores. now rewrite H.
Qed.

(** *** Texts of digits *)

Lemma span_digits_app (a r : string) :
  str_forall is_digit a = true ->
  match r with "" => True | String c _ => is_digit c = false end ->
  span_digits (a ++ r) = (a, r).
Proof.
  intros Ha Hr. induction a as [|c a IH]; simpl.
  - destruct r as [|c r']; [reflexivity|]. simpl. now rewrite Hr.
  - simpl in Ha. apply andb_true_iff in Ha as [Hc Ha].
    now rewrite Hc, IH.
Qed.

Lemma span_digits_all (a : string) :
  str_forall is_digit a = true -> span_digits a = (a, "").
Proof.
  intros Ha. rewrite <- (span_digits_app a "" Ha I).
  f_equal. induction a as [|c a IH]; simpl; [reflexivity|].
  f_equal. apply IH. simpl in Ha. now apply andb_true_iff in Ha as [_ Ha].
Qed.

Lemma is_digit_not_space (c : ascii) : is_digit c = true -> is_space c = false.
Proof.
  intros H. apply is_AZ09_not_space. unfold is_AZ09. now rewrite H, orb_true_r.
Qed.

End ParserFacts.

Section LiteralFacts.

Local Open Scope string_scope.

Lemma has_char_forall (p : ascii -> bool) (c : ascii) (s : string) :
  str_forall p s = true -> p c = false -> has_char c s = false.
Proof.
  intros Hs Hc. induction s as [|a r IH]; simpl; [reflexivity|].
  simpl in Hs. apply andb_true_iff in Hs as [Ha Hr].
  rewrite IH by assumption. rewrite orb_false_r.
  apply Ascii.eqb_neq. intros ->. congruence.
Qed.

Lemma lstrip_id (s : string) :
  str_forall (fun c => negb (is_space c)) s = true -> lstrip s = s.
Proof.
  destruct s as [|c r]; simpl; [reflexivity|].
  intros H. apply andb_true_iff in H as [Hc _].
  apply negb_true_iff in Hc. now rewrite Hc.
Qed.

Lemma rstrip_id (s : string) :
  str_forall (fun c => negb (is_space c)) s = true -> rstrip s = s.
Proof.
  induction s as [|c r IH]; simpl; [reflexivity|].
  intros H. apply andb_true_iff in H as [Hc Hr].
  apply negb_true_iff in Hc. now rewrite Hc, IH.
Qed.

Lemma strip_id (s : string) :
  str_forall (fun c => negb (is_space c)) s = true -> strip s = s.
Proof.
  intros H. unfold strip. rewrite lstrip_id by assumption.
  now apply rstrip_id.
Qed.

Lemma remove_char_id (c : ascii) (s : string) :
  has_char c s = false -> remove_char c s = s.
Proof.
  induction s as [|a r IH]; simpl; [reflexivity|].
  intros H. apply orb_false_iff in H as [Ha Hr].
  unfold remove_char in *. simpl. rewrite Ha. simpl. now rewrite IH.
Qed.

Lemma remove_RS_id (s : string) :
  has_char "R" s = false -> remove_RS s = s.
Proof.
  induction s as [|a r IH]; [reflexivity|].
  intros H. simpl in H. apply orb_false_iff in H as [Ha Hr].
  simpl. destruct r as [|b r']; [reflexivity|].
  rewrite Ha. simpl. f_equal. now apply IH.
Qed.

Lemma endswith_char_has (c : ascii) (s : string) :
  has_char c s = false -> endswith_char c s = false.
Proof.
  induction s as [|a r IH]; [reflexivity|].
  intros H. simpl in H. apply orb_false_iff in H as [Ha Hr].
  simpl. destruct r as [|b r']; [exact Ha | now apply IH].
Qed.

Lemma endswith_char_app (c : ascii) (s : string) :
  endswith_char c (s ++ String c "") = true.
Proof.
  induction s as [|a r IH]; simpl; [apply Ascii.eqb_refl|].
  destruct (r ++ String c "") eqn:E; [|exact IH].
  destruct r; discriminate.
Qed.

Lemma endswith_char_app_other (c d : ascii) (s : string) :
  Ascii.eqb d c = false -> endswith_char c (s ++ String d "") = false.
Proof.
  intros Hd. induction s as [|a r IH]; simpl; [exact Hd|].
  destruct (r ++ String d "") eqn:E; [|exact IH].
  destruct r; discriminate.
Qed.

Lemma drop_last_app (c : ascii) (s : string) :
  drop_last (s ++ String c "") = s.
Proof.
  induction s as [|a r IH]; simpl; [reflexivity|].
  destruct (r ++ String c "") eqn:E.
  - destruct r; discriminate.
  - now rewrite IH.
Qed.

(** The characters of a plain decimal text: digits and the point. *)
Definition digito_ou_ponto (c : ascii) : bool :=
  (is_digit c || Ascii.eqb c ".")%bool.

Lemma digito_ou_ponto_code (c : ascii) :
  digito_ou_ponto c = true -> (code c = 46 \/ 48 <= code c <= 57)%N.
Proof.
  unfold digito_ou_ponto, is_digit. rewrite orb_true_iff, between_spec.
  intros [H|H]; [now right|]. apply Ascii.eqb_eq in H. subst. now left.
Qed.

Lemma digito_ou_ponto_outro (c d : ascii) :
  digito_ou_ponto c = true ->
  (code d <> 46 /\ (code d < 48 \/ 57 < code d))%N ->
  Ascii.eqb c d = false.
Proof.
  intros Hc Hd. apply digito_ou_ponto_code in Hc.
  apply Ascii.eqb_neq. intros ->. lia.
Qed.

Lemma digito_ou_ponto_not_space (c : ascii) :
  digito_ou_ponto c = true -> negb (is_space c) = true.
Proof.
  intros H. apply digito_ou_ponto_code in H. apply negb_true_iff.
  unfold is_space. rewrite !orb_false_iff, !N.eqb_neq.
  repeat split; try (apply between_false); lia.
Qed.

Lemma sem_caractere (d : ascii) (s : string) :
  str_forall digito_ou_ponto s = true ->
  (code d <> 46 /\ (code d < 48 \/ 57 < code d))%N ->
  has_char d s = false.
Proof.
  intros Hs Hd. apply (has_char_forall digito_ou_ponto); [assumption|].
  destruct (digito_ou_ponto d) eqn:E; [|reflexivity].
  apply digito_ou_ponto_code in E. lia.
Qed.

Lemma lower_char_digito (c : ascii) :
  digito_ou_ponto c = true -> lower_char c = c.
Proof.
  intros H. apply digito_ou_ponto_code in H. unfold lower_char, is_AZ.
  rewrite (between_false 65 90) by lia.
  rewrite (between_false 192 222) by lia. reflexivity.
Qed.

(** A text [a.b] of digits, [a] not empty. *)
Definition texto_decimal (a b : string) : string := a ++ "." ++ b.

Lemma texto_decimal_chars (a b : string) :
  str_forall is_digit a = true -> str_forall is_digit b = true ->
  str_forall digito_ou_ponto (texto_decimal a b) = true.
Proof.
  intros Ha Hb. unfold texto_decimal.
  rewrite str_forall_app. simpl.
  rewrite (str_forall_impl is_digit digito_ou_ponto a),
          (str_forall_impl is_digit digito_ou_ponto b); try assumption;
    try reflexivity;
    intros c Hc; unfold digito_ou_ponto; now rewrite Hc.
Qed.

Lemma parse_number_decimal (a b : string) :
  str_forall is_digit a = true -> str_forall is_digit b = true ->
  a <> "" ->
  parse_number (texto_decimal a b)
  = Some (N_of_digits (a ++ b), (- Z.of_nat (String.length b))%Z).
Proof.
  intros Ha Hb Hne. unfold parse_number, texto_decimal.
  rewrite (span_digits_app a ("." ++ b) Ha) by reflexivity.
  simpl. rewrite (span_digits_all b Hb).
  destruct a as [|c a]; [contradiction|]. reflexivity.
Qed.

(** The head of a text [a.b] is a digit: the text carries no sign and is
    no keyword. *)
Lemma texto_decimal_head (a b : string) :
  str_forall is_digit a = true -> a <> "" ->
  exists c r, texto_decimal a b = String c r /\ is_digit c = true.
Proof.
  intros Ha Hne. destruct a as [|c a]; [contradiction|].
  exists c, (a ++ "." ++ b). split; [reflexivity|].
  simpl in Ha. now apply andb_true_iff in Ha as [Hc _].
Qed.

Lemma is_digit_code (c : ascii) : is_digit c = true -> (48 <= code c <= 57)%N.
Proof. apply between_spec. Qed.

Lemma py_float_decimal (a b : string) :
  str_forall is_digit a = true -> str_forall is_digit b = true ->
  a <> "" ->
  py_float (texto_decimal a b)
  = Some (float_of_literal false (N_of_digits (a ++ b))
            (- Z.of_nat (String.length b))).
Proof.
  intros Ha Hb Hne.
  pose proof (texto_decimal_chars a b Ha Hb) as Hall.
  pose proof (parse_number_decimal a b Ha Hb Hne) as Hpn.
  destruct (texto_decimal_head a b Ha Hne) as (c & r & E & Hc).
  unfold py_float.
  rewrite strip_id
    by (eapply str_forall_impl; [apply digito_ou_ponto_not_space | exact Hall]).
  rewrite (sem_caractere "_" _ Hall) by (cbv; split; [discriminate | now right]).
  simpl andb. cbv iota.
  rewrite remove_char_id
    by (apply (sem_caractere "_" _ Hall); cbv; split; [discriminate | now right]).
  rewrite Hpn || idtac.
  rewrite E in *. unfold split_sign.
  assert (Hplus : Ascii.eqb c "+" = false).
  { apply Ascii.eqb_neq. intros ->. discriminate. }
  assert (Hminus : Ascii.eqb c "-" = false).
  { apply Ascii.eqb_neq. intros ->. discriminate. }
  rewrite Hplus, Hminus. simpl lower.
  rewrite (lower_char_digito c)
    by (unfold digito_ou_ponto; now rewrite Hc).
  assert (Hi : Ascii.eqb c "i" = false).
  { apply Ascii.eqb_neq. intros ->. discriminate. }
  assert (Hn : Ascii.eqb c "n" = false).
  { apply Ascii.eqb_neq. intros ->. discriminate. }
  cbn [String.eqb]. rewrite Hi, Hn. simpl. now rewrite Hpn.
Qed.

Lemma prefix_head_ne (a c : ascii) (p s : string) :
  a <> c -> startswith (String a p) (String c s) = false.
Proof.
  intros H. unfold startswith.
  change (String.prefix (String a p) (String c s))
    with (if ascii_dec a c then String.prefix p s else false).
  destruct (ascii_dec a c); [contradiction | reflexivity].
Qed.

Lemma Decimal_of_string_decimal (a b : string) :
  str_forall is_digit a = true -> str_forall is_digit b = true ->
  a <> "" ->
  Decimal_of_string (texto_decimal a b)
  = Some (DFin false (N_of_digits (a ++ b)) (- Z.of_nat (String.length b))).
Proof.
  intros Ha Hb Hne.
  pose proof (texto_decimal_chars a b Ha Hb) as Hall.
  pose proof (parse_number_decimal a b Ha Hb Hne) as Hpn.
  destruct (texto_decimal_head a b Ha Hne) as (c & r & E & Hc).
  unfold Decimal_of_string.
  rewrite strip_id
    by (eapply str_forall_impl; [apply digito_ou_ponto_not_space | exact Hall]).
  rewrite remove_char_id
    by (apply (sem_caractere "_" _ Hall); cbv; split; [discriminate | now right]).
  rewrite E in *. unfold split_sign.
  assert (Hplus : Ascii.eqb c "+" = false).
  { apply Ascii.eqb_neq. intros ->. discriminate. }
  assert (Hminus : Ascii.eqb c "-" = false).
  { apply Ascii.eqb_neq. intros ->. discriminate. }
  rewrite Hplus, Hminus. simpl lower.
  rewrite (lower_char_digito c)
    by (unfold digito_ou_ponto; now rewrite Hc).
  assert (Hi : Ascii.eqb c "i" = false).
  { apply Ascii.eqb_neq. intros ->. discriminate. }
  assert (Hn : Ascii.eqb c "n" = false).
  { apply Ascii.eqb_neq. intros ->. discriminate. }
  assert (Hs : Ascii.eqb c "s" = false).
  { apply Ascii.eqb_neq. intros ->. discriminate. }
  assert (Pn : startswith "nan" (String c (lower r)) = false).
  { apply prefix_head_ne. intros <-. discriminate. }
  assert (Ps : startswith "snan" (String c (lower r)) = false).
  { apply prefix_head_ne. intros <-. discriminate. }
  cbn [String.eqb]. rewrite Hi, Pn, Ps. simpl. now rewrite Hpn.
Qed.

End LiteralFacts.

Section PontoDecimal.

Local Open Scope string_scope.

Lemma to_float_br_sem_virgula (s : string) :
  has_char "," s = false ->
  Contabil.to_float_br (PStr s)
  = Ret (let t := strip s in
         if (String.eqb t "" || String.eqb (lower t) "nan")%bool then zero
         else try_except (Contabil.float_of (PStr (remove_char " " t))) zero).
Proof.
  intros H. unfold Contabil.to_float_br. simpl.
  destruct (String.eqb (strip s) "" || String.eqb (lower (strip s)) "nan")%bool;
    [reflexivity|].
  assert (G : has_char "," (remove_char " " (strip s)) = false)
    by (unfold remove_char; now apply has_char_filter, has_char_strip).
  now rewrite G.
Qed.

Lemma separar_sufixo_sem_virgula (t : string) :
  has_char "," t = false ->
  has_char "," (fst (Cliente.separar_sufixo t)) = false.
Proof.
  intros H. unfold Cliente.separar_sufixo.
  destruct (endswith_char "D" t); [|destruct (endswith_char "C" t)]; simpl;
    try assumption; now apply has_char_strip, has_char_drop_last.
Qed.

Lemma parse_valor_sem_virgula (s : string) :
  has_char "," s = false ->
  Cliente.parse_valor (PStr s)
  = if is_empty s then Ret D_zero
    else
      let '(t, m) := Cliente.separar_sufixo (Cliente.limpar_valor (PStr s)) in
      Ret (try_except (d <- Cliente.Decimal_str t ;; Dmul d m) D_zero).
Proof.
  intros H. unfold Cliente.parse_valor. simpl.
  destruct (is_empty s); [reflexivity|].
  pose proof (separar_sufixo_sem_virgula _ (has_char_limpar_valor "," s H)) as G.
  destruct (Cliente.separar_sufixo (Cliente.limpar_valor (PStr s))) as [t m].
  simpl in G. now rewrite trocar_separadores_sem_virgula.
Qed.

Lemma texto_decimal_limpo (a b : string) (d : ascii) :
  str_forall is_digit a = true -> str_forall is_digit b = true ->
  (code d <> 46 /\ (code d < 48 \/ 57 < code d))%N ->
  has_char d (texto_decimal a b) = false.
Proof.
  intros Ha Hb Hd. apply sem_caractere; [|assumption].
  now apply texto_decimal_chars.
Qed.

Lemma to_float_br_decimal (a b : string) :
  str_forall is_digit a = true -> str_forall is_digit b = true ->
  a <> "" ->
  Contabil.to_float_br (PStr (texto_decimal a b))
  = Ret (float_of_literal false (N_of_digits (a ++ b))
           (- Z.of_nat (String.length b))).
Proof.
  intros Ha Hb Hne.
  rewrite to_float_br_sem_virgula
    by (apply texto_decimal_limpo; try assumption; cbv;
        split; [discriminate | now left]).
  pose proof (texto_decimal_chars a b Ha Hb) as Hall.
  cbv zeta.
  rewrite strip_id
    by (eapply str_forall_impl; [apply digito_ou_ponto_not_space | exact Hall]).
  rewrite remove_char_id
    by (apply texto_decimal_limpo; try assumption; cbv;
        split; [discriminate | now left]).
  unfold Contabil.float_of. rewrite py_float_decimal by assumption.
  destruct (texto_decimal_head a b Ha Hne) as (c & r & E & Hc).
  rewrite E. simpl lower.
  rewrite (lower_char_digito c) by (unfold digito_ou_ponto; now rewrite Hc).
  assert (Hn : Ascii.eqb c "n" = false).
  { apply Ascii.eqb_neq. intros ->. discriminate. }
  cbn [String.eqb orb]. now rewrite Hn.
Qed.

Lemma Dmul_um (s : bool) (c : N) (e : Z) :
  Dmul (DFin s c e) Cliente.D_um = fix_ctx s c e.
Proof.
  unfold Dmul, Cliente.D_um. simpl.
  now rewrite xorb_false_r, N.mul_1_r, Z.add_0_r.
Qed.

Lemma Dmul_menos_um (s : bool) (c : N) (e : Z) :
  Dmul (DFin s c e) Cliente.D_menos_um = fix_ctx (negb s) c e.
Proof.
  unfold Dmul, Cliente.D_menos_um. simpl.
  now rewrite xorb_true_r, N.mul_1_r, Z.add_0_r.
Qed.

Lemma parse_valor_decimal (a b : string) :
  str_forall is_digit a = true -> str_forall is_digit b = true ->
  a <> "" ->
  Cliente.parse_valor (PStr (texto_decimal a b))
  = Ret (try_except
           (fix_ctx false (N_of_digits (a ++ b))
              (- Z.of_nat (String.length b)))
           D_zero).
Proof.
  intros Ha Hb Hne.
  assert (Hno : forall d, (code d <> 46 /\ (code d < 48 \/ 57 < code d))%N ->
                  has_char d (texto_decimal a b) = false)
    by (intros d Hd; now apply texto_decimal_limpo).
  rewrite parse_valor_sem_virgula
    by (apply Hno; cbv; split; [discriminate | now left]).
  pose proof (texto_decimal_chars a b Ha Hb) as Hall.
  destruct (texto_decimal_head a b Ha Hne) as (c & r & E & Hc).
  replace (is_empty (texto_decimal a b)) with false by now rewrite E.
  assert (L : Cliente.limpar_valor (PStr (texto_decimal a b))
              = texto_decimal a b).
  { unfold Cliente.limpar_valor. simpl py_str.
    rewrite strip_id
      by (eapply str_forall_impl;
          [apply digito_ou_ponto_not_space | exact Hall]).
    rewrite remove_RS_id
      by (apply Hno; cbv; split; [discriminate | now right]).
    apply remove_char_id, Hno. cbv. split; [discriminate | now left]. }
  rewrite L. unfold Cliente.separar_sufixo.
  rewrite !endswith_char_has
    by (apply Hno; cbv; split; [discriminate | now right]).
  unfold Cliente.Decimal_str.
  rewrite Decimal_of_string_decimal by assumption.
  simpl bind. now rewrite Dmul_um.
Qed.

End PontoDecimal.

(** C9: in a text with no comma both parsers leave every point in place,
    and the text is read by [float()] and [Decimal()], for which the point
    is the decimal point: digits [a], a point and digits [b] are read as
    the number [ab * 10^(-|b|)], not as the integer [ab]. *)
Theorem ponto_sem_virgula_e_ponto_decimal (s : string) :
  has_char "," s = false ->
  Contabil.to_float_br (PStr s)
  = Ret (let t := strip s in
         if (String.eqb t "" || String.eqb (lower t) "nan")%bool then zero
         else try_except (Contabil.float_of (PStr (remove_char " " t))) zero)
  /\
  Cliente.parse_valor (PStr s)
  = (if is_empty s then Ret D_zero
     else
       let '(t, m) := Cliente.separar_sufixo (Cliente.limpar_valor (PStr s)) in
       Ret (try_except (d <- Cliente.Decimal_str t ;; Dmul d m) D_zero))
  /\
  (forall a b : string,
     s = texto_decimal a b ->
     str_forall is_digit a = true -> str_forall is_digit b = true ->
     a <> ""%string ->
     Contabil.to_float_br (PStr s)
     = Ret (float_of_literal false (N_of_digits (a ++ b))
              (- Z.of_nat (String.length b)))
     /\
     Cliente.parse_valor (PStr s)
     = Ret (try_except
              (fix_ctx false (N_of_digits (a ++ b))
                 (- Z.of_nat (String.length b)))
              D_zero)).
Proof.
  intros H. split; [|split].
  - now apply to_float_br_sem_virgula.
  - now apply parse_valor_sem_virgula.
  - intros a b -> Ha Hb Hne. split.
    + now apply to_float_br_decimal.
    + now apply parse_valor_decimal.
Qed.

(** The text "1.000" is read as one by both parsers (as the Decimal
    1.000), and as a thousand only once a comma follows. *)
Lemma ponto_sem_virgula_e_ponto_decimal_witness :
  Contabil.to_float_br (PStr "1.000") = Ret one /\
  Cliente.parse_valor (PStr "1.000") = Ret (DFin false 1000 (-3)) /\
  Contabil.to_float_br (PStr "1.000,00") = Ret 1000%float /\
  Cliente.parse_valor (PStr "1.000,00") = Ret (DFin false 100000 (-2)).
Proof.
  destruct (ponto_sem_virgula_e_ponto_decimal "1.000" eq_refl)
    as (_ & _ & H).
  destruct (H "1"%string "000"%string eq_refl eq_refl eq_refl
              ltac:(discriminate)) as [Hf Hd].
  split; [|split; [|split]].
  - rewrite Hf. reflexivity.
  - rewrite Hd. reflexivity.
  - reflexivity.
  - reflexivity.
Defined.

Section Sufixo.

Local Open Scope string_scope.

(** The characters of an amount text: digits, the two separators and the
    signs. *)
Definition caractere_de_valor (c : ascii) : bool :=
  (is_digit c || Ascii.eqb c "." || Ascii.eqb c "," || Ascii.eqb c "+"
   || Ascii.eqb c "-")%bool.

Lemma caractere_de_valor_code (c : ascii) :
  caractere_de_valor c = true -> (43 <= code c <= 57 /\ code c <> 47)%N.
Proof.
  unfold caractere_de_valor, is_digit.
  rewrite !orb_true_iff, between_spec, !Ascii.eqb_eq.
  intros [[[[H|H]|H]|H]|H];
    [lia | subst; cbv; repeat split; intro; discriminate ..].
Qed.

Definition fora_de_valor (d : ascii) : Prop :=
  (code d < 43 \/ 57 < code d \/ code d = 47)%N.

Lemma fora_de_valor_false (d : ascii) :
  fora_de_valor d -> caractere_de_valor d = false.
Proof.
  intros H. destruct (caractere_de_valor d) eqn:E; [|reflexivity].
  apply caractere_de_valor_code in E. unfold fora_de_valor in H. lia.
Qed.

Lemma sem_caractere_valor (d : ascii) (s : string) :
  str_forall caractere_de_valor s = true -> fora_de_valor d ->
  has_char d s = false.
Proof.
  intros Hs Hd. apply (has_char_forall caractere_de_valor); [assumption|].
  now apply fora_de_valor_false.
Qed.

Lemma caractere_de_valor_not_space (c : ascii) :
  caractere_de_valor c = true -> negb (is_space c) = true.
Proof.
  intros H. apply caractere_de_valor_code in H. apply negb_true_iff.
  unfold is_space. rewrite !orb_false_iff, !N.eqb_neq.
  repeat split; try (apply between_false); lia.
Qed.

Lemma has_char_app (d : ascii) (s t : string) :
  has_char d (s ++ t) = (has_char d s || has_char d t)%bool.
Proof.
  induction s as [|c r IH]; simpl; [reflexivity|].
  now rewrite IH, orb_assoc.
Qed.

Lemma lower_app (s t : string) : lower (s ++ t) = lower s ++ lower t.
Proof.
  induction s as [|c r IH]; simpl; [reflexivity|]. now rewrite IH.
Qed.

Lemma str_filter_app (p : ascii -> bool) (s t : string) :
  str_filter p (s ++ t) = str_filter p s ++ str_filter p t.
Proof.
  induction s as [|c r IH]; simpl; [reflexivity|].
  destruct (p c); simpl; now rewrite IH.
Qed.

Lemma replace_char_app (c d : ascii) (s t : string) :
  replace_char c d (s ++ t) = replace_char c d s ++ replace_char c d t.
Proof.
  induction s as [|a r IH]; simpl; [reflexivity|]. now rewrite IH.
Qed.

Lemma str_forall_filter (p q : ascii -> bool) (s : string) :
  str_forall p s = true -> str_forall p (str_filter q s) = true.
Proof.
  induction s as [|c r IH]; simpl; [reflexivity|].
  intros H. apply andb_true_iff in H as [Hc Hr].
  destruct (q c); simpl; [rewrite Hc|]; now apply IH.
Qed.

Lemma str_forall_replace_virgula (s : string) :
  str_forall caractere_de_valor s = true ->
  str_forall caractere_de_valor (replace_char "," "." s) = true.
Proof.
  induction s as [|c r IH]; simpl; [reflexivity|].
  intros H. apply andb_true_iff in H as [Hc Hr].
  rewrite IH by assumption. destruct (Ascii.eqb c ","); [reflexivity|].
  now rewrite Hc.
Qed.

(** The two suffix letters. *)
Definition letra_sufixo (x : ascii) : Prop := x = "D"%char \/ x = "C"%char.

Lemma letra_sufixo_fora (x : ascii) : letra_sufixo x -> fora_de_valor x.
Proof. intros [->| ->]; cbv; right; left; reflexivity. Qed.

Lemma sufixado_limpo (w : string) (x d : ascii) :
  str_forall caractere_de_valor w = true -> letra_sufixo x ->
  fora_de_valor d -> Ascii.eqb x d = false ->
  has_char d (w ++ String x "") = false.
Proof.
  intros Hw Hx Hd Hxd. rewrite has_char_app, sem_caractere_valor by assumption.
  simpl. now rewrite Hxd.
Qed.

Lemma sufixado_sem_espaco (w : string) (x : ascii) :
  str_forall caractere_de_valor w = true -> letra_sufixo x ->
  str_forall (fun c => negb (is_space c)) (w ++ String x "") = true.
Proof.
  intros Hw Hx. rewrite str_forall_app.
  rewrite (str_forall_impl caractere_de_valor _ w
             caractere_de_valor_not_space Hw).
  destruct Hx as [->| ->]; reflexivity.
Qed.

(** *** parse_valor on a suffixed text *)

Lemma limpar_valor_sufixado (w : string) (x : ascii) :
  str_forall caractere_de_valor w = true -> letra_sufixo x ->
  Cliente.limpar_valor (PStr (w ++ String x "")) = w ++ String x "".
Proof.
  intros Hw Hx. unfold Cliente.limpar_valor. simpl py_str.
  rewrite strip_id by now apply sufixado_sem_espaco.
  rewrite remove_RS_id
    by (apply sufixado_limpo; try assumption;
        [cbv; right; left; reflexivity | destruct Hx as [->| ->]; reflexivity]).
  apply remove_char_id, sufixado_limpo; try assumption;
    [cbv; left; reflexivity | destruct Hx as [->| ->]; reflexivity].
Qed.

Lemma limpar_valor_simples (w : string) :
  str_forall caractere_de_valor w = true ->
  Cliente.limpar_valor (PStr w) = w.
Proof.
  intros Hw. unfold Cliente.limpar_valor. simpl py_str.
  rewrite strip_id
    by (eapply str_forall_impl; [apply caractere_de_valor_not_space | exact Hw]).
  rewrite remove_RS_id
    by (apply sem_caractere_valor; [assumption | cbv; right; left; reflexivity]).
  apply remove_char_id, sem_caractere_valor;
    [assumption | cbv; left; reflexivity].
Qed.

Lemma is_empty_app_char (w : string) (x : ascii) :
  is_empty (w ++ String x "") = false.
Proof. now destruct w. Qed.

Lemma parse_valor_sufixo_D (w : string) :
  str_forall caractere_de_valor w = true ->
  Cliente.parse_valor (PStr (w ++ "D"))
  = Ret (try_except
           (d <- Cliente.Decimal_str (Cliente.trocar_separadores w) ;;
            Dmul d Cliente.D_um) D_zero).
Proof.
  intros Hw. unfold Cliente.parse_valor.
  simpl Cliente.is_None. simpl Cliente.isinstance_int_float.
  unfold Cliente.eq_vazio. rewrite is_empty_app_char. simpl orb. cbv iota.
  rewrite limpar_valor_sufixado by (try assumption; now left).
  unfold Cliente.separar_sufixo.
  rewrite endswith_char_app, drop_last_app.
  rewrite strip_id
    by (eapply str_forall_impl; [apply caractere_de_valor_not_space | exact Hw]).
  reflexivity.
Qed.

Lemma parse_valor_sufixo_C (w : string) :
  str_forall caractere_de_valor w = true ->
  Cliente.parse_valor (PStr (w ++ "C"))
  = Ret (try_except
           (d <- Cliente.Decimal_str (Cliente.trocar_separadores w) ;;
            Dmul d Cliente.D_menos_um) D_zero).
Proof.
  intros Hw. unfold Cliente.parse_valor.
  simpl Cliente.is_None. simpl Cliente.isinstance_int_float.
  unfold Cliente.eq_vazio. rewrite is_empty_app_char. simpl orb. cbv iota.
  rewrite limpar_valor_sufixado by (try assumption; now right).
  unfold Cliente.separar_sufixo.
  rewrite (endswith_char_app_other "D" "C") by reflexivity.
  rewrite endswith_char_app, drop_last_app.
  rewrite strip_id
    by (eapply str_forall_impl; [apply caractere_de_valor_not_space | exact Hw]).
  reflexivity.
Qed.

Lemma parse_valor_simples (w : string) :
  str_forall caractere_de_valor w = true ->
  Cliente.parse_valor (PStr w)
  = Ret (try_except
           (d <- Cliente.Decimal_str (Cliente.trocar_separadores w) ;;
            Dmul d Cliente.D_um) D_zero).
Proof.
  intros Hw. unfold Cliente.parse_valor.
  simpl Cliente.is_None. simpl Cliente.isinstance_int_float.
  unfold Cliente.eq_vazio. destruct (is_empty w) eqn:E.
  - destruct w; [reflexivity | discriminate].
  - simpl orb. cbv iota. rewrite limpar_valor_simples by assumption.
    unfold Cliente.separar_sufixo.
    rewrite !endswith_char_has
      by (apply sem_caractere_valor;
          [assumption | cbv; right; left; reflexivity]).
    reflexivity.
Qed.

(** *** to_float_br on a suffixed text *)

(** A text of amount characters that ends with a suffix letter. *)
Definition sufixado (x : ascii) (s : string) : Prop :=
  exists w, s = w ++ String x "" /\ str_forall caractere_de_valor w = true.

Lemma letra_sufixo_not_digit (x : ascii) :
  letra_sufixo x -> is_digit x = false.
Proof. intros [->| ->]; reflexivity. Qed.

Lemma span_digits_sufixado (x : ascii) (s : string) :
  letra_sufixo x -> sufixado x s -> sufixado x (snd (span_digits s)).
Proof.
  intros Hx (w & -> & Hw). induction w as [|c w IH]; simpl.
  - rewrite letra_sufixo_not_digit by assumption. simpl.
    now exists "".
  - simpl in Hw. apply andb_true_iff in Hw as [Hc Hw].
    destruct (is_digit c).
    + specialize (IH Hw).
      destruct (span_digits (w ++ String x "")) as [d t]. exact IH.
    + simpl. exists (String c w). split; [reflexivity|].
      simpl. now rewrite Hc, Hw.
Qed.

Lemma sufixado_head (x : ascii) (s : string) :
  letra_sufixo x -> sufixado x s ->
  exists c t, s = String c t /\
    Ascii.eqb c "e" = false /\ Ascii.eqb c "E" = false /\
    (Ascii.eqb c "." = true -> sufixado x t).
Proof.
  intros Hx (w & -> & Hw). destruct w as [|c w]; simpl.
  - exists x, "". destruct Hx as [->| ->]; repeat split; discriminate.
  - simpl in Hw. apply andb_true_iff in Hw as [Hc Hw].
    exists c, (w ++ String x ""). split; [reflexivity|].
    apply caractere_de_valor_code in Hc.
    repeat split.
    + apply Ascii.eqb_neq. intros ->.
      pose proof (eq_refl : code "e"%char = 101%N). lia.
    + apply Ascii.eqb_neq. intros ->.
      pose proof (eq_refl : code "E"%char = 69%N). lia.
    + intros _. now exists w.
Qed.

Lemma parse_number_sufixado (x : ascii) (s : string) :
  letra_sufixo x -> sufixado x s -> parse_number s = None.
Proof.
  intros Hx Hs. unfold parse_number.
  pose proof (span_digits_sufixado x s Hx Hs) as H1.
  destruct (span_digits s) as [ip r1]. simpl in H1.
  assert (H2 : exists fp r2,
             match r1 with
             | String c t =>
                 if Ascii.eqb c "." then span_digits t else ("", r1)
             | "" => ("", r1)
             end = (fp, r2) /\ sufixado x r2).
  { destruct (sufixado_head x r1 Hx H1) as (c & t & -> & _ & _ & Hp).
    destruct (Ascii.eqb c ".") eqn:E.
    - pose proof (span_digits_sufixado x t Hx (Hp eq_refl)) as H3.
      destruct (span_digits t) as [fp r2]. now exists fp, r2.
    - now exists "", (String c t). }
  destruct H2 as (fp & r2 & -> & H3).
  destruct (is_empty ip && is_empty fp)%bool; [reflexivity|].
  destruct (sufixado_head x r2 Hx H3) as (c & t & -> & He & HE & _).
  now rewrite He, HE.
Qed.

Lemma eqb_endswith (c : ascii) (s k : string) :
  endswith_char c s = true -> endswith_char c k = false ->
  String.eqb s k = false.
Proof.
  intros Hs Hk. destruct (String.eqb s k) eqn:E; [|reflexivity].
  apply String.eqb_eq in E. subst. congruence.
Qed.

Lemma lower_sufixado_palavra (x : ascii) (w k : string) :
  letra_sufixo x ->
  endswith_char "d" k = false -> endswith_char "c" k = false ->
  String.eqb (lower (w ++ String x "")) k = false.
Proof.
  intros Hx Hd Hc. rewrite lower_app. simpl.
  destruct Hx as [->| ->].
  - apply (eqb_endswith "d"); [apply endswith_char_app | assumption].
  - apply (eqb_endswith "c"); [apply endswith_char_app | assumption].
Qed.

Lemma py_float_sufixado (x : ascii) (w : string) :
  letra_sufixo x -> str_forall caractere_de_valor w = true ->
  py_float (w ++ String x "") = None.
Proof.
  intros Hx Hw. unfold py_float.
  rewrite strip_id by now apply sufixado_sem_espaco.
  assert (Hu : has_char "_" (w ++ String x "") = false).
  { apply sufixado_limpo; try assumption;
      [cbv; right; left; reflexivity | destruct Hx as [->| ->]; reflexivity]. }
  rewrite Hu. simpl andb. cbv iota. rewrite remove_char_id by assumption.
  assert (G : exists neg w',
             split_sign (w ++ String x "") = (neg, w' ++ String x "")
             /\ str_forall caractere_de_valor w' = true).
  { unfold split_sign. destruct w as [|c w]; simpl.
    - exists false, "". destruct Hx as [->| ->]; now split.
    - simpl in Hw. apply andb_true_iff in Hw as [Hc Hw'].
      destruct (Ascii.eqb c "+"); [now exists false, w|].
      destruct (Ascii.eqb c "-"); [now exists true, w|].
      exists false, (String c w). split; [reflexivity|].
      simpl. now rewrite Hc, Hw'. }
  destruct G as (neg & w' & -> & Hw').
  rewrite !lower_sufixado_palavra by (try assumption; reflexivity).
  simpl orb. cbv iota.
  rewrite (parse_number_sufixado x) by (try assumption; now exists w').
  reflexivity.
Qed.

Lemma to_float_br_sufixado (x : ascii) (w : string) :
  letra_sufixo x -> str_forall caractere_de_valor w = true ->
  Contabil.to_float_br (PStr (w ++ String x "")) = Ret zero.
Proof.
  intros Hx Hw. unfold Contabil.to_float_br. simpl.
  rewrite strip_id by now apply sufixado_sem_espaco.
  replace (String.eqb (w ++ String x "") "") with false
    by (now destruct w).
  rewrite lower_sufixado_palavra by (try assumption; reflexivity).
  simpl orb. cbv iota.
  rewrite remove_char_id
    by (apply sufixado_limpo; try assumption;
        [cbv; left; reflexivity | destruct Hx as [->| ->]; reflexivity]).
  destruct (has_char "," (w ++ String x "")).
  - unfold remove_char. rewrite str_filter_app, replace_char_app.
    replace (replace_char "," "."
               (str_filter (fun c => negb (Ascii.eqb c ".")) (String x "")))
      with (String x "") by (destruct Hx as [->| ->]; reflexivity).
    rewrite py_float_sufixado;
      [reflexivity | assumption
      | now apply str_forall_replace_virgula, str_forall_filter].
  - now rewrite py_float_sufixado.
Qed.

End Sufixo.

(** C7, as stated, fails for [to_float_br], which has no suffix handling:
    the text "100" reads as 100, but "100C" and "100D" read as 0.0 (the
    fallback for a text [float()] rejects), not as -100 and 100. *)
Lemma to_float_br_ignora_sufixo :
  Contabil.to_float_br (PStr "100") = Ret 100%float /\
  Contabil.to_float_br (PStr "100C") = Ret zero /\
  Contabil.to_float_br (PStr "100D") = Ret zero /\
  Contabil.to_float_br (PStr "100C") <> Ret (100 * -1)%float /\
  Contabil.to_float_br (PStr "100D") <> Ret (100 * 1)%float.
Proof.
  repeat split; try reflexivity;
    intros H; vm_compute in H;
    assert (E : forall a b : float, @Ret float a = Ret b ->
                  Prim2SF a = Prim2SF b) by (intros a b [= ->]; reflexivity);
    apply E in H; vm_compute in H; discriminate.
Qed.

(** C7, amended: [parse_valor], given an amount text followed by D (resp.
    C), returns the magnitude the text reads as multiplied by +1 (resp.
    -1): the sign is kept (resp. flipped), and the D result is the result
    for the text alone.  [to_float_br] handles no suffix and returns 0.0
    for every such text. *)
Theorem parse_valor_sufixo_D_C (w : string) (s : bool) (c : N) (e : Z) :
  str_forall caractere_de_valor w = true ->
  Decimal_of_string (Cliente.trocar_separadores w) = Some (DFin s c e) ->
  Cliente.parse_valor (PStr (w ++ "D"))
  = Ret (try_except (Dmul (DFin s c e) Cliente.D_um) D_zero) /\
  Cliente.parse_valor (PStr (w ++ "C"))
  = Ret (try_except (Dmul (DFin s c e) Cliente.D_menos_um) D_zero) /\
  Dmul (DFin s c e) Cliente.D_um = fix_ctx s c e /\
  Dmul (DFin s c e) Cliente.D_menos_um = fix_ctx (negb s) c e /\
  Cliente.parse_valor (PStr (w ++ "D")) = Cliente.parse_valor (PStr w) /\
  Contabil.to_float_br (PStr (w ++ "D")) = Ret zero /\
  Contabil.to_float_br (PStr (w ++ "C")) = Ret zero.
Proof.
  intros Hw Hd.
  rewrite parse_valor_sufixo_D, parse_valor_sufixo_C, parse_valor_simples
    by assumption.
  unfold Cliente.Decimal_str. rewrite Hd. simpl bind.
  split; [reflexivity|]. split; [reflexivity|].
  split; [apply Dmul_um|]. split; [apply Dmul_menos_um|].
  split; [reflexivity|]. split.
  - apply (to_float_br_sufixado "D"); [now left | assumption].
  - apply (to_float_br_sufixado "C"); [now right | assumption].
Qed.

Lemma parse_valor_sufixo_D_C_witness :
  Cliente.parse_valor (PStr "1.000,50D") = Ret (DFin false 100050 (-2)) /\
  Cliente.parse_valor (PStr "1.000,50C") = Ret (DFin true 100050 (-2)) /\
  Cliente.parse_valor (PStr "1.000,50") = Ret (DFin false 100050 (-2)) /\
  Contabil.to_float_br (PStr "1.000,50C") = Ret zero.
Proof.
  destruct (parse_valor_sufixo_D_C "1.000,50" false 100050 (-2)
              eq_refl eq_refl) as (HD & HC & _ & _ & Hw & _ & HF).
  split; [|split; [|split]].
  - exact HD.
  - exact HC.
  - exact (eq_trans (eq_sym Hw) HD).
  - exact HF.
Defined.

(** C8: the soft fallback covers texts, [None] and NaN floats, but not every
    input.  [parse_valor] converts a number outside its [try] block, and a
    bool is an int whose [str()] [Decimal] rejects: [parse_valor(True)]
    raises InvalidOperation.  A text that spells NaN with a sign or an inner
    space passes the "nan" test of [to_float_br], and "NaN" is a Decimal for
    [parse_valor]: both return a NaN, not zero. *)
Theorem parsers_totais_so_em_texto :
  (forall s, exists f, Contabil.to_float_br (PStr s) = Ret f) /\
  (forall s, exists d, Cliente.parse_valor (PStr s) = Ret d) /\
  Contabil.to_float_br PNone = Ret zero /\
  Cliente.parse_valor PNone = Ret D_zero /\
  Contabil.to_float_br (PFloat nan) = Ret zero /\
  Contabil.to_float_br (PStr "abc") = Ret zero /\
  Cliente.parse_valor (PStr "abc") = Ret D_zero /\
  Cliente.parse_valor (PBool true) = Raise InvalidOperation /\
  Cliente.parse_valor (PBool false) = Raise InvalidOperation /\
  Contabil.to_float_br (PInt (10 ^ 400)) = Raise OverflowError /\
  Contabil.to_float_br (PStr "-nan") = Ret nan /\
  Contabil.to_float_br (PStr "n an") = Ret nan /\
  Cliente.parse_valor (PStr "NaN") = Ret (DNaN false) /\
  Cliente.parse_valor (PFloat nan) = Ret (DNaN false).
Proof.
  split; [|split].
  - intros s. unfold Contabil.to_float_br. simpl.
    destruct (String.eqb (strip s) "" || String.eqb (lower (strip s)) "nan")%bool;
      eexists; reflexivity.
  - intros s. unfold Cliente.parse_valor. simpl.
    destruct (is_empty s); [eexists; reflexivity|].
    destruct (Cliente.separar_sufixo (Cliente.limpar_valor (PStr s))).
    eexists; reflexivity.
  - repeat (split; [vm_compute; reflexivity|]). vm_compute. reflexivity.
Qed.

(* ================================================================== *)
(** * Properties of binary64 comparisons *)
(* ================================================================== *)

Section FloatFacts.

Lemma is_nan_Prim2SF (x : float) :
  is_nan x = false -> Prim2SF x <> S754_nan.
Proof.
  unfold is_nan. rewrite eqb_spec. intros H E. rewrite E in H. discriminate.
Qed.

Lemma is_infinity_Prim2SF (x : float) (s : bool) :
  is_infinity x = false -> Prim2SF x <> S754_infinity s.
Proof.
  unfold is_infinity. rewrite eqb_spec, abs_spec. intros H E.
  rewrite E in H. discriminate.
Qed.

(** A finite float is a zero or a finite number. *)
Definition SF_finito (v : spec_float) : Prop :=
  match v with
  | S754_zero _ | S754_finite _ _ _ => True
  | _ => False
  end.

Lemma is_finite_Prim2SF (x : float) :
  is_finite x = true -> SF_finito (Prim2SF x).
Proof.
  unfold is_finite. intros H. apply negb_true_iff, orb_false_iff in H as [Hn Hi].
  pose proof (is_nan_Prim2SF x Hn). 
  destruct (Prim2SF x) eqn:E; simpl; auto.
  exact (is_infinity_Prim2SF x s Hi E).
Qed.

Lemma shr_1_nonneg (mrs : shr_record) :
  (0 <= shr_m mrs)%Z -> (0 <= shr_m (shr_1 mrs))%Z.
Proof.
  destruct mrs as [m r s]. simpl. intros H.
  destruct m as [|p|p]; simpl; try lia; destruct p; simpl; lia.
Qed.

Lemma iter_pos_shr_1_nonneg (p : positive) (mrs : shr_record) :
  (0 <= shr_m mrs)%Z -> (0 <= shr_m (iter_pos shr_1 p mrs))%Z.
Proof.
  revert mrs. induction p as [p IH|p IH|]; intros mrs H; simpl.
  - apply IH, IH, shr_1_nonneg, H.
  - apply IH, IH, H.
  - apply shr_1_nonneg, H.
Qed.

Lemma shr_fexp_nonneg (m e : Z) (l : location) :
  (0 <= m)%Z -> (0 <= shr_m (fst (shr_fexp prec emax m e l)))%Z.
Proof.
  intros H. unfold shr_fexp, shr.
  assert (G : (0 <= shr_m (shr_record_of_loc m l))%Z)
    by (destruct l as [|[| |]]; exact H).
  destruct (fexp prec emax (Zdigits2 m + e) - e)%Z; simpl; try exact G.
  now apply iter_pos_shr_1_nonneg.
Qed.

Lemma round_nearest_even_nonneg (m : Z) (l : location) :
  (0 <= m)%Z -> (0 <= round_nearest_even m l)%Z.
Proof.
  intros H. destruct l as [|[| |]]; simpl; try lia.
  destruct (Z.even m); lia.
Qed.

Lemma binary_round_aux_not_nan (s : bool) (m e : Z) (l : location) :
  (0 <= m)%Z -> binary_round_aux prec emax s m e l <> S754_nan.
Proof.
  intros H. unfold binary_round_aux.
  pose proof (shr_fexp_nonneg m e l H) as H1.
  destruct (shr_fexp prec emax m e l) as [mrs' e']. simpl in H1.
  pose proof (shr_fexp_nonneg _ e' loc_Exact
                (round_nearest_even_nonneg _ (loc_of_shr_record mrs') H1)) as H2.
  destruct (shr_fexp prec emax _ e' loc_Exact) as [mrs'' e'']. simpl in H2.
  destruct (shr_m mrs'') as [|p|p]; try discriminate; [|lia].
  destruct (e'' <=? emax - prec)%Z; discriminate.
Qed.

Lemma binary_normalize_not_nan (m e : Z) (sz : bool) :
  binary_normalize prec emax m e sz <> S754_nan.
Proof.
  unfold binary_normalize, binary_round.
  destruct m as [|p|p]; try discriminate;
    destruct (shl_align _ _ _) as [mz ez]; apply binary_round_aux_not_nan; lia.
Qed.

Lemma SFsub_finito_not_nan (x y : spec_float) :
  SF_finito x -> SF_finito y -> SFsub prec emax x y <> S754_nan.
Proof.
  destruct x as [sx|sx| |sx mx ex], y as [sy|sy| |sy my ey]; simpl;
    try contradiction; intros _ _; try discriminate.
  - destruct sx, sy; discriminate.
  - apply binary_normalize_not_nan.
Qed.

Lemma SFcompare_antisym (a b : spec_float) (c : comparison) :
  SFcompare a b = Some c -> SFcompare b a = Some (CompOpp c).
Proof.
  destruct a as [sa|sa| |sa ma ea], b as [sb|sb| |sb mb eb]; simpl;
    try discriminate; intros [= <-];
    try (destruct sa; reflexivity); try (destruct sb; reflexivity);
    try (destruct sa, sb; reflexivity).
  destruct sa, sb; try reflexivity;
    rewrite (Z.compare_antisym ea eb);
    destruct (ea ?= eb)%Z; simpl; try reflexivity;
    rewrite ?CompOpp_involutive, ?Pos.compare_cont_antisym; reflexivity.
Qed.

Lemma SFcompare_not_nan (a b : spec_float) :
  a <> S754_nan -> b <> S754_nan -> exists c, SFcompare a b = Some c.
Proof.
  destruct a, b; simpl; try congruence; intros _ _; eexists; reflexivity.
Qed.

(** On numbers, "not greater" is "at most". *)
Lemma nao_maior_e_menor_ou_igual (t d : float) :
  is_nan t = false -> Prim2SF d <> S754_nan ->
  PrimFloat.ltb t d = false -> PrimFloat.leb d t = true.
Proof.
  intros Ht Hd. rewrite ltb_spec, leb_spec. unfold SFltb, SFleb.
  destruct (SFcompare_not_nan _ _ (is_nan_Prim2SF t Ht) Hd) as [c Hc].
  rewrite Hc, (SFcompare_antisym _ _ _ Hc).
  destruct c; simpl; intros; congruence.
Qed.

Lemma dif_finita_not_nan (x y : float) :
  is_finite x = true -> is_finite y = true ->
  Prim2SF (abs (x - y)) <> S754_nan.
Proof.
  intros Hx Hy. rewrite abs_spec, sub_spec.
  pose proof (SFsub_finito_not_nan _ _ (is_finite_Prim2SF x Hx)
                (is_finite_Prim2SF y Hy)) as H.
  unfold SF64sub. destruct (SFsub prec emax (Prim2SF x) (Prim2SF y));
    simpl; congruence.
Qed.

End FloatFacts.

(* ================================================================== *)
(** * Properties of conciliar *)
(* ================================================================== *)

Import Contabil.

Definition origem_e (o : option nat) (j : nat) : bool :=
  match o with
  | Some x => Nat.eqb x j
  | None => false
  end.

(** The number of rows built from the accounting line [j]. *)
Definition ocorrencias_cont (j : nat) (out : list linha_out) : nat :=
  List.length (filter (fun row => origem_e (origem_cont row) j) out).

(** The number of rows built from the financial line [i]. *)
Definition ocorrencias_fin (i : nat) (out : list linha_out) : nat :=
  List.length (filter (fun row => origem_e (origem_fin row) i) out).

Definition status_ok (row : linha_out) : bool :=
  match STATUS row with OK => true | DIVERGENTE => false end.

(** The number of OK rows that consume the accounting line [j]. *)
Definition ocorrencias_ok_cont (j : nat) (out : list linha_out) : nat :=
  List.length
    (filter (fun row => (status_ok row && origem_e (origem_cont row) j)%bool)
       out).

(** The noise filter of line 332, negated: the line is processed. *)
Definition passa_filtro (min_len : Z) (f : linha_fin) : bool :=
  negb ((Z.of_nat (String.length (TEXTO_FIN_NORM f)) <? min_len)%Z
        && (Z.of_nat (String.length (IDENTIFICADOR_FIN f)) <? min_len)%Z).

Section EnumerateFacts.

Context {A : Type}.

Lemma In_combine_seq (l : list A) (s i : nat) (x : A) :
  In (i, x) (combine (seq s (List.length l)) l) ->
  s <= i /\ nth_error l (i - s) = Some x.
Proof.
  revert s. induction l as [|a l IH]; intros s H; simpl in H; [contradiction|].
  destruct H as [[= <- <-]|H].
  - split; [lia|]. now rewrite Nat.sub_diag.
  - apply IH in H as [H1 H2]. split; [lia|].
    replace (i - s) with (S (i - S s)) by lia. exact H2.
Qed.

Lemma In_enumerate (l : list A) (i : nat) (x : A) :
  In (i, x) (enumerate l) -> nth_error l i = Some x.
Proof.
  intros H. apply In_combine_seq in H as [_ H].
  now rewrite Nat.sub_0_r in H.
Qed.

Lemma count_combine_seq (p : A -> bool) (l : list A) (s i : nat) :
  List.length
    (filter (fun ix => (Nat.eqb (fst ix) i && p (snd ix))%bool)
       (combine (seq s (List.length l)) l))
  = if (s <=? i)%nat
    then match nth_error l (i - s) with
         | Some x => if p x then 1 else 0
         | None => 0
         end
    else 0.
Proof.
  revert s. induction l as [|a l IH]; intros s.
  - simpl. destruct (s <=? i)%nat; [|reflexivity]. now destruct (i - s).
  - cbn [List.length seq combine filter fst snd]. specialize (IH (S s)).
    destruct (Nat.eq_dec s i) as [->|N].
    + rewrite Nat.eqb_refl, Nat.leb_refl, Nat.sub_diag. cbn [andb nth_error].
      replace (S i <=? i)%nat with false in IH
        by (symmetry; apply Nat.leb_gt; lia).
      destruct (p a); cbn [List.length]; now rewrite IH.
    + replace (Nat.eqb s i) with false by (symmetry; now apply Nat.eqb_neq).
      cbn [andb]. rewrite IH.
      destruct (s <=? i)%nat eqn:L1; destruct (S s <=? i)%nat eqn:L2;
        try reflexivity.
      * apply Nat.leb_le in L1, L2.
        now replace (i - s) with (S (i - S s)) by lia.
      * apply Nat.leb_le in L1. apply Nat.leb_gt in L2. lia.
      * apply Nat.leb_gt in L1. apply Nat.leb_le in L2. lia.
Qed.

Lemma count_enumerate (p : A -> bool) (l : list A) (i : nat) :
  List.length
    (filter (fun ix => (Nat.eqb (fst ix) i && p (snd ix))%bool) (enumerate l))
  = match nth_error l i with
    | Some x => if p x then 1 else 0
    | None => 0
    end.
Proof.
  unfold enumerate. rewrite count_combine_seq. simpl.
  now rewrite Nat.sub_0_r.
Qed.

End EnumerateFacts.

Section ConciliarFacts.

Variable list_set : list nat -> list nat.

Lemma tipo_contabil_eqb_eq (a b : tipo_contabil) :
  tipo_contabil_eqb a b = true -> a = b.
Proof. destruct a, b; simpl; congruence. Qed.

(** What the loop over the candidates guarantees of its choice. *)
Definition escolha_valida (cont : list linha_cont) (usados : list nat)
    (tol : float) (f : linha_fin) (m : melhor) : Prop :=
  match fst m with
  | None => True
  | Some j =>
      existsb (Nat.eqb j) usados = false /\
      exists r, nth_error cont j = Some r /\
        PrimFloat.ltb tol (abs (VALOR_FIN f - VALOR_CONTABIL r)) = false /\
        TIPO_CONTABIL r = tipo_cont_de (TIPO_FIN f)
  end.

Lemma passo_candidato_valida cont usados usar tol f d m idx_c :
  escolha_valida cont usados tol f m ->
  escolha_valida cont usados tol f
    (passo_candidato cont usados usar tol f d m idx_c).
Proof.
  intros Hm. unfold passo_candidato.
  destruct (existsb (Nat.eqb idx_c) usados) eqn:Eu; [exact Hm|].
  destruct (nth_error cont idx_c) as [r|] eqn:En; [|exact Hm].
  destruct (PrimFloat.ltb tol (abs (VALOR_FIN f - VALOR_CONTABIL r))) eqn:El;
    [exact Hm|].
  destruct (tipo_contabil_eqb (TIPO_CONTABIL r) (tipo_cont_de (TIPO_FIN f)))
    eqn:Et; [|exact Hm].
  cbn [negb].
  match goal with |- context [if ?b then m else _] => destruct b end;
    [exact Hm|].
  match goal with |- context [if ?b then m else _] => destruct b end;
    [exact Hm|].
  match goal with |- context [if ?b then _ else m] => destruct b end;
    [|exact Hm].
  unfold escolha_valida. cbn [fst]. split; [exact Eu|].
  exists r. repeat split; try assumption. now apply tipo_contabil_eqb_eq.
Qed.

Lemma fold_candidatos_valida cont usados usar tol f d cands m :
  escolha_valida cont usados tol f m ->
  escolha_valida cont usados tol f
    (fold_left (passo_candidato cont usados usar tol f d) cands m).
Proof.
  revert m. induction cands as [|c cands IH]; intros m Hm; simpl;
    [exact Hm|].
  apply IH. now apply passo_candidato_valida.
Qed.

(** The three outcomes of one turn of the loop over the financial lines. *)
Lemma passo_fin_casos cont idx usar tol min_len usados out i f :
  let st' := passo_fin list_set cont idx usar tol min_len (usados, out) (i, f) in
  (passa_filtro min_len f = false /\ st' = (usados, out)) \/
  (passa_filtro min_len f = true /\
   exists d, st' = (usados, out ++ [linha_divergente_fin i f d])) \/
  (passa_filtro min_len f = true /\
   exists d j r,
     existsb (Nat.eqb j) usados = false /\
     nth_error (cont_linhas cont) j = Some r /\
     PrimFloat.ltb tol (abs (VALOR_FIN f - VALOR_CONTABIL r)) = false /\
     TIPO_CONTABIL r = tipo_cont_de (TIPO_FIN f) /\
     st' = (usados ++ [j],
            out ++ [linha_ok i f d j r (cont_tem_data cont)])).
Proof.
  cbv zeta. unfold passo_fin, passa_filtro.
  destruct ((Z.of_nat (String.length (TEXTO_FIN_NORM f)) <? min_len)%Z
            && (Z.of_nat (String.length (IDENTIFICADOR_FIN f)) <? min_len)%Z)%bool;
    [left; now split | right].
  cbn [negb].
  match goal with
  | |- context [fold_left ?g ?cands ?m0] =>
      pose proof (fold_candidatos_valida (cont_linhas cont) usados usar tol f
                    (if usar then DATA_FIN f else None) cands m0 I) as Hv;
      destruct (fold_left g cands m0) as [[j|] sc]
  end; cbn [fst].
  - right. split; [reflexivity|].
    destruct Hv as (Hu & r & Hr & Hl & Ht). rewrite Hr.
    exists (if usar then DATA_FIN f else None), j, r. now repeat split.
  - left. split; [reflexivity|]. now eexists.
Qed.

Lemma ocorrencias_cont_app j out1 out2 :
  ocorrencias_cont j (out1 ++ out2)
  = ocorrencias_cont j out1 + ocorrencias_cont j out2.
Proof. unfold ocorrencias_cont. now rewrite filter_app, length_app. Qed.

Lemma ocorrencias_fin_app i out1 out2 :
  ocorrencias_fin i (out1 ++ out2)
  = ocorrencias_fin i out1 + ocorrencias_fin i out2.
Proof. unfold ocorrencias_fin. now rewrite filter_app, length_app. Qed.

Lemma existsb_app_um (j k : nat) (l : list nat) :
  existsb (Nat.eqb j) (l ++ [k]) = (existsb (Nat.eqb j) l || Nat.eqb j k)%bool.
Proof. rewrite existsb_app. simpl. now rewrite orb_false_r. Qed.

(** An OK row of the loop, with what the matcher checked for it. *)
Definition linha_ok_valida (fin : list linha_fin) (cont : df_cont)
    (tol : float) (row : linha_out) : Prop :=
  exists i f d j r,
    nth_error fin i = Some f /\
    nth_error (cont_linhas cont) j = Some r /\
    PrimFloat.ltb tol (abs (VALOR_FIN f - VALOR_CONTABIL r)) = false /\
    TIPO_CONTABIL r = tipo_cont_de (TIPO_FIN f) /\
    row = linha_ok i f d j r (cont_tem_data cont).

(** The invariant of the loop over the financial lines. *)
Definition invariante (fin : list linha_fin) (cont : df_cont) (tol : float)
    (st : estado) : Prop :=
  (forall j, ocorrencias_cont j (snd st)
             = if existsb (Nat.eqb j) (fst st) then 1 else 0) /\
  Forall (fun row => STATUS row = OK -> linha_ok_valida fin cont tol row)
    (snd st).

Lemma passo_fin_invariante fin cont idx usar tol min_len st i f :
  nth_error fin i = Some f ->
  invariante fin cont tol st ->
  invariante fin cont tol
    (passo_fin list_set cont idx usar tol min_len st (i, f)).
Proof.
  intros Hi [Hc Hr]. destruct st as [usados out]. cbn [fst snd] in *.
  destruct (passo_fin_casos cont idx usar tol min_len usados out i f)
    as [[_ ->]|[[_ [d ->]]|[_ (d & j & r & Hu & Hn & Hl & Ht & ->)]]].
  - now split.
  - split; cbn [fst snd].
    + intros j. rewrite ocorrencias_cont_app, Hc.
      unfold ocorrencias_cont. simpl. lia.
    + apply Forall_app. split; [exact Hr|].
      constructor; [|constructor]. discriminate.
  - split; cbn [fst snd].
    + intros k. rewrite ocorrencias_cont_app, Hc, existsb_app_um.
      unfold ocorrencias_cont. cbn [filter linha_ok origem_cont origem_e].
      rewrite (Nat.eqb_sym k j).
      destruct (Nat.eqb j k) eqn:E.
      * apply Nat.eqb_eq in E. subst k. rewrite Hu. reflexivity.
      * rewrite orb_false_r. simpl. lia.
    + apply Forall_app. split; [exact Hr|].
      constructor; [|constructor]. intros _.
      exists i, f, d, j, r. now repeat split.
Qed.

Lemma fold_passo_fin_invariante fin cont idx usar tol min_len l st :
  (forall i f, In (i, f) l -> nth_error fin i = Some f) ->
  invariante fin cont tol st ->
  invariante fin cont tol
    (fold_left (passo_fin list_set cont idx usar tol min_len) l st).
Proof.
  revert st. induction l as [|[i f] l IH]; intros st Hl Hst; simpl;
    [exact Hst|].
  apply IH; [intros; apply Hl; now right|].
  apply passo_fin_invariante; [apply Hl; now left | exact Hst].
Qed.

Lemma passo_fin_ocorrencias_fin cont idx usar tol min_len st i f k :
  ocorrencias_fin k
    (snd (passo_fin list_set cont idx usar tol min_len st (i, f)))
  = ocorrencias_fin k (snd st)
    + (if (Nat.eqb i k && passa_filtro min_len f)%bool then 1 else 0).
Proof.
  destruct st as [usados out].
  destruct (passo_fin_casos cont idx usar tol min_len usados out i f)
    as [[Hp ->]|[[Hp [d ->]]|[Hp (d & j & r & _ & _ & _ & _ & ->)]]];
    rewrite Hp; cbn [snd].
  - rewrite andb_false_r. lia.
  - rewrite ocorrencias_fin_app, andb_true_r. f_equal.
    unfold ocorrencias_fin. simpl. now destruct (Nat.eqb i k).
  - rewrite ocorrencias_fin_app, andb_true_r. f_equal.
    unfold ocorrencias_fin. simpl. now destruct (Nat.eqb i k).
Qed.

Lemma fold_passo_fin_ocorrencias_fin cont idx usar tol min_len l st k :
  ocorrencias_fin k
    (snd (fold_left (passo_fin list_set cont idx usar tol min_len) l st))
  = ocorrencias_fin k (snd st)
    + List.length
        (filter (fun ifl => (Nat.eqb (fst ifl) k
                             && passa_filtro min_len (snd ifl))%bool) l).
Proof.
  revert st. induction l as [|[i f] l IH]; intros st; simpl; [lia|].
  rewrite IH, passo_fin_ocorrencias_fin.
  destruct (Nat.eqb i k && passa_filtro min_len f)%bool; simpl; lia.
Qed.

(** The rows of the last loop. *)
Lemma sobras_ocorrencias_cont cont usados j :
  ocorrencias_cont j (sobras cont usados)
  = match nth_error (cont_linhas cont) j with
    | Some _ => if existsb (Nat.eqb j) usados then 0 else 1
    | None => 0
    end.
Proof.
  unfold sobras.
  pose proof (count_enumerate
                (fun _ : linha_cont => negb (existsb (Nat.eqb j) usados))
                (cont_linhas cont) j) as H.
  cbv beta in H.
  replace (match nth_error (cont_linhas cont) j with
           | Some _ => if existsb (Nat.eqb j) usados then 0 else 1
           | None => 0
           end)
    with (match nth_error (cont_linhas cont) j with
          | Some _ => if negb (existsb (Nat.eqb j) usados) then 1 else 0
          | None => 0
          end)
    by (destruct (nth_error (cont_linhas cont) j); [|reflexivity];
        now destruct (existsb (Nat.eqb j) usados)).
  rewrite <- H. clear H.
  unfold ocorrencias_cont.
  induction (enumerate (cont_linhas cont)) as [|[k r] l IH]; [reflexivity|].
  cbn [flat_map filter fst snd]. rewrite filter_app, length_app, IH.
  destruct (Nat.eqb k j) eqn:E.
  - apply Nat.eqb_eq in E. subst k.
    destruct (existsb (Nat.eqb j) usados); simpl;
      [reflexivity | now rewrite Nat.eqb_refl].
  - destruct (existsb (Nat.eqb k) usados); simpl; [reflexivity|].
    now rewrite E.
Qed.

Lemma sobras_ocorrencias_fin cont usados i :
  ocorrencias_fin i (sobras cont usados) = 0.
Proof.
  unfold sobras, ocorrencias_fin.
  induction (enumerate (cont_linhas cont)) as [|[k r] l IH]; [reflexivity|].
  cbn [flat_map]. rewrite filter_app, length_app, IH.
  now destruct (existsb (Nat.eqb (fst (k, r))) usados).
Qed.

Lemma sobras_divergentes cont usados row :
  In row (sobras cont usados) -> STATUS row = DIVERGENTE.
Proof.
  unfold sobras. intros H. apply in_flat_map in H as ([k r] & _ & H).
  destruct (existsb (Nat.eqb (fst (k, r))) usados); [contradiction|].
  destruct H as [<-|[]]. reflexivity.
Qed.

(** The decomposition of the result. *)
Lemma conciliar_partes fin cont tol min_len :
  exists usados out,
    conciliar list_set fin cont tol min_len = out ++ sobras cont usados /\
    invariante (fin_linhas fin) cont tol (usados, out) /\
    forall i, ocorrencias_fin i out
              = match nth_error (fin_linhas fin) i with
                | Some f => if passa_filtro min_len f then 1 else 0
                | None => 0
                end.
Proof.
  unfold conciliar.
  pose proof (fold_passo_fin_invariante (fin_linhas fin) cont
                (cont_by_val_tipo (cont_linhas cont))
                (fin_tem_data fin && cont_tem_data cont)%bool tol min_len
                (enumerate (fin_linhas fin)) ([], [])
                (fun i f H => In_enumerate _ i f H)) as Hinv.
  pose proof (fun k => fold_passo_fin_ocorrencias_fin cont
                (cont_by_val_tipo (cont_linhas cont))
                (fin_tem_data fin && cont_tem_data cont)%bool tol min_len
                (enumerate (fin_linhas fin)) ([], []) k) as Hfin.
  match type of Hinv with
  | _ -> invariante _ _ _ ?R => destruct R as [usados out]
  end.
  exists usados, out. split; [reflexivity|]. split.
  - apply Hinv. split; [intros j; reflexivity | constructor].
  - intros i. rewrite Hfin. cbn [snd]. unfold ocorrencias_fin at 1. simpl.
    apply count_enumerate.
Qed.

End ConciliarFacts.

Lemma ocorrencias_ok_cont_le (j : nat) (out : list linha_out) :
  ocorrencias_ok_cont j out <= ocorrencias_cont j out.
Proof.
  unfold ocorrencias_ok_cont, ocorrencias_cont.
  induction out as [|row out IH]; simpl; [lia|].
  destruct (status_ok row), (origem_e (origem_cont row) j); simpl; lia.
Qed.

Lemma conciliar_ocorrencias_cont list_set fin cont tol min_len j :
  ocorrencias_cont j (conciliar list_set fin cont tol min_len) <= 1 /\
  (forall r, nth_error (cont_linhas cont) j = Some r ->
     ocorrencias_cont j (conciliar list_set fin cont tol min_len) = 1).
Proof.
  destruct (conciliar_partes list_set fin cont tol min_len)
    as (usados & out & E & [Hc _] & _).
  rewrite E. cbn [fst snd] in Hc.
  rewrite ocorrencias_cont_app, Hc, sobras_ocorrencias_cont.
  split.
  - destruct (nth_error (cont_linhas cont) j),
      (existsb (Nat.eqb j) usados); lia.
  - intros r ->. destruct (existsb (Nat.eqb j) usados); lia.
Qed.

Definition linha_curta : linha_fin :=
  mk_linha_fin "AB" "AB" "" "AB" 10 SAIDA None.

(** C1, as stated, fails for a financial line that the noise filter of
    line 332 skips: with [min_len = 3], a line whose normalised text and
    identifier are both "AB" produces no row at all. *)
Lemma conciliar_descarta_linha_curta :
  nth_error (fin_linhas (mk_df_fin false [linha_curta])) 0
  = Some linha_curta /\
  conciliar (nodup Nat.eq_dec) (mk_df_fin false [linha_curta])
    (mk_df_cont false []) cent 3 = [] /\
  ocorrencias_fin 0
    (conciliar (nodup Nat.eq_dec) (mk_df_fin false [linha_curta])
       (mk_df_cont false []) cent 3) = 0.
Proof. repeat split. Qed.

(** C1, amended: every accounting line appears in exactly one row of the
    result, and so does every financial line that the noise filter lets
    through; a financial line whose normalised text and identifier are both
    shorter than [min_len] appears in no row. *)
Theorem conciliar_cobertura (list_set : list nat -> list nat)
    (fin : df_fin) (cont : df_cont) (tol : float) (min_len : Z) :
  (forall j r, nth_error (cont_linhas cont) j = Some r ->
     ocorrencias_cont j (conciliar list_set fin cont tol min_len) = 1) /\
  (forall i f, nth_error (fin_linhas fin) i = Some f ->
     ocorrencias_fin i (conciliar list_set fin cont tol min_len)
     = if passa_filtro min_len f then 1 else 0).
Proof.
  split.
  - intros j r H.
    exact (proj2 (conciliar_ocorrencias_cont list_set fin cont tol min_len j)
             r H).
  - intros i f H.
    destruct (conciliar_partes list_set fin cont tol min_len)
      as (usados & out & E & _ & Hf).
    rewrite E, ocorrencias_fin_app, sobras_ocorrencias_fin, Hf, H. lia.
Qed.

Definition fin_exemplo : linha_fin :=
  mk_linha_fin "FT-12345" "12345" "12345" "12345" 1500 SAIDA None.

Definition cont_exemplo : linha_cont :=
  mk_linha_cont "PAGTO FT12345 FORNECEDOR" "PAGTOFT12345FORNECEDOR" "12345"
    "FT12345" 1500 CREDITO None.

Definition cont_outro : linha_cont :=
  mk_linha_cont "TARIFA" "TARIFA" "" "TARIFA" 1500 CREDITO None.

Definition df_fin_exemplo : df_fin :=
  mk_df_fin false [fin_exemplo; linha_curta].

Definition df_cont_exemplo : df_cont :=
  mk_df_cont false [cont_outro; cont_exemplo].

Lemma conciliar_cobertura_witness :
  ocorrencias_cont 1
    (conciliar (nodup Nat.eq_dec) df_fin_exemplo df_cont_exemplo cent 3) = 1
  /\
  ocorrencias_fin 0
    (conciliar (nodup Nat.eq_dec) df_fin_exemplo df_cont_exemplo cent 3) = 1
  /\
  ocorrencias_fin 1
    (conciliar (nodup Nat.eq_dec) df_fin_exemplo df_cont_exemplo cent 3) = 0.
Proof.
  destruct (conciliar_cobertura (nodup Nat.eq_dec) df_fin_exemplo
              df_cont_exemplo cent 3) as [Hc Hf].
  split; [|split].
  - exact (Hc 1 cont_exemplo eq_refl).
  - exact (Hf 0 fin_exemplo eq_refl).
  - exact (Hf 1 linha_curta eq_refl).
Defined.

(** Two ledgers with one line each, both of an infinite amount: the text
    "inf" in an amount cell is read by [to_float_br] as the float
    infinity. *)
Definition fin_infinito : df_fin :=
  mk_df_fin false
    [mk_linha_fin "FT-12345" "12345" "12345" "12345" infinity SAIDA None].

Definition cont_infinito : df_cont :=
  mk_df_cont false
    [mk_linha_cont "PAGTO FT12345 FORNECEDOR" "PAGTOFT12345FORNECEDOR" "12345"
       "FT12345" infinity CREDITO None].

(** C5 fails when both amounts are infinite: [to_float_br] returns the
    float infinity for the text "inf"; the difference of two infinities is
    NaN, the test [abs(v_fin - v_c) > tolerancia] of line 353 is false for
    NaN, and the pair becomes an OK row whose DIF is NaN, which is not at
    most the tolerance. *)
Lemma conciliar_ok_com_valores_infinitos :
  to_float_br (PStr "inf") = Ret infinity /\
  exists row,
    conciliar (nodup Nat.eq_dec) fin_infinito cont_infinito cent 3 = [row] /\
    STATUS row = OK /\
    VALOR_RELATORIO_FINANCEIRO row = infinity /\
    VALOR_RELATORIO_CONTABIL row = infinity /\
    is_nan (DIF row) = true /\
    PrimFloat.ltb cent (DIF row) = false /\
    PrimFloat.leb (DIF row) cent = false.
Proof.
  split; [vm_compute; reflexivity|].
  eexists. split; [vm_compute; reflexivity|].
  repeat split; vm_compute; reflexivity.
Qed.

(** C5: an OK row pairs a financial line with an accounting line of the
    counterpart type; its DIF is the binary64 difference of the two
    amounts, and DIF is not greater than the tolerance in the comparison
    the code makes.  When the two amounts of the row are finite and the
    tolerance is a number, DIF is at most the tolerance. *)
Theorem conciliar_ok_dentro_da_tolerancia (list_set : list nat -> list nat)
    (fin : df_fin) (cont : df_cont) (tol : float) (min_len : Z)
    (row : linha_out) :
  In row (conciliar list_set fin cont tol min_len) ->
  STATUS row = OK ->
  DIF row
  = abs (VALOR_RELATORIO_FINANCEIRO row - VALOR_RELATORIO_CONTABIL row) /\
  PrimFloat.ltb tol (DIF row) = false /\
  (exists tf,
     TIPO_RELATORIO_FINANCEIRO row = Some tf /\
     TIPO_RELATORIO_CONTABIL row = Some (tipo_cont_de tf)) /\
  (is_finite (VALOR_RELATORIO_FINANCEIRO row) = true ->
   is_finite (VALOR_RELATORIO_CONTABIL row) = true ->
   is_nan tol = false ->
   PrimFloat.leb (DIF row) tol = true).
Proof.
  intros Hin Hok.
  destruct (conciliar_partes list_set fin cont tol min_len)
    as (usados & out & E & [_ Hr] & _).
  rewrite E in Hin. apply in_app_or in Hin as [Hin|Hin].
  - cbn [snd] in Hr. rewrite Forall_forall in Hr.
    destruct (Hr row Hin Hok) as (i & f & d & j & r & Hi & Hj & Hl & Ht & ->).
    cbn [linha_ok DIF VALOR_RELATORIO_FINANCEIRO VALOR_RELATORIO_CONTABIL
         TIPO_RELATORIO_FINANCEIRO TIPO_RELATORIO_CONTABIL].
    split; [reflexivity|]. split; [exact Hl|]. split.
    + exists (TIPO_FIN f). now rewrite Ht.
    + intros Hf Hc Htol.
      apply nao_maior_e_menor_ou_igual; try assumption.
      now apply dif_finita_not_nan.
  - apply sobras_divergentes in Hin. congruence.
Qed.

Lemma conciliar_ok_dentro_da_tolerancia_witness :
  exists row,
    nth_error
      (conciliar (nodup Nat.eq_dec) df_fin_exemplo df_cont_exemplo cent 3) 0
    = Some row /\
    STATUS row = OK /\
    DIF row = zero /\
    PrimFloat.leb (DIF row) cent = true /\
    TIPO_RELATORIO_FINANCEIRO row = Some SAIDA /\
    TIPO_RELATORIO_CONTABIL row = Some CREDITO.
Proof.
  eexists. split; [vm_compute; reflexivity|].
  match goal with
  | |- STATUS ?r = OK /\ _ =>
      destruct (conciliar_ok_dentro_da_tolerancia (nodup Nat.eq_dec)
                  df_fin_exemplo df_cont_exemplo cent 3 r)
        as (Hd & _ & _ & Hle)
  end.
  - vm_compute. left. reflexivity.
  - reflexivity.
  - split; [reflexivity|]. split; [reflexivity|].
    split; [apply Hle; reflexivity|].
    split; reflexivity.
Defined.

(* ================================================================== *)
(** * Properties of realizar_matching *)
(* ================================================================== *)

Import Cliente.

Section MatchingFacts.

Local Open Scope list_scope.

Definition entrada : Type := (string * bucket)%type.

(** The test of line 319 as a plain boolean: [false] also when the
    comparison raises. *)
Definition bate (nf rc : entrada) : bool :=
  match valores_batem (valor_liquido (snd nf)) (valor_liquido (snd rc)) with
  | Ret b => b
  | Raise _ => false
  end.

(** The comparison of line 319 raises for no invoice and receipt. *)
Definition comparaveis (nfs recs : dict bucket) : Prop :=
  forall nf rc, In nf nfs -> In rc recs ->
    exists b,
      valores_batem (valor_liquido (snd nf)) (valor_liquido (snd rc)) = Ret b.

Definition diferenca_de (nf rc : entrada) : Decimal :=
  match Dsub (valor_liquido (snd nf)) (valor_liquido (snd rc)) with
  | Ret d => d
  | Raise _ => D_zero
  end.

Definition casamento_de (nf rc : entrada) : casamento :=
  mk_casamento (fst nf) (valor_liquido (snd nf)) (fst rc)
    (valor_liquido (snd rc)) (diferenca_de nf rc).

(** Every pair of an invoice and a receipt whose values match, in the order
    of the two loops. *)
Definition pares (nfs recs : dict bucket) : list casamento :=
  flat_map (fun nf => map (casamento_de nf) (filter (bate nf) recs)) nfs.

Lemma valores_batem_Dsub (a b : Decimal) (r : bool) :
  valores_batem a b = Ret r -> exists d, Dsub a b = Ret d.
Proof.
  unfold valores_batem. destruct (Dsub a b) as [d|e]; simpl;
    [now exists d | discriminate].
Qed.

Lemma fold_passo_rec nf recs ms a b :
  (forall rc, In rc recs ->
     exists r, valores_batem (valor_liquido (snd nf))
                 (valor_liquido (snd rc)) = Ret r) ->
  fold_left (passo_rec nf) recs (Ret (ms, a, b))
  = Ret (ms ++ map (casamento_de nf) (filter (bate nf) recs),
         a ++ map (fun _ => fst nf) (filter (bate nf) recs),
         b ++ map fst (filter (bate nf) recs)).
Proof.
  revert ms a b. induction recs as [|rc recs IH]; intros ms a b H.
  - simpl. now rewrite !app_nil_r.
  - cbn [fold_left]. destruct (H rc (or_introl eq_refl)) as [r Hr].
    assert (Hb : bate nf rc = r) by (unfold bate; now rewrite Hr).
    unfold passo_rec at 2. cbn [bind]. rewrite Hr. cbn [bind filter].
    rewrite Hb. destruct r.
    + destruct (valores_batem_Dsub _ _ _ Hr) as [d Hd].
      rewrite Hd. cbn [bind].
      rewrite IH by (intros; apply H; now right).
      cbn [map]. unfold casamento_de at 2, diferenca_de. rewrite Hd.
      now rewrite <- !app_assoc.
    + apply IH. intros; apply H; now right.
Qed.

Lemma fold_passo_nf nfs recs ms a b :
  comparaveis nfs recs ->
  fold_left (passo_nf recs) nfs (Ret (ms, a, b))
  = Ret (ms ++ pares nfs recs,
         a ++ flat_map (fun nf => map (fun _ => fst nf) (filter (bate nf) recs))
                nfs,
         b ++ flat_map (fun nf => map fst (filter (bate nf) recs)) nfs).
Proof.
  revert ms a b. induction nfs as [|nf nfs IH]; intros ms a b H.
  - simpl. now rewrite !app_nil_r.
  - cbn [fold_left]. unfold passo_nf at 2.
    rewrite fold_passo_rec by (intros rc Hrc; apply H; [now left | exact Hrc]).
    rewrite IH by (intros x y Hx Hy; apply H; [now right | exact Hy]).
    unfold pares. cbn [flat_map]. now rewrite <- !app_assoc.
Qed.

Lemma em_In (k : string) (l : list string) : em k l = true <-> In k l.
Proof.
  unfold em. rewrite existsb_exists. split.
  - intros (x & Hx & E). apply String.eqb_eq in E. now subst.
  - intros H. exists k. split; [exact H | apply String.eqb_refl].
Qed.

Lemma chave_unica {A : Type} (d : dict A) (x y : string * A) :
  NoDup (map fst d) -> In x d -> In y d -> fst x = fst y -> x = y.
Proof.
  induction d as [|z d IH]; intros Hn Hx Hy E; [contradiction|].
  simpl in Hn. inversion Hn as [|? ? Hz Hd]; subst.
  destruct Hx as [->|Hx], Hy as [->|Hy]; try reflexivity.
  - exfalso. apply Hz. rewrite E. now apply in_map.
  - exfalso. apply Hz. rewrite <- E. now apply in_map.
  - now apply IH.
Qed.

Lemma nao_casados_filter (d : dict bucket) (casados : list string) :
  nao_casados d casados
  = map snd (filter (fun kv => negb (em (fst kv) casados)) d).
Proof.
  unfold nao_casados. induction d as [|kv d IH]; [reflexivity|].
  simpl. rewrite IH. now destruct (em (fst kv) casados).
Qed.

(** The invoices marked are those with a matching receipt. *)
Lemma nf_marcada nfs recs nf :
  NoDup (map fst nfs) -> In nf nfs ->
  em (fst nf)
    (flat_map (fun nf => map (fun _ => fst nf) (filter (bate nf) recs)) nfs)
  = existsb (bate nf) recs.
Proof.
  intros Hn Hin. apply eq_true_iff_eq. rewrite em_In, in_flat_map, existsb_exists.
  split.
  - intros (nf' & Hin' & H). apply in_map_iff in H as (rc & E & Hrc).
    apply filter_In in Hrc as [Hrc Hb].
    assert (nf' = nf) by (apply (chave_unica nfs); auto). subst nf'.
    now exists rc.
  - intros (rc & Hrc & Hb). exists nf. split; [exact Hin|].
    apply in_map_iff. exists rc. split; [reflexivity|].
    apply filter_In. now split.
Qed.

(** The receipts marked are those that match some invoice. *)
Lemma rec_marcado nfs recs rc :
  NoDup (map fst recs) -> In rc recs ->
  em (fst rc) (flat_map (fun nf => map fst (filter (bate nf) recs)) nfs)
  = existsb (fun nf => bate nf rc) nfs.
Proof.
  intros Hn Hin. apply eq_true_iff_eq. rewrite em_In, in_flat_map, existsb_exists.
  split.
  - intros (nf & Hnf & H). apply in_map_iff in H as (rc' & E & Hrc).
    apply filter_In in Hrc as [Hrc Hb].
    assert (rc' = rc) by (apply (chave_unica recs); auto). subst rc'.
    now exists nf.
  - intros (nf & Hnf & Hb). exists nf. split; [exact Hnf|].
    apply in_map_iff. exists rc. split; [reflexivity|].
    apply filter_In. now split.
Qed.

(** What [realizar_matching] computes. *)
Lemma realizar_matching_resultado (st : sistema) :
  NoDup (map fst (nfs st)) -> NoDup (map fst (recebimentos st)) ->
  comparaveis (nfs st) (recebimentos st) ->
  realizar_matching st
  = Ret (mk_sistema (saldo_inicial st) (data_inicio st) (data_fim st)
           (lancamentos st) (nfs st) (recebimentos st)
           (matches st ++ pares (nfs st) (recebimentos st))
           (nao_encontrados_nf st
            ++ map snd
                 (filter (fun nf => negb (existsb (bate nf) (recebimentos st)))
                    (nfs st)))
           (nao_encontrados_rec st
            ++ map snd
                 (filter (fun rc => negb (existsb (fun nf => bate nf rc)
                                            (nfs st)))
                    (recebimentos st)))).
Proof.
  intros Hn Hr Hc. unfold realizar_matching.
  rewrite fold_passo_nf by assumption. cbn [bind app].
  rewrite !nao_casados_filter. do 3 f_equal.
  - f_equal. f_equal. apply filter_ext_in. intros nf Hin.
    now rewrite nf_marcada.
  - f_equal. apply filter_ext_in. intros rc Hin.
    now rewrite rec_marcado.
Qed.

Lemma fold_passo_rec_raise nf recs e :
  fold_left (passo_rec nf) recs (Raise e) = Raise e.
Proof. induction recs as [|rc recs IH]; [reflexivity | exact IH]. Qed.

Lemma fold_passo_nf_raise recs nfs e :
  fold_left (passo_nf recs) nfs (Raise e) = Raise e.
Proof.
  induction nfs as [|nf nfs IH]; [reflexivity|].
  cbn [fold_left]. unfold passo_nf at 2. now rewrite fold_passo_rec_raise.
Qed.

Lemma fold_passo_rec_ret nf recs s s' :
  fold_left (passo_rec nf) recs (Ret s) = Ret s' ->
  forall rc, In rc recs ->
    exists r, valores_batem (valor_liquido (snd nf))
                (valor_liquido (snd rc)) = Ret r.
Proof.
  revert s. induction recs as [|rc recs IH]; intros s H x Hx;
    [contradiction|].
  cbn [fold_left] in H. unfold passo_rec at 2 in H. cbn [bind] in H.
  destruct s as [[ms a] b].
  destruct (valores_batem (valor_liquido (snd nf)) (valor_liquido (snd rc)))
    as [r|e] eqn:Hr; cbn [bind] in H.
  - destruct Hx as [<-|Hx]; [now exists r|].
    destruct r.
    + destruct (valores_batem_Dsub _ _ _ Hr) as [d Hd].
      rewrite Hd in H. cbn [bind] in H. exact (IH _ H x Hx).
    + exact (IH _ H x Hx).
  - rewrite fold_passo_rec_raise in H. discriminate.
Qed.

Lemma fold_passo_nf_ret recs nfs s s' :
  fold_left (passo_nf recs) nfs (Ret s) = Ret s' -> comparaveis nfs recs.
Proof.
  revert s. induction nfs as [|nf nfs IH]; intros s H x y Hx Hy;
    [contradiction|].
  cbn [fold_left] in H. unfold passo_nf at 2 in H.
  destruct (fold_left (passo_rec nf) recs (Ret s)) as [s1|e] eqn:E.
  - destruct Hx as [<-|Hx].
    + exact (fold_passo_rec_ret _ _ _ _ E y Hy).
    + exact (IH _ H x y Hx Hy).
  - rewrite fold_passo_nf_raise in H. discriminate.
Qed.

(** The run returns exactly when no comparison raises. *)
Lemma realizar_matching_retorna (st : sistema) :
  comparaveis (nfs st) (recebimentos st) <->
  exists st', realizar_matching st = Ret st'.
Proof.
  split.
  - intros Hc. unfold realizar_matching.
    rewrite fold_passo_nf by assumption. cbn [bind]. now eexists.
  - intros [st' H]. unfold realizar_matching in H.
    destruct (fold_left (passo_nf (recebimentos st)) (nfs st)
                (Ret (matches st, [], []))) as [r|e] eqn:E;
      [|discriminate].
    exact (fold_passo_nf_ret _ _ _ _ E).
Qed.

(** The invoice and receipt numbers of an entry of [matches]. *)
Definition par (m : casamento) : string * string :=
  (nf_numero m, rec_numero m).

Lemma NoDup_chaves_filter {A : Type} (p : string * A -> bool) (d : dict A) :
  NoDup (map fst d) -> NoDup (map fst (filter p d)).
Proof.
  induction d as [|x d IH]; intros H; [constructor|].
  simpl in H. inversion H as [|? ? Hx Hd]; subst. simpl.
  destruct (p x); [|now apply IH].
  simpl. constructor; [|now apply IH].
  intros Hin. apply Hx. apply in_map_iff in Hin as (y & E & Hy).
  apply filter_In in Hy as [Hy _]. rewrite <- E. now apply in_map.
Qed.

Lemma NoDup_pares_de (k : string) (l : list string) :
  NoDup l -> NoDup (map (fun x => (k, x)) l).
Proof.
  induction 1 as [|x l Hx Hl IH]; simpl; constructor; [|exact IH].
  intros Hin. apply in_map_iff in Hin as (y & [= ->] & Hy). contradiction.
Qed.

Lemma pares_sem_repeticao (nfs recs : dict bucket) :
  NoDup (map fst nfs) -> NoDup (map fst recs) ->
  NoDup (map par (pares nfs recs)).
Proof.
  intros Hn Hr. unfold pares.
  induction nfs as [|nf nfs IH]; [constructor|].
  simpl in Hn. inversion Hn as [|? ? Hx Hd]; subst.
  cbn [flat_map]. rewrite map_app. apply NoDup_app.
  - replace (map par (map (casamento_de nf) (filter (bate nf) recs)))
      with (map (fun x => (fst nf, x)) (map fst (filter (bate nf) recs)))
      by (rewrite !map_map; reflexivity).
    apply NoDup_pares_de. now apply NoDup_chaves_filter.
  - now apply IH.
  - intros x H1 H2.
    apply in_map_iff in H1 as (m1 & <- & H1).
    apply in_map_iff in H1 as (rc1 & <- & _).
    apply in_map_iff in H2 as (m2 & E & H2).
    apply in_flat_map in H2 as (nf2 & Hnf2 & H2).
    apply in_map_iff in H2 as (rc2 & <- & _).
    apply Hx. injection E as E1 _. cbn in E1. rewrite <- E1.
    now apply in_map.
Qed.

Lemma In_pares (nfs recs : dict bucket) (nf rc : entrada) :
  In nf nfs -> In rc recs -> bate nf rc = true ->
  In (casamento_de nf rc) (pares nfs recs).
Proof.
  intros Hn Hr Hb. unfold pares. apply in_flat_map. exists nf.
  split; [exact Hn|]. apply in_map. apply filter_In. now split.
Qed.

End MatchingFacts.

Definition balde (n : string) (v : Decimal) : string * bucket :=
  (n, mk_bucket n D_zero D_zero v []).

Definition D_980 : Decimal := DFin false 98000 (-2).

(** One invoice of 980.00 and two receipts of 980.00. *)
Definition sistema_uma_nf_dois_recebimentos : sistema :=
  mk_sistema D_zero None None [] [balde "000002902" D_980]
    [balde "1000670" D_980; balde "1000671" D_980] [] [] [].

(** Two invoices of 980.00 and one receipt of 980.00. *)
Definition sistema_duas_nfs_um_recebimento : sistema :=
  mk_sistema D_zero None None []
    [balde "000002902" D_980; balde "000002903" D_980]
    [balde "1000670" D_980] [] [] [].

(** C2, as stated, fails for [realizar_matching]: the loops never look at
    [nfs_matcheadas] or [recs_matcheados], so one receipt of 980.00 is
    matched with both invoices of 980.00 and appears in two entries of
    [matches]. *)
Lemma matching_repete_recebimento :
  exists st',
    realizar_matching sistema_duas_nfs_um_recebimento = Ret st' /\
    map par (matches st')
    = [("000002902"%string, "1000670"%string);
       ("000002903"%string, "1000670"%string)] /\
    List.length
      (filter (fun m => String.eqb (rec_numero m) "1000670") (matches st'))
    = 2.
Proof. eexists. repeat split. Qed.

(** C2, amended: in [conciliar] no accounting line is consumed by more than
    one OK row; in [realizar_matching] no pair of an invoice and a receipt
    appears in more than one entry of [matches] (one bucket may appear in
    several entries, once for each counterpart it matches). *)
Theorem um_match_por_registro (list_set : list nat -> list nat)
    (fin : Contabil.df_fin) (cont : Contabil.df_cont) (tol : float)
    (min_len : Z) (st st' : sistema) :
  (forall j,
     ocorrencias_ok_cont j (Contabil.conciliar list_set fin cont tol min_len)
     <= 1) /\
  (NoDup (map fst (nfs st)) -> NoDup (map fst (recebimentos st)) ->
   matches st = [] -> realizar_matching st = Ret st' ->
   NoDup (map par (matches st'))).
Proof.
  split.
  - intros j.
    pose proof (ocorrencias_ok_cont_le j
                  (Contabil.conciliar list_set fin cont tol min_len)).
    pose proof (proj1 (conciliar_ocorrencias_cont list_set fin cont tol
                         min_len j)).
    lia.
  - intros Hn Hr Hm H.
    assert (Hc : comparaveis (nfs st) (recebimentos st))
      by (apply realizar_matching_retorna; now exists st').
    rewrite (realizar_matching_resultado st Hn Hr Hc) in H.
    injection H as <-. cbn [matches]. rewrite Hm. cbn [app].
    now apply pares_sem_repeticao.
Qed.

Lemma um_match_por_registro_witness :
  ocorrencias_ok_cont 1
    (Contabil.conciliar (nodup Nat.eq_dec) df_fin_exemplo df_cont_exemplo
       Contabil.cent 3) <= 1 /\
  exists st',
    realizar_matching sistema_duas_nfs_um_recebimento = Ret st' /\
    NoDup (map par (matches st')).
Proof.
  split; [|eexists; split; [reflexivity|]].
  - exact (proj1 (um_match_por_registro (nodup Nat.eq_dec) df_fin_exemplo
                    df_cont_exemplo Contabil.cent 3
                    sistema_duas_nfs_um_recebimento
                    sistema_duas_nfs_um_recebimento) 1).
  - refine (proj2 (um_match_por_registro (nodup Nat.eq_dec) df_fin_exemplo
                     df_cont_exemplo Contabil.cent 3
                     sistema_duas_nfs_um_recebimento _) _ _ eq_refl eq_refl).
    + repeat constructor; simpl; intuition discriminate.
    + repeat constructor; simpl; intuition discriminate.
Defined.

(** C3, as stated, fails: the inner loop has no [break] and skips no
    consumed bucket, so an invoice of 980.00 is matched with the first
    receipt of 980.00 and also with the second. *)
Lemma matching_nao_para_no_primeiro :
  exists st',
    realizar_matching sistema_uma_nf_dois_recebimentos = Ret st' /\
    map par (matches st')
    = [("000002902"%string, "1000670"%string);
       ("000002902"%string, "1000671"%string)] /\
    nao_encontrados_rec st' = [].
Proof. eexists. repeat split. Qed.

(** C3, amended: the run returns exactly when no comparison of line 319
    raises; it then appends to [matches], for every invoice bucket in
    iteration order, one entry for EVERY receipt bucket (in iteration
    order) whose net value differs from the invoice's by less than 0.01,
    and the invoices and receipts that are in no entry are appended to the
    leftover lists. *)
Theorem realizar_matching_todos_os_pares (st : sistema) :
  NoDup (map fst (nfs st)) -> NoDup (map fst (recebimentos st)) ->
  (comparaveis (nfs st) (recebimentos st) <->
   exists st', realizar_matching st = Ret st') /\
  forall st', realizar_matching st = Ret st' ->
    matches st' = matches st ++ pares (nfs st) (recebimentos st) /\
    nao_encontrados_nf st'
    = nao_encontrados_nf st
      ++ map snd
           (filter (fun nf => negb (existsb (bate nf) (recebimentos st)))
              (nfs st)) /\
    nao_encontrados_rec st'
    = nao_encontrados_rec st
      ++ map snd
           (filter (fun rc => negb (existsb (fun nf => bate nf rc) (nfs st)))
              (recebimentos st)) /\
    nfs st' = nfs st /\ recebimentos st' = recebimentos st /\
    (forall nf rc, In nf (nfs st) -> In rc (recebimentos st) ->
       valores_batem (valor_liquido (snd nf)) (valor_liquido (snd rc))
       = Ret true ->
       In (casamento_de nf rc) (matches st')).
Proof.
  intros Hn Hr. split; [apply realizar_matching_retorna|].
  intros st' H.
  assert (Hc : comparaveis (nfs st) (recebimentos st))
    by (apply realizar_matching_retorna; now exists st').
  rewrite (realizar_matching_resultado st Hn Hr Hc) in H.
  injection H as <-. cbn [matches nao_encontrados_nf nao_encontrados_rec nfs
                          recebimentos].
  repeat split.
  intros nf rc Hnf Hrc Hb. apply in_or_app. right.
  apply In_pares; try assumption. unfold bate. now rewrite Hb.
Qed.

Lemma realizar_matching_todos_os_pares_witness :
  exists st',
    realizar_matching sistema_uma_nf_dois_recebimentos = Ret st' /\
    matches st'
    = pares (nfs sistema_uma_nf_dois_recebimentos)
        (recebimentos sistema_uma_nf_dois_recebimentos) /\
    List.length (matches st') = 2.
Proof.
  eexists. split; [reflexivity|].
  refine (let H := proj2 (realizar_matching_todos_os_pares
                            sistema_uma_nf_dois_recebimentos _ _) _ eq_refl
          in conj (proj1 H) eq_refl).
  - repeat constructor; simpl; intuition discriminate.
  - repeat constructor; simpl; intuition discriminate.
Defined.

(* ================================================================== *)
(** * Properties of processar_lancamentos and of the final balance *)
(* ================================================================== *)

Section LancamentosFacts.

Local Open Scope list_scope.

Variable numero_da_nf : string -> option string.
Variable numero_do_recebimento : string -> option string.










Lemma fold_processar_raise l e :
  fold_left
    (fun acc nl =>
       s <- acc ;; processar_linha numero_da_nf numero_do_recebimento s nl)
    l (Raise e) = Raise e.
Proof. induction l as [|nl l IH]; [reflexivity | exact IH]. Qed.



(** *** Lines without a usable date *)

(** The date cell is [None], or neither a datetime nor a text in the
    format "%Y-%m-%d %H:%M:%S". *)
Definition data_invalida (data : pyval) : bool :=
  match data with
  | PNone => true
  | PDatetime _ => false
  | PStr s =>
      match strptime s with
      | Some _ => false
      | None => true
      end
  | _ => true
  end.

Lemma esta_no_intervalo_invalida st data :
  data_invalida data = true -> esta_no_intervalo st data = Ret false.
Proof.
  destruct data; simpl; try reflexivity; try discriminate.
  now destruct (strptime s).
Qed.

Lemma processar_linha_invalida st row_num c :
  data_invalida (cel_data c) = true ->
  processar_linha numero_da_nf numero_do_recebimento st (row_num, c)
  = (_ <- parse_valor (cel_debito c) ;;
     _ <- parse_valor (cel_credito c) ;;
     Ret st).
Proof.
  intros H. unfold processar_linha.
  rewrite (esta_no_intervalo_invalida st _ H).
  destruct (parse_valor (cel_debito c)); [|reflexivity].
  destruct (parse_valor (cel_credito c)); reflexivity.
Qed.

(** The amount cells of the line are read without an exception. *)
Definition valores_lidos (c : linha_planilha) : Prop :=
  (exists d, parse_valor (cel_debito c) = Ret d) /\
  (exists d, parse_valor (cel_credito c) = Ret d).

Lemma fold_sem_linhas_invalidas (l : list (nat * linha_planilha))
    (acc : result sistema) :
  (forall nl, In nl l -> data_invalida (cel_data (snd nl)) = true ->
     valores_lidos (snd nl)) ->
  fold_left
    (fun acc nl =>
       s <- acc ;; processar_linha numero_da_nf numero_do_recebimento s nl)
    l acc
  = fold_left
      (fun acc nl =>
         s <- acc ;; processar_linha numero_da_nf numero_do_recebimento s nl)
      (filter (fun nl => negb (data_invalida (cel_data (snd nl)))) l) acc.
Proof.
  revert acc. induction l as [|[n c] l IH]; intros acc H; [reflexivity|].
  cbn [fold_left filter snd].
  destruct (data_invalida (cel_data c)) eqn:E; cbn [negb].
  - rewrite <- IH by (intros; apply H; [now right | assumption]).
    f_equal. destruct acc as [s|e]; [|reflexivity]. cbn [bind].
    rewrite processar_linha_invalida by exact E.
    pose proof (H (n, c) (or_introl eq_refl) E) as Hv. cbn [snd] in Hv.
    destruct Hv as [[d1 ->] [d2 ->]]. reflexivity.
  - cbn [fold_left]. apply IH. intros; apply H; [now right | assumption].
Qed.

End LancamentosFacts.

(** A stand-in for the two cascades of regular expressions in the examples
    below: the digits of the description.  On the descriptions used here
    ("NF: 000002902") the cascades find the same number. *)
Definition numero_exemplo (historico : string) : option string :=
  let d := str_filter is_digit historico in
  if is_empty d then None else Some d.

Definition janeiro_2024 : datetime := mk_datetime 2024 1 1 0 0 0 0.
Definition dezembro_2024 : datetime := mk_datetime 2024 12 31 0 0 0 0.

(** An invoice line of 0.20 dated 2024-03-05. *)
Definition linha_nf_20_centavos : linha_planilha :=
  mk_linha_planilha (PDatetime (mk_datetime 2024 3 5 0 0 0 0))
    (PStr "008820001") (PStr "NF: 000002902") (PFloat 0.2) PNone PNone.

Definition D_10_centavos : Decimal := DFin false 1 (-1).

(** C10: whatever the date window (even a missing one), a line whose date
    cell is [None], or is neither a datetime nor a text that
    [strptime(..., "%Y-%m-%d %H:%M:%S")] reads, is out of the interval; its
    turn of the loop reads the two amount cells and leaves the state as it
    was; and a sheet gives the run it gives without these lines (the lines
    keep their row numbers). *)
Theorem linha_sem_data_nao_contribui
    (numero_da_nf numero_do_recebimento : string -> option string)
    (st : sistema) :
  (forall data, data_invalida data = true ->
     esta_no_intervalo st data = Ret false) /\
  (forall row_num c, data_invalida (cel_data c) = true ->
     processar_linha numero_da_nf numero_do_recebimento st (row_num, c)
     = (_ <- parse_valor (cel_debito c) ;;
        _ <- parse_valor (cel_credito c) ;;
        Ret st)) /\
  (forall row_num c st', data_invalida (cel_data c) = true ->
     processar_linha numero_da_nf numero_do_recebimento st (row_num, c)
     = Ret st' -> st' = st) /\
  (forall l : list (nat * linha_planilha),
     (forall nl, In nl l -> data_invalida (cel_data (snd nl)) = true ->
        valores_lidos (snd nl)) ->
     fold_left
       (fun acc nl =>
          s <- acc ;; processar_linha numero_da_nf numero_do_recebimento s nl)
       l (Ret st)
     = fold_left
         (fun acc nl =>
            s <- acc ;;
            processar_linha numero_da_nf numero_do_recebimento s nl)
         (filter (fun nl => negb (data_invalida (cel_data (snd nl)))) l)
         (Ret st)).
Proof.
  split; [|split; [|split]].
  - intros data H. now apply esta_no_intervalo_invalida.
  - intros row_num c H. now apply processar_linha_invalida.
  - intros row_num c st' H E.
    rewrite processar_linha_invalida in E by exact H.
    destruct (parse_valor (cel_debito c)); [|discriminate].
    destruct (parse_valor (cel_credito c)); [|discriminate].
    now injection E as <-.
  - intros l H. now apply fold_sem_linhas_invalidas.
Qed.

(** A line dated in the Brazilian way, as a text. *)
Definition linha_data_brasileira : linha_planilha :=
  mk_linha_planilha (PStr "05/03/2024") (PStr "008820001")
    (PStr "NF: 000002902") (PFloat 0.2) PNone PNone.

Lemma linha_sem_data_nao_contribui_witness :
  data_invalida (cel_data linha_data_brasileira) = true /\
  processar_linha numero_exemplo numero_exemplo
    (novo_sistema D_10_centavos (Some janeiro_2024) (Some dezembro_2024))
    (3, linha_data_brasileira)
  = Ret (novo_sistema D_10_centavos (Some janeiro_2024) (Some dezembro_2024))
  /\
  processar_lancamentos numero_exemplo numero_exemplo
    (novo_sistema D_10_centavos (Some janeiro_2024) (Some dezembro_2024))
    [linha_data_brasileira; linha_nf_20_centavos]
  = fold_left
      (fun acc nl =>
         s <- acc ;; processar_linha numero_exemplo numero_exemplo s nl)
      [(4, linha_nf_20_centavos)]
      (Ret (novo_sistema D_10_centavos (Some janeiro_2024)
              (Some dezembro_2024))).
Proof.
  destruct (linha_sem_data_nao_contribui numero_exemplo numero_exemplo
              (novo_sistema D_10_centavos (Some janeiro_2024)
                 (Some dezembro_2024))) as (_ & H2 & _ & H4).
  assert (Hd : data_invalida (cel_data linha_data_brasileira) = true)
    by (vm_compute; reflexivity).
  split; [exact Hd|]. split.
  - rewrite (H2 3 linha_data_brasileira Hd). vm_compute. reflexivity.
  - refine (H4 [(3, linha_data_brasileira); (4, linha_nf_20_centavos)] _).
    intros nl [<-|[<-|[]]] _; split; eexists; vm_compute; reflexivity.
Defined.

(* ================================================================== *)
(** * Further properties of the two engines *)
(* ================================================================== *)

(* ================================================================== *)
(** * More facts on texts *)
(* ================================================================== *)

Section MoreTextFacts.

Local Open Scope string_scope.

Lemma append_assoc (a b c : string) : (a ++ b) ++ c = a ++ b ++ c.
Proof. induction a as [|x a IH]; simpl; [reflexivity | now rewrite IH]. Qed.

Lemma append_nil_r (a : string) : a ++ "" = a.
Proof. induction a as [|x a IH]; simpl; [reflexivity | now rewrite IH]. Qed.

Lemma length_append (a b : string) :
  String.length (a ++ b) = String.length a + String.length b.
Proof. induction a as [|x a IH]; simpl; [reflexivity | now rewrite IH]. Qed.

Lemma digito_AZ09 (c : ascii) : is_digit c = true -> is_AZ09 c = true.
Proof. intros H. unfold is_AZ09. rewrite H. apply orb_true_r. Qed.

Lemma letra_AZ09 (c : ascii) : is_AZ c = true -> is_AZ09 c = true.
Proof. intros H. unfold is_AZ09. now rewrite H. Qed.

Lemma upper_app (s t : string) : upper (s ++ t) = upper s ++ upper t.
Proof.
  induction s as [|c s IH]; simpl; [reflexivity|].
  now rewrite IH, append_assoc.
Qed.

End MoreTextFacts.

(* ================================================================== *)
(** * What a match of the regular-expression matcher is *)
(* ================================================================== *)

Section RegexFacts.

Import PyRe.
Local Open Scope string_scope.

(** [casa r s g t g']: the pattern [r] matches at the start of [s], what
    follows the match is [t], and group 1 goes from [g] to [g']. *)
Inductive casa : regex -> string -> captura -> string -> captura -> Prop :=
| casa_Eps s g : casa Eps s g s g
| casa_Cls p c t g : p c = true -> casa (Cls p) (String c t) g t g
| casa_Seq a b s g t g' u g'' :
    casa a s g t g' -> casa b t g' u g'' -> casa (Seq a b) s g u g''
| casa_Alt_l a b s g t g' : casa a s g t g' -> casa (Alt a b) s g t g'
| casa_Alt_r a b s g t g' : casa b s g t g' -> casa (Alt a b) s g t g'
| casa_Rep p lo hi guloso w t g :
    str_forall p w = true -> lo <= String.length w ->
    (forall h, hi = Some h -> String.length w <= h) ->
    casa (Rep p lo hi guloso) (w ++ t) g t g
| casa_Grp a s g t g' :
    casa a s g t g' -> casa (Grp a) s g t (Some (texto_entre s t)).

Lemma repetir_casa {R : Type} p lo hi guloso (k : string -> option R) s n x :
  (forall h, hi = Some h -> n <= h) ->
  repetir p lo hi guloso k n s = Some x ->
  exists w t, s = w ++ t /\ str_forall p w = true /\
    lo <= n + String.length w /\
    (forall h, hi = Some h -> n + String.length w <= h) /\
    k t = Some x.
Proof.
  revert n. induction s as [|c r IH]; intros n Hn H; cbn [repetir] in H.
  - destruct (lo <=? n)%nat eqn:L; [|discriminate]. apply Nat.leb_le in L.
    exists "", "". repeat split; simpl; try lia; try assumption.
    intros h Hh. specialize (Hn h Hh). lia.
  - assert (Stop : (if (lo <=? n)%nat then k (String c r) else None) = Some x ->
                   exists w t, String c r = w ++ t /\ str_forall p w = true /\
                     lo <= n + String.length w /\
                     (forall h, hi = Some h -> n + String.length w <= h) /\
                     k t = Some x).
    { intros E. destruct (lo <=? n)%nat eqn:L; [|discriminate].
      apply Nat.leb_le in L.
      exists "", (String c r). repeat split; simpl; try lia; try assumption.
      intros h Hh. specialize (Hn h Hh). lia. }
    assert (Go : repetir p lo hi guloso k (S n) r = Some x ->
                 p c = true ->
                 match hi with Some h => (n <? h)%nat | None => true end = true ->
                 exists w t, String c r = w ++ t /\ str_forall p w = true /\
                   lo <= n + String.length w /\
                   (forall h, hi = Some h -> n + String.length w <= h) /\
                   k t = Some x).
    { intros E Hc Hp.
      apply IH in E as (w & t & -> & Hw & Hlo & Hhi & Hk).
      - exists (String c w), t. repeat split; simpl; try assumption.
        + now rewrite Hc, Hw.
        + lia.
        + intros h Hh. specialize (Hhi h Hh). lia.
      - intros h Hh. subst hi. apply Nat.ltb_lt in Hp. lia. }
    destruct (p c) eqn:Hc; cbn [andb] in H; [|now apply Stop].
    destruct (match hi with Some h => (n <? h)%nat | None => true end) eqn:Hp;
      [|now apply Stop].
    destruct guloso.
    + destruct (repetir p lo hi true k (S n) r) as [y|] eqn:E.
      * injection H as ->. now apply Go.
      * now apply Stop.
    + destruct (if (lo <=? n)%nat then k (String c r) else None) as [y|] eqn:E.
      * injection H as ->. now apply Stop.
      * now apply Go.
Qed.

(** The matcher is sound: a result comes from a match that the
    continuation accepts. *)
Lemma casar_casa {R : Type} (r : regex) :
  forall s g (k : string -> captura -> option R) x,
    casar r s g k = Some x ->
    exists t g', casa r s g t g' /\ k t g' = Some x.
Proof.
  induction r as [|p|a IHa b IHb|a IHa b IHb|p lo hi guloso|a IHa];
    intros s g k x H; cbn [casar] in H.
  - exists s, g. split; [constructor | exact H].
  - destruct s as [|c t]; [discriminate|].
    destruct (p c) eqn:Hc; [|discriminate].
    exists t, g. split; [now constructor | exact H].
  - apply IHa in H as (t & g1 & Ha & H).
    apply IHb in H as (u & g2 & Hb & H).
    exists u, g2. split; [econstructor; eassumption | exact H].
  - destruct (casar a s g k) as [y|] eqn:E.
    + injection H as ->. apply IHa in E as (t & g1 & Ha & H).
      exists t, g1. split; [now apply casa_Alt_l | exact H].
    + apply IHb in H as (t & g1 & Hb & H).
      exists t, g1. split; [now apply casa_Alt_r | exact H].
  - apply repetir_casa in H as (w & t & -> & Hw & Hlo & Hhi & Hk).
    + exists t, g. split; [|exact Hk].
      constructor; [assumption | lia |].
      intros h Hh. specialize (Hhi h Hh). lia.
    + intros; lia.
  - apply IHa in H as (t & g1 & Ha & H).
    exists t, (Some (texto_entre s t)). split; [|exact H].
    econstructor. exact Ha.
Qed.

Lemma re_match_casa r s g t :
  re_match r s = Some (g, t) -> casa r s None t g.
Proof.
  unfold re_match. intros H.
  apply casar_casa in H as (t' & g' & Hc & [= <- <-]). exact Hc.
Qed.

(** A search that succeeds found a match at some position of the text. *)
Lemma re_search_casa r s g :
  re_search r s = Some g ->
  exists pre s' t, s = pre ++ s' /\ casa r s' None t g.
Proof.
  induction s as [|c s IH]; cbn [re_search].
  - destruct (re_match r "") as [[g' t]|] eqn:E; [|discriminate].
    intros [= <-]. exists "", "", t. split; [reflexivity|].
    now apply re_match_casa.
  - destruct (re_match r (String c s)) as [[g' t]|] eqn:E.
    + intros [= <-]. exists "", (String c s), t. split; [reflexivity|].
      now apply re_match_casa.
    + intros H. apply IH in H as (pre & s' & t & -> & H).
      exists (String c pre), s', t. split; [reflexivity | exact H].
Qed.

Lemma substring_prefixo (w t : string) :
  substring 0 (String.length w) (w ++ t) = w.
Proof.
  induction w as [|c w IH]; simpl.
  - now destruct t.
  - now rewrite IH.
Qed.

Lemma texto_entre_app (w t : string) : texto_entre (w ++ t) t = w.
Proof.
  unfold texto_entre. rewrite length_append.
  replace (String.length w + String.length t - String.length t)
    with (String.length w) by lia.
  apply substring_prefixo.
Qed.

(** A match consumes a prefix of the text. *)
Lemma casa_consome r s g t g' :
  casa r s g t g' -> exists w, s = w ++ t.
Proof.
  induction 1.
  - now exists "".
  - now exists (String c "").
  - destruct IHcasa1 as [w1 ->], IHcasa2 as [w2 ->].
    exists (w1 ++ w2). now rewrite append_assoc.
  - assumption.
  - assumption.
  - now exists w.
  - assumption.
Qed.

(** [x] occurs in [s]. *)
Definition ocorre (x s : string) : Prop := exists a b, s = a ++ x ++ b.

Lemma ocorre_app_l (x s pre : string) : ocorre x s -> ocorre x (pre ++ s).
Proof.
  intros (a & b & ->). exists (pre ++ a), b. now rewrite append_assoc.
Qed.

Lemma ocorre_app_r (x s post : string) : ocorre x s -> ocorre x (s ++ post).
Proof.
  intros (a & b & ->). exists a, (b ++ post). now rewrite !append_assoc.
Qed.

Lemma prefix_append (x b : string) : String.prefix x (x ++ b) = true.
Proof.
  induction x as [|c x IH]; simpl; [now destruct b|].
  destruct (ascii_dec c c); [exact IH | contradiction].
Qed.

Lemma ocorre_contains (x s : string) : ocorre x s -> contains x s = true.
Proof.
  intros (a & b & ->). induction a as [|c a IH].
  - simpl append. destruct (x ++ b) eqn:E; cbn [contains];
      rewrite <- E, prefix_append; reflexivity.
  - change (String c a ++ x ++ b) with (String c (a ++ x ++ b)).
    cbn [contains]. rewrite IH. apply orb_true_r.
Qed.

(** Group 1, once set by a match, is a piece of the text the match read. *)
Lemma casa_captura r s g t g' :
  casa r s g t g' ->
  g' = g \/ exists x, g' = Some x /\ ocorre x s.
Proof.
  induction 1.
  - now left.
  - now left.
  - destruct (casa_consome _ _ _ _ _ H) as [w1 ->].
    destruct IHcasa2 as [->|(x & -> & Hx)].
    + destruct IHcasa1 as [->|(x & -> & Hx)]; [now left | right].
      exists x. now split.
    + right. exists x. split; [reflexivity | now apply ocorre_app_l].
  - assumption.
  - assumption.
  - now left.
  - right. destruct (casa_consome _ _ _ _ _ H) as [w ->].
    rewrite texto_entre_app. exists w. split; [reflexivity|].
    exists "", t. reflexivity.
Qed.

Lemma re_search_ocorre r s x :
  re_search r s = Some (Some x) -> ocorre x s.
Proof.
  intros H. apply re_search_casa in H as (pre & s' & t & -> & H).
  apply casa_captura in H as [E|(y & [= <-] & Hy)]; [discriminate|].
  now apply ocorre_app_l.
Qed.

End RegexFacts.

Section GrupoFacts.

Import PyRe.
Local Open Scope string_scope.

(** Whatever precedes it, the pattern ends with setting group 1 to a text
    with the property [P]. *)
Definition grupo_final (P : string -> Prop) (r : regex) : Prop :=
  forall s g t g', casa r s g t g' -> exists x, g' = Some x /\ P x.

Lemma grupo_final_Seq (P : string -> Prop) (a b : regex) :
  grupo_final P b -> grupo_final P (Seq a b).
Proof.
  intros Hb s g t g' H. inversion H; subst. eapply Hb. eassumption.
Qed.

Lemma grupo_final_Grp_Rep (P : string -> Prop) p lo hi guloso :
  (forall w, str_forall p w = true -> lo <= String.length w -> P w) ->
  grupo_final P (Grp (Rep p lo hi guloso)).
Proof.
  intros HP s g t g' H. inversion H as [| | | | | |a s0 g0 t0 g1 Ha]; subst.
  inversion Ha; subst. rewrite texto_entre_app. eexists. split; [reflexivity|].
  now apply HP.
Qed.

Lemma grupo_1_final (P : string -> Prop) r s x :
  grupo_final P r -> grupo_1 r s = Some x -> P x /\ ocorre x s.
Proof.
  intros Hr H. unfold grupo_1 in H.
  destruct (re_search r s) as [[y|]|] eqn:E; try discriminate.
  injection H as ->. split; [|now apply (re_search_ocorre r)].
  apply re_search_casa in E as (pre & s' & t & -> & H).
  apply Hr in H as (y & [= <-] & Hy). exact Hy.
Qed.

Lemma primeiro_grupo_final (P : string -> Prop) ps s x :
  Forall (grupo_final P) ps -> primeiro_grupo ps s = Some x ->
  P x /\ ocorre x s.
Proof.
  induction 1 as [|p ps Hp Hps IH]; cbn [primeiro_grupo]; [discriminate|].
  destruct (grupo_1 p s) as [y|] eqn:E.
  - intros [= <-]. eapply grupo_1_final; eassumption.
  - exact IH.
Qed.

(** At least [n] characters, all digits. *)
Definition digitos_min (n : nat) (x : string) : Prop :=
  str_forall is_digit x = true /\ n <= String.length x.

Lemma ocorre_forall (q : ascii -> bool) (x s : string) :
  ocorre x s -> str_forall q s = true -> str_forall q x = true.
Proof.
  intros (a & b & ->) H.
  rewrite !str_forall_app in H.
  apply andb_true_iff in H as [_ H]. now apply andb_true_iff in H as [H _].
Qed.

End GrupoFacts.

Section NumerosFacts.

Local Open Scope string_scope.

Lemma str_filter_filter (p q : ascii -> bool) (s : string) :
  (forall c, p c = true -> q c = true) ->
  str_filter p (str_filter q s) = str_filter p s.
Proof.
  intros Hpq. induction s as [|c s IH]; simpl; [reflexivity|].
  destruct (q c) eqn:Q; simpl.
  - destruct (p c); now rewrite IH.
  - destruct (p c) eqn:P; [|exact IH]. apply Hpq in P. congruence.
Qed.

Lemma is_space_not_digit (c : ascii) : is_space c = true -> is_digit c = false.
Proof.
  intros H. destruct (is_digit c) eqn:D; [|reflexivity].
  rewrite is_digit_not_space in H by assumption. discriminate.
Qed.

Lemma str_filter_digit_lstrip (s : string) :
  str_filter is_digit (lstrip s) = str_filter is_digit s.
Proof.
  induction s as [|c s IH]; simpl; [reflexivity|].
  destruct (is_space c) eqn:E; [|reflexivity].
  now rewrite (is_space_not_digit c E).
Qed.

Lemma rstrip_vazio_sem_digito (s : string) :
  rstrip s = "" -> str_filter is_digit s = "".
Proof.
  induction s as [|c s IH]; simpl; [reflexivity|].
  destruct (is_space c) eqn:E; simpl.
  - destruct (rstrip s) eqn:R; simpl; [|discriminate].
    intros _. rewrite (is_space_not_digit c E). now apply IH.
  - discriminate.
Qed.

Lemma str_filter_digit_rstrip (s : string) :
  str_filter is_digit (rstrip s) = str_filter is_digit s.
Proof.
  induction s as [|c s IH]; simpl; [reflexivity|].
  destruct (is_space c && is_empty (rstrip s))%bool eqn:E.
  - apply andb_true_iff in E as [Ec Er].
    rewrite (is_space_not_digit c Ec). simpl.
    symmetry. apply rstrip_vazio_sem_digito.
    now destruct (rstrip s).
  - simpl. now rewrite IH.
Qed.

Lemma str_filter_digit_upper_char (c : ascii) :
  str_filter is_digit (upper_char c)
  = if is_digit c then String c "" else "".
Proof.
  unfold upper_char.
  destruct (is_digit c) eqn:D.
  - apply is_digit_code in D. unfold is_az.
    rewrite (between_false 97 122) by lia.
    replace (N.eqb (code c) 223) with false by (symmetry; apply N.eqb_neq; lia).
    rewrite (between_false 224 254) by lia. simpl.
    replace (is_digit c) with true
      by (symmetry; apply between_spec; exact D).
    reflexivity.
  - destruct (is_az c) eqn:A.
    + apply between_spec in A. simpl.
      replace (is_digit (chr (code c - 32))) with false; [reflexivity|].
      symmetry. apply between_false. unfold code, chr.
      rewrite N_ascii_embedding
        by (pose proof (N_ascii_bounded c); unfold code in *; lia).
      unfold code in A. lia.
    + destruct (N.eqb (code c) 223); [reflexivity|].
      destruct (between 224 254 c && negb (N.eqb (code c) 247))%bool eqn:B.
      * apply andb_true_iff in B as [B _]. apply between_spec in B. simpl.
        replace (is_digit (chr (code c - 32))) with false; [reflexivity|].
        symmetry. apply between_false. unfold code, chr.
        rewrite N_ascii_embedding
          by (pose proof (N_ascii_bounded c); unfold code in *; lia).
        unfold code in B. lia.
      * simpl. now rewrite D.
Qed.

Lemma str_filter_digit_upper (s : string) :
  str_filter is_digit (upper s) = str_filter is_digit s.
Proof.
  induction s as [|c s IH]; simpl; [reflexivity|].
  rewrite str_filter_app, str_filter_digit_upper_char, IH.
  now destruct (is_digit c).
Qed.

Lemma extrair_numeros_do_normalizado (txt : string) :
  extrair_numeros txt = str_filter is_digit (normalizar_texto (Some txt)).
Proof.
  unfold extrair_numeros, normalizar_texto.
  destruct (is_empty txt) eqn:E.
  - destruct txt; [reflexivity | discriminate].
  - rewrite (str_filter_filter is_digit is_AZ09)
      by (intros c Hc; unfold is_AZ09; rewrite Hc; apply orb_true_r).
    unfold strip.
    now rewrite str_filter_digit_rstrip, str_filter_digit_lstrip,
                str_filter_digit_upper.
Qed.

End NumerosFacts.

(** X1: the normalised text holds capital letters and digits only, and the
    numbers [extrair_numeros] extracts from a text are the digits of its
    normalised text, in order. *)
Theorem numeros_do_texto_normalizado (txt : string) :
  str_forall is_AZ09 (Contabil.normalizar_texto (Some txt)) = true /\
  Contabil.extrair_numeros txt
  = str_filter is_digit (Contabil.normalizar_texto (Some txt)).
Proof.
  split; [apply normalizar_texto_AZ09 | apply extrair_numeros_do_normalizado].
Qed.

Section PrefixoFacts.

Local Open Scope string_scope.

(** The prefixes as they may be typed: in capitals or in small letters. *)
Definition prefixos_digitados : list string :=
  prefixos_comuns ++ map lower prefixos_comuns.

Lemma digito_nao_traco (c : ascii) : is_digit c = true -> c <> "-"%char.
Proof. intros H ->. discriminate. Qed.

(** The loop over the prefixes cuts a typed prefix off a text that goes on
    with a digit. *)
Lemma cortar_prefixo_digitado (p : string) (c : ascii) (r : string) :
  In p prefixos_digitados -> is_digit c = true ->
  cortar_prefixo prefixos_comuns (p ++ String c r) = String c r.
Proof.
  intros Hp Hc.
  assert (Hu : forall q, upper (q ++ String c r) = upper q ++ String c (upper r)).
  { intros q. rewrite upper_app. simpl.
    now rewrite (upper_char_AZ09 c) by (now apply digito_AZ09). }
  unfold prefixos_digitados, prefixos_comuns in Hp. simpl in Hp.
  unfold cortar_prefixo, prefixos_comuns.
  repeat (destruct Hp as [<-|Hp];
    [ rewrite Hu;
      match goal with
      | |- context [upper ?q ++ String c (upper r)] =>
          let u := eval vm_compute in (upper q) in
          change (upper q) with u
      end;
      cbn [append String.length drop];
      repeat match goal with
      | |- context [startswith ?q ?s] =>
          let E := fresh "E" in
          destruct (startswith q s) eqn:E;
          [ first [ reflexivity
                  | exfalso; unfold startswith in E;
                    apply prefix_correct in E; cbn in E;
                    first [ discriminate E
                          | injection E; intros; subst; discriminate Hc ] ]
          | first [ solve [ exfalso; unfold startswith in E;
                            assert (E' : String.prefix q s = true)
                              by (apply prefix_correct; reflexivity);
                            congruence ]
                  | idtac ] ]
      end
    | ]).
  contradiction.
Qed.

Lemma cortar_prefixo_digito (c : ascii) (r : string) :
  is_digit c = true ->
  cortar_prefixo prefixos_comuns (String c r) = String c r.
Proof.
  intros Hc. apply cortar_prefixo_nenhum. intros p Hp. simpl upper.
  rewrite (upper_char_AZ09 c) by (now apply digito_AZ09).
  unfold prefixos_sem_traco in Hp. simpl in Hp.
  repeat (destruct Hp as [<-|Hp];
          [apply prefix_head_ne; intros <-; discriminate Hc|]).
  contradiction.
Qed.

Lemma digito_eqb_traco (c : ascii) :
  is_digit c = true -> Ascii.eqb c "-" = false.
Proof. intros H. apply is_AZ09_not_dash. now apply digito_AZ09. Qed.

Lemma digito_nao_letra (c : ascii) : is_digit c = true -> is_AZ c = false.
Proof.
  intros H. apply is_digit_code in H. apply between_false. lia.
Qed.

(** [-[A-Z]$] after digits. *)
Lemma sub_traco_letra_sufixo (d : string) (L : ascii) :
  str_forall is_digit d = true -> is_AZ L = true ->
  sub_traco_letra (d ++ String "-" (String L "")) = d.
Proof.
  intros Hd HL. induction d as [|c d IH].
  - simpl. now rewrite HL.
  - simpl in Hd. apply andb_true_iff in Hd as [Hc Hd].
    change (sub_traco_letra (String c (d ++ String "-" (String L ""))) = String c d).
    cbn [sub_traco_letra].
    destruct (d ++ String "-" (String L "")) eqn:E.
    + destruct d; discriminate.
    + rewrite (digito_eqb_traco c Hc). cbn [andb].
      now rewrite IH.
Qed.

(** No [-[A-Z]$] in a text without capital letters. *)
Lemma sub_traco_letra_sem_letra (s : string) :
  str_forall (fun c => negb (is_AZ c)) s = true -> sub_traco_letra s = s.
Proof.
  induction s as [|c r IH]; [reflexivity|].
  intros H. simpl in H. apply andb_true_iff in H as [_ Hr].
  cbn [sub_traco_letra]. destruct r as [|u r']; [reflexivity|].
  simpl in Hr. apply andb_true_iff in Hr as [Hu Hr'].
  apply negb_true_iff in Hu. rewrite Hu, andb_false_r. cbn [andb].
  f_equal. apply IH. simpl. now rewrite Hu, Hr'.
Qed.

(** One or two digits. *)
Definition um_ou_dois_digitos (n : string) : Prop :=
  exists a, is_digit a = true /\
    (n = String a "" \/ exists b, is_digit b = true /\ n = String a (String b "")).

(** [-\d{1,2}$] after digits. *)
Lemma sub_traco_digitos_sufixo (d n : string) :
  str_forall is_digit d = true -> um_ou_dois_digitos n ->
  sub_traco_digitos (d ++ String "-" n) = d.
Proof.
  intros Hd (a & Ha & Hn). induction d as [|c d IH].
  - destruct Hn as [->|(b & Hb & ->)]; simpl; rewrite Ha; [reflexivity|].
    now rewrite Hb.
  - simpl in Hd. apply andb_true_iff in Hd as [Hc Hd].
    change (sub_traco_digitos (String c (d ++ String "-" n)) = String c d).
    cbn [sub_traco_digitos]. rewrite (digito_eqb_traco c Hc).
    now rewrite IH.
Qed.

(** The endings of a title that [limpar_prefixo] removes: none, a dash and
    a capital letter, or a dash and one or two digits. *)
Definition sufixo_de_titulo (suf : string) : Prop :=
  suf = "" \/
  (exists L, is_AZ L = true /\ suf = String "-" (String L "")) \/
  (exists n, um_ou_dois_digitos n /\ suf = String "-" n).

Lemma sem_espaco_app (s t : string) :
  str_forall (fun c => negb (is_space c)) s = true ->
  str_forall (fun c => negb (is_space c)) t = true ->
  strip (s ++ t) = s ++ t.
Proof.
  intros Hs Ht. apply strip_id. rewrite str_forall_app. now rewrite Hs, Ht.
Qed.

Lemma digitos_sem_espaco (d : string) :
  str_forall is_digit d = true ->
  str_forall (fun c => negb (is_space c)) d = true.
Proof.
  apply str_forall_impl. intros c Hc. apply negb_true_iff.
  now apply is_digit_not_space.
Qed.

Lemma sufixo_sem_espaco (suf : string) :
  sufixo_de_titulo suf ->
  str_forall (fun c => negb (is_space c)) suf = true.
Proof.
  intros [->|[(L & HL & ->)|(n & (a & Ha & Hn) & ->)]]; [reflexivity| |].
  - simpl. rewrite andb_true_r. apply negb_true_iff.
    apply is_AZ09_not_space. now apply letra_AZ09.
  - assert (Hs : forall x, is_digit x = true -> negb (is_space x) = true)
      by (intros x Hx; apply negb_true_iff; now apply is_digit_not_space).
    destruct Hn as [->|(b & Hb & ->)]; simpl; rewrite ?Hs by assumption;
      reflexivity.
Qed.

Lemma sufixo_removido (d suf : string) :
  str_forall is_digit d = true -> sufixo_de_titulo suf ->
  sub_traco_digitos (sub_traco_letra (d ++ suf)) = d.
Proof.
  intros Hd [->|[(L & HL & ->)|(n & Hn & ->)]].
  - rewrite append_nil_r.
    rewrite sub_traco_letra_AZ09, sub_traco_digitos_AZ09; try reflexivity;
      (eapply str_forall_impl; [apply digito_AZ09 | exact Hd]).
  - rewrite sub_traco_letra_sufixo by assumption.
    apply sub_traco_digitos_AZ09.
    eapply str_forall_impl; [apply digito_AZ09 | exact Hd].
  - rewrite sub_traco_letra_sem_letra.
    + now apply sub_traco_digitos_sufixo.
    + rewrite str_forall_app. apply andb_true_iff. split.
      * eapply str_forall_impl; [|exact Hd]. intros c Hc.
        apply negb_true_iff. now apply digito_nao_letra.
      * destruct Hn as (a & Ha & [->|(b & Hb & ->)]); simpl;
          rewrite ?digito_nao_letra by assumption; reflexivity.
Qed.

Lemma prefixo_sem_espaco (p : string) :
  In p prefixos_digitados ->
  str_forall (fun c => negb (is_space c)) p = true.
Proof.
  unfold prefixos_digitados, prefixos_comuns. simpl. intros H.
  repeat (destruct H as [<-|H]; [reflexivity|]). contradiction.
Qed.

Lemma limpar_prefixo_titulo (p d suf : string) :
  p = "" \/ In p prefixos_digitados ->
  str_forall is_digit d = true -> d <> "" -> sufixo_de_titulo suf ->
  limpar_prefixo (p ++ d ++ suf) = d.
Proof.
  intros Hp Hd Hne Hsuf. unfold limpar_prefixo.
  destruct d as [|c d']; [contradiction|].
  assert (Hc : is_digit c = true)
    by (simpl in Hd; now apply andb_true_iff in Hd as [Hc _]).
  assert (Hresto : str_forall (fun c => negb (is_space c))
                     (String c d' ++ suf) = true).
  { rewrite str_forall_app, (digitos_sem_espaco _ Hd).
    now rewrite (sufixo_sem_espaco suf Hsuf). }
  destruct Hp as [->|Hp].
  - cbn [append is_empty]. change (String c (d' ++ suf)) with (String c d' ++ suf).
    rewrite strip_id by exact Hresto.
    change (String c d' ++ suf) with (String c (d' ++ suf)).
    rewrite cortar_prefixo_digito by exact Hc.
    change (String c (d' ++ suf)) with (String c d' ++ suf).
    now apply sufixo_removido.
  - replace (is_empty (p ++ String c d' ++ suf)) with false
      by (destruct p; reflexivity).
    rewrite sem_espaco_app by (try exact Hresto; now apply prefixo_sem_espaco).
    change (String c d' ++ suf) with (String c (d' ++ suf)).
    rewrite cortar_prefixo_digitado by assumption.
    change (String c (d' ++ suf)) with (String c d' ++ suf).
    now apply sufixo_removido.
Qed.

End PrefixoFacts.

(** X2: [limpar_prefixo] reduces a numeric title to its number: a known
    prefix (MED, FT, DP, BOL, NF, RC or FOL, with or without a dash, in
    capitals or in small letters) before the digits and an ending [-L]
    (one capital letter) or [-n], [-nn] (one or two digits) after them are
    removed; the title then normalises to the same text as the bare number,
    and its numbers are the number. *)
Theorem titulo_numerico_sem_prefixo (p d suf : string) :
  p = ""%string \/ In p prefixos_digitados ->
  str_forall is_digit d = true -> d <> ""%string -> sufixo_de_titulo suf ->
  Contabil.limpar_prefixo (p ++ d ++ suf) = d /\
  Contabil.normalizar_texto (Some (p ++ d ++ suf)%string) = d /\
  Contabil.normalizar_texto (Some d) = d /\
  Contabil.extrair_numeros (p ++ d ++ suf) = d.
Proof.
  intros Hp Hd Hne Hsuf.
  pose proof (limpar_prefixo_titulo p d suf Hp Hd Hne Hsuf) as L.
  assert (Haz : str_forall is_AZ09 d = true)
    by (eapply str_forall_impl; [apply digito_AZ09 | exact Hd]).
  assert (Hn : Contabil.normalizar_texto (Some (p ++ d ++ suf)%string) = d).
  { unfold Contabil.normalizar_texto. rewrite L.
    rewrite (upper_AZ09 d), (strip_AZ09 d) by assumption.
    now apply str_filter_id. }
  split; [exact L|]. split; [exact Hn|]. split.
  - pose proof (limpar_prefixo_titulo ""%string d ""%string
                  (or_introl eq_refl) Hd Hne (or_introl eq_refl)) as L0.
    cbn [append] in L0. rewrite append_nil_r in L0.
    unfold Contabil.normalizar_texto. rewrite L0.
    rewrite (upper_AZ09 d), (strip_AZ09 d) by assumption.
    now apply str_filter_id.
  - rewrite extrair_numeros_do_normalizado, Hn.
    now apply str_filter_id.
Qed.

Lemma titulo_numerico_sem_prefixo_witness :
  Contabil.limpar_prefixo "ft-12345-01" = "12345"%string /\
  Contabil.normalizar_texto (Some "ft-12345-01"%string) = "12345"%string /\
  Contabil.normalizar_texto (Some "12345"%string) = "12345"%string /\
  Contabil.extrair_numeros "ft-12345-01" = "12345"%string.
Proof.
  apply (titulo_numerico_sem_prefixo "ft-" "12345" "-01").
  - right. unfold prefixos_digitados. simpl. tauto.
  - reflexivity.
  - discriminate.
  - right. right. exists "01"%string. split; [|reflexivity].
    exists "0"%char. split; [reflexivity|]. right.
    exists "1"%char. now split.
Defined.

Section FormatoBrasileiro.

Local Open Scope string_scope.

(** An amount in the Brazilian format: [i], digits and grouping points,
    then a comma and the digits [c]. *)
Definition texto_br (i c : string) : string := i ++ "," ++ c.

Lemma digito_ou_ponto_valor (x : ascii) :
  digito_ou_ponto x = true -> caractere_de_valor x = true.
Proof.
  unfold digito_ou_ponto, caractere_de_valor.
  intros H. apply orb_true_iff in H as [H|H]; rewrite H;
    rewrite ?orb_true_r; reflexivity.
Qed.

Lemma digito_valor (x : ascii) :
  is_digit x = true -> caractere_de_valor x = true.
Proof. intros H. unfold caractere_de_valor. now rewrite H. Qed.

Lemma texto_br_chars (i c : string) :
  str_forall digito_ou_ponto i = true -> str_forall is_digit c = true ->
  str_forall caractere_de_valor (texto_br i c) = true.
Proof.
  intros Hi Hc. unfold texto_br. rewrite str_forall_app. simpl.
  rewrite (str_forall_impl _ _ i digito_ou_ponto_valor Hi).
  now rewrite (str_forall_impl _ _ c digito_valor Hc).
Qed.

Lemma digitos_sem (x : ascii) (c : string) :
  str_forall is_digit c = true -> is_digit x = false -> has_char x c = false.
Proof. intros Hc Hx. now apply (has_char_forall is_digit). Qed.

Lemma remove_ponto_digitos (i : string) :
  str_forall digito_ou_ponto i = true ->
  str_forall is_digit (remove_char "." i) = true.
Proof.
  induction i as [|x i IH]; simpl; [reflexivity|].
  intros H. apply andb_true_iff in H as [Hx Hi].
  unfold remove_char in *. simpl.
  unfold digito_ou_ponto in Hx. apply orb_true_iff in Hx as [Hx|Hx].
  - replace (Ascii.eqb x ".") with false.
    + simpl. now rewrite Hx, IH.
    + symmetry. apply Ascii.eqb_neq. intros ->. discriminate.
  - rewrite Hx. simpl. now apply IH.
Qed.

Lemma replace_char_id (a b : ascii) (s : string) :
  has_char a s = false -> replace_char a b s = s.
Proof.
  induction s as [|x s IH]; simpl; [reflexivity|].
  intros H. apply orb_false_iff in H as [Hx Hs]. now rewrite Hx, IH.
Qed.

(** Both replacements of the separators turn [i,c] into the plain decimal
    text [a.c], where [a] is [i] without its points. *)
Lemma separadores_trocados (i c : string) :
  str_forall digito_ou_ponto i = true -> str_forall is_digit c = true ->
  replace_char "," "." (remove_char "." (texto_br i c))
  = texto_decimal (remove_char "." i) c /\
  Cliente.trocar_separadores (texto_br i c)
  = texto_decimal (remove_char "." i) c.
Proof.
  intros Hi Hc.
  pose proof (remove_ponto_digitos i Hi) as Ha.
  assert (E : replace_char "," "." (remove_char "." (texto_br i c))
              = texto_decimal (remove_char "." i) c).
  { assert (R : remove_char "." (texto_br i c)
                = remove_char "." i ++ "," ++ c).
    { unfold texto_br, remove_char. rewrite str_filter_app. f_equal.
      apply (remove_char_id "." ("," ++ c)). simpl.
      now apply digitos_sem. }
    rewrite R, replace_char_app.
    rewrite (replace_char_id "," "." (remove_char "." i))
      by (now apply digitos_sem).
    unfold texto_decimal. f_equal. simpl. f_equal.
    apply replace_char_id. now apply digitos_sem. }
  split; [exact E|].
  unfold Cliente.trocar_separadores.
  assert (Hv : has_char "," (texto_br i c) = true).
  { unfold texto_br. rewrite has_char_app. simpl. apply orb_true_r. }
  rewrite Hv. destruct (has_char "." (texto_br i c)) eqn:Hp; cbn [andb].
  - exact E.
  - rewrite <- E. now rewrite (remove_char_id "." _ Hp).
Qed.

Lemma texto_br_head (i c : string) :
  str_forall digito_ou_ponto i = true -> remove_char "." i <> "" ->
  exists x r, texto_br i c = String x r /\ digito_ou_ponto x = true.
Proof.
  intros Hi Hne. destruct i as [|x i]; [now contradiction Hne|].
  exists x, (i ++ "," ++ c). split; [reflexivity|].
  simpl in Hi. now apply andb_true_iff in Hi as [Hx _].
Qed.

Lemma to_float_br_texto_br (i c : string) :
  str_forall digito_ou_ponto i = true -> str_forall is_digit c = true ->
  remove_char "." i <> "" ->
  Contabil.to_float_br (PStr (texto_br i c))
  = Ret (float_of_literal false (N_of_digits (remove_char "." i ++ c))
           (- Z.of_nat (String.length c))).
Proof.
  intros Hi Hc Hne.
  pose proof (texto_br_chars i c Hi Hc) as Hall.
  destruct (texto_br_head i c Hi Hne) as (x & r & E & Hx).
  unfold Contabil.to_float_br. simpl py_str.
  cbn [Contabil.isinstance_int_float Contabil.is_None Contabil.pd_isna
       Contabil.isinstance_float andb orb negb].
  rewrite strip_id
    by (eapply str_forall_impl; [apply caractere_de_valor_not_space | exact Hall]).
  assert (Hnan : (String.eqb (texto_br i c) "" ||
                  String.eqb (lower (texto_br i c)) "nan")%bool = false).
  { rewrite E. simpl lower. rewrite (lower_char_digito x Hx).
    cbn [String.eqb orb].
    replace (Ascii.eqb x "n") with false; [reflexivity|].
    symmetry. apply Ascii.eqb_neq. intros ->. discriminate. }
  rewrite Hnan.
  rewrite remove_char_id
    by (apply sem_caractere_valor; [assumption | cbv; left; reflexivity]).
  assert (Hv : has_char "," (texto_br i c) = true).
  { unfold texto_br. rewrite has_char_app. simpl. apply orb_true_r. }
  rewrite Hv, (proj1 (separadores_trocados i c Hi Hc)).
  unfold Contabil.float_of.
  rewrite py_float_decimal
    by (try assumption; now apply remove_ponto_digitos).
  reflexivity.
Qed.

Lemma parse_valor_texto_br (i c : string) :
  str_forall digito_ou_ponto i = true -> str_forall is_digit c = true ->
  remove_char "." i <> "" ->
  Cliente.parse_valor (PStr (texto_br i c))
  = Ret (try_except
           (fix_ctx false (N_of_digits (remove_char "." i ++ c))
              (- Z.of_nat (String.length c)))
           D_zero).
Proof.
  intros Hi Hc Hne.
  rewrite parse_valor_simples by (now apply texto_br_chars).
  rewrite (proj2 (separadores_trocados i c Hi Hc)).
  unfold Cliente.Decimal_str.
  rewrite Decimal_of_string_decimal
    by (try assumption; now apply remove_ponto_digitos).
  simpl bind. now rewrite Dmul_um.
Qed.

End FormatoBrasileiro.

(** X3: in a text with a comma, every point is a grouping point, wherever
    it stands: digits and points [i], a comma and digits [c] are read by
    both parsers as the number whose digits are those of [i] followed by
    [c], with [|c|] decimals; [to_float_br] rounds it to the nearest
    binary64 number and [parse_valor] to the precision of the Decimal
    context. *)
Theorem virgula_decimal_e_ponto_de_milhar (i c : string) :
  str_forall digito_ou_ponto i = true -> str_forall is_digit c = true ->
  remove_char "." i <> ""%string ->
  Contabil.to_float_br (PStr (texto_br i c))
  = Ret (float_of_literal false (N_of_digits (remove_char "." i ++ c))
           (- Z.of_nat (String.length c))) /\
  Cliente.parse_valor (PStr (texto_br i c))
  = Ret (try_except
           (fix_ctx false (N_of_digits (remove_char "." i ++ c))
              (- Z.of_nat (String.length c)))
           D_zero) /\
  Contabil.to_float_br (PStr (texto_br i c))
  = Contabil.to_float_br (PStr (texto_decimal (remove_char "." i) c)) /\
  Cliente.parse_valor (PStr (texto_br i c))
  = Cliente.parse_valor (PStr (texto_decimal (remove_char "." i) c)).
Proof.
  intros Hi Hc Hne.
  pose proof (remove_ponto_digitos i Hi) as Ha.
  rewrite to_float_br_texto_br, parse_valor_texto_br by assumption.
  rewrite to_float_br_decimal, parse_valor_decimal by assumption.
  repeat split.
Qed.

Lemma virgula_decimal_e_ponto_de_milhar_witness :
  Contabil.to_float_br (PStr "1.234.567,89") = Ret 1234567.89%float /\
  Cliente.parse_valor (PStr "1.234.567,89")
  = Ret (DFin false 123456789 (-2)) /\
  Contabil.to_float_br (PStr "1.234.567,89")
  = Contabil.to_float_br (PStr "1234567.89") /\
  Cliente.parse_valor (PStr "1.234.567,89")
  = Cliente.parse_valor (PStr "1234567.89").
Proof.
  destruct (virgula_decimal_e_ponto_de_milhar "1.234.567" "89"
              eq_refl eq_refl ltac:(discriminate)) as (H1 & H2 & H3 & H4).
  split; [|split; [|split]].
  - etransitivity; [exact H1 | vm_compute; reflexivity].
  - etransitivity; [exact H2 | vm_compute; reflexivity].
  - exact H3.
  - exact H4.
Defined.

Section DataFacts.

Local Open Scope string_scope.

(** [zfill 2 n] is two digits that read back as [n]. *)
Definition dois_digitos_de (n : N) : bool :=
  match zfill 2 n with
  | String a (String b "") =>
      (is_digit a && is_digit b
       && N.eqb (digit_val a * 10 + digit_val b) n)%bool
  | _ => false
  end.

(** [zfill 4 y] is four digits that read back as [y]. *)
Definition quatro_digitos_de (y : N) : bool :=
  match zfill 4 y with
  | String a (String b (String c (String d ""))) =>
      (is_digit a && is_digit b && is_digit c && is_digit d
       && N.eqb (N_of_digits (String a (String b (String c (String d ""))))) y)%bool
  | _ => false
  end.

Lemma forallb_abaixo (p : N -> bool) (k : N) :
  forallb p (map N.of_nat (seq 0 (N.to_nat k))) = true ->
  forall n, (n < k)%N -> p n = true.
Proof.
  intros H n Hn. rewrite forallb_forall in H. apply H.
  apply in_map_iff. exists (N.to_nat n). split; [apply N2Nat.id|].
  apply in_seq. lia.
Qed.

Lemma dois_digitos_de_ok (n : N) : (n < 100)%N -> dois_digitos_de n = true.
Proof.
  apply (forallb_abaixo dois_digitos_de 100%N). vm_compute. reflexivity.
Qed.

Lemma quatro_digitos_de_ok (y : N) :
  (y < 10000)%N -> quatro_digitos_de y = true.
Proof.
  apply (forallb_abaixo quatro_digitos_de 10000%N). vm_compute. reflexivity.
Qed.

Lemma zfill_2 (n : N) :
  (n < 100)%N ->
  exists a b, zfill 2 n = String a (String b "") /\
    is_digit a = true /\ is_digit b = true /\
    (digit_val a * 10 + digit_val b)%N = n.
Proof.
  intros H. apply dois_digitos_de_ok in H. unfold dois_digitos_de in H.
  destruct (zfill 2 n) as [|a [|b [|]]]; try discriminate.
  apply andb_true_iff in H as [H H3]. apply andb_true_iff in H as [H1 H2].
  apply N.eqb_eq in H3. now exists a, b.
Qed.

Lemma zfill_4 (y : N) :
  (y < 10000)%N ->
  exists a b c d,
    zfill 4 y = String a (String b (String c (String d ""))) /\
    (is_digit a && is_digit b && is_digit c && is_digit d)%bool = true /\
    N_of_digits (String a (String b (String c (String d "")))) = y.
Proof.
  intros H. apply quatro_digitos_de_ok in H. unfold quatro_digitos_de in H.
  destruct (zfill 4 y) as [|a [|b [|c [|d [|]]]]]; try discriminate.
  apply andb_true_iff in H as [H H5]. apply N.eqb_eq in H5.
  now exists a, b, c, d.
Qed.

Lemma field_then_dois {A : Type} (lo hi : N) (a b : ascii) (r : string)
    (next : string -> option A) (x : A) :
  is_digit a = true -> is_digit b = true ->
  (lo <= digit_val a * 10 + digit_val b <= hi)%N ->
  next r = Some x ->
  field_then lo hi (String a (String b r)) next
  = Some ((digit_val a * 10 + digit_val b)%N, x).
Proof.
  intros Ha Hb [Hlo Hhi] Hn. unfold field_then, two_digits.
  rewrite Ha, Hb. cbn [andb].
  apply N.leb_le in Hlo, Hhi. rewrite Hlo, Hhi. cbn [andb]. now rewrite Hn.
Qed.

Lemma day_then_dois {A : Type} (a b : ascii) (r : string)
    (next : string -> option A) (x : A) :
  is_digit a = true -> is_digit b = true ->
  (1 <= digit_val a * 10 + digit_val b <= 31)%N ->
  next r = Some x ->
  day_then (String a (String b r)) next
  = Some ((digit_val a * 10 + digit_val b)%N, x).
Proof.
  intros Ha Hb Hr Hn. unfold day_then.
  now rewrite (field_then_dois 1 31 a b r next x).
Qed.

Lemma seconds_field_dois (a b : ascii) (r : string) :
  is_digit a = true -> is_digit b = true ->
  (digit_val a * 10 + digit_val b <= 61)%N ->
  seconds_field (String a (String b r))
  = Some ((digit_val a * 10 + digit_val b)%N, r).
Proof.
  intros Ha Hb Hr. unfold seconds_field, two_digits.
  rewrite Ha, Hb. cbn [andb]. apply N.leb_le in Hr. rewrite Hr.
  assert (H0 : N.leb 0 (digit_val a * 10 + digit_val b) = true)
    by (apply N.leb_le; lia).
  rewrite H0. reflexivity.
Qed.

Lemma days_in_month_31 (y m : N) : (days_in_month y m <= 31)%N.
Proof.
  unfold days_in_month.
  destruct (N.eqb m 2); [destruct (is_leap y); lia|].
  destruct (N.eqb m 4 || N.eqb m 6 || N.eqb m 9 || N.eqb m 11)%bool; lia.
Qed.

Lemma strptime_str (d : datetime) :
  valid_datetime d = true -> dt_microsecond d = 0%N ->
  strptime (str_of_datetime d) = Some d.
Proof.
  destruct d as [y mo da ho mi se us]. intros Hv Hus.
  cbn [dt_microsecond] in Hus. subst us.
  pose proof Hv as Hv'. unfold valid_datetime in Hv'.
  cbn [dt_year dt_month dt_day dt_hour dt_minute dt_second] in Hv'.
  repeat (apply andb_true_iff in Hv' as [Hv' ?]).
  repeat match goal with H : N.leb _ _ = true |- _ => apply N.leb_le in H end.
  pose proof (days_in_month_31 y mo) as Hdm.
  destruct (zfill_4 y) as (y1 & y2 & y3 & y4 & Ey & Dy & Ny); [lia|].
  destruct (zfill_2 mo) as (m1 & m2 & Em & Dm1 & Dm2 & Nm); [lia|].
  destruct (zfill_2 da) as (d1 & d2 & Ed & Dd1 & Dd2 & Nd); [lia|].
  destruct (zfill_2 ho) as (h1 & h2 & Eh & Dh1 & Dh2 & Nh); [lia|].
  destruct (zfill_2 mi) as (i1 & i2 & Ei & Di1 & Di2 & Ni); [lia|].
  destruct (zfill_2 se) as (s1 & s2 & Es & Ds1 & Ds2 & Ns); [lia|].
  unfold str_of_datetime.
  cbn [dt_year dt_month dt_day dt_hour dt_minute dt_second dt_microsecond].
  rewrite Ey, Em, Ed, Eh, Ei, Es. cbn [N.eqb append].
  unfold strptime. rewrite Dy, Ny. cbn [expect Ascii.eqb Bool.eqb].
  erewrite field_then_dois; try eassumption; [|lia|].
  2:{ cbn [expect Ascii.eqb Bool.eqb].
      erewrite day_then_dois; try eassumption; [reflexivity|lia|].
      cbn [expect_spaces]. change (is_space " ") with true. cbv iota.
      cbn [lstrip]. rewrite (is_digit_not_space h1 Dh1).
      erewrite field_then_dois; try eassumption; [reflexivity|lia|].
      cbn [expect Ascii.eqb Bool.eqb].
      erewrite field_then_dois; try eassumption; [reflexivity|lia|].
      cbn [expect Ascii.eqb Bool.eqb].
      apply seconds_field_dois; try assumption. lia. }
  rewrite Nm, Nd, Nh, Ni, Ns. cbn [is_empty andb]. now rewrite Hv.
Qed.

End DataFacts.

(** X4: a date written as text the way [str()] writes a datetime without
    microseconds, "YYYY-MM-DD HH:MM:SS", is read back by [strptime] as the
    same datetime; [esta_no_intervalo] therefore gives a text date cell the
    verdict it gives the datetime. *)
Theorem data_em_texto_iso (d : datetime) :
  valid_datetime d = true -> dt_microsecond d = 0%N ->
  strptime (str_of_datetime d) = Some d /\
  forall st,
    Cliente.esta_no_intervalo st (PStr (str_of_datetime d))
    = Cliente.esta_no_intervalo st (PDatetime d).
Proof.
  intros Hv Hus. pose proof (strptime_str d Hv Hus) as E.
  split; [exact E|]. intros st. cbn [Cliente.esta_no_intervalo].
  now rewrite E.
Qed.

Lemma data_em_texto_iso_witness :
  str_of_datetime (mk_datetime 2024 3 5 0 0 0 0)
  = "2024-03-05 00:00:00"%string /\
  strptime "2024-03-05 00:00:00" = Some (mk_datetime 2024 3 5 0 0 0 0).
Proof.
  split; [reflexivity|].
  exact (proj1 (data_em_texto_iso (mk_datetime 2024 3 5 0 0 0 0)
                  eq_refl eq_refl)).
Defined.

Section IdentificadorFacts.

Import PyRe.
Local Open Scope string_scope.







(** *** The last character *)






End IdentificadorFacts.



Section CascataFacts.

Import PyRe.
Local Open Scope string_scope.

Lemma grupo_digitos (n lo : nat) (hi : option nat) (guloso : bool) :
  n <= lo -> grupo_final (digitos_min n) (Grp (Rep is_digit lo hi guloso)).
Proof.
  intros Hn. apply grupo_final_Grp_Rep. intros w Hw Hl. split; [exact Hw | lia].
Qed.

Lemma cascata_nf :
  Forall (grupo_final (digitos_min 1))
    [re_nf; re_iss; re_9_digitos; re_6_digitos].
Proof.
  repeat constructor; unfold re_nf, re_iss, re_9_digitos, re_6_digitos;
    repeat apply grupo_final_Seq; apply grupo_digitos; lia.
Qed.

Lemma cascata_recebimento :
  Forall (grupo_final (digitos_min 6))
    [re_recebim; re_nd; re_7_digitos; re_6_digitos].
Proof.
  repeat constructor;
    unfold re_recebim, re_nd, re_7_digitos, re_6_digitos;
    repeat apply grupo_final_Seq; apply grupo_digitos; lia.
Qed.

Lemma numero_da_nf_digitos (h n : string) :
  numero_da_nf h = Some n -> digitos_min 1 n /\ ocorre n h.
Proof. apply primeiro_grupo_final, cascata_nf. Qed.

Lemma numero_do_recebimento_digitos (h n : string) :
  numero_do_recebimento h = Some n -> digitos_min 6 n /\ ocorre n h.
Proof. apply primeiro_grupo_final, cascata_recebimento. Qed.

Definition sem_digito (h : string) : bool :=
  str_forall (fun c => negb (is_digit c)) h.

Lemma digitos_sem_digito (n h : string) :
  digitos_min 1 n -> ocorre n h -> sem_digito h = false.
Proof.
  intros [Hd Hl] Ho. destruct (sem_digito h) eqn:E; [|reflexivity].
  pose proof (ocorre_forall _ _ _ Ho E) as Hn.
  destruct n as [|c n]; [simpl in Hl; lia|].
  simpl in Hd, Hn. apply andb_true_iff in Hd as [Hc _].
  rewrite Hc in Hn. discriminate.
Qed.

End CascataFacts.

(** X7: the document numbers that the two cascades of searches find in a
    description are runs of digits of that description: at least one digit
    for an invoice, at least six for a receipt; a description without a
    digit has no number. *)
Theorem numeros_sao_digitos_do_historico (h : string) :
  (forall n, Cliente.numero_da_nf h = Some n ->
     str_forall is_digit n = true /\ 1 <= String.length n /\
     contains n h = true) /\
  (forall n, Cliente.numero_do_recebimento h = Some n ->
     str_forall is_digit n = true /\ 6 <= String.length n /\
     contains n h = true) /\
  (sem_digito h = true ->
     Cliente.numero_da_nf h = None /\
     Cliente.numero_do_recebimento h = None).
Proof.
  split; [|split].
  - intros n H. apply numero_da_nf_digitos in H as [[Hd Hl] Ho].
    repeat split; try assumption. now apply ocorre_contains.
  - intros n H. apply numero_do_recebimento_digitos in H as [[Hd Hl] Ho].
    repeat split; try assumption. now apply ocorre_contains.
  - intros Hs. split.
    + destruct (Cliente.numero_da_nf h) as [n|] eqn:E; [|reflexivity].
      apply numero_da_nf_digitos in E as [Hn Ho].
      rewrite (digitos_sem_digito n h Hn Ho) in Hs. discriminate.
    + destruct (Cliente.numero_do_recebimento h) as [n|] eqn:E; [|reflexivity].
      apply numero_do_recebimento_digitos in E as [[Hd Hl] Ho].
      assert (Hn : digitos_min 1 n) by (split; [assumption | lia]).
      rewrite (digitos_sem_digito n h Hn Ho) in Hs. discriminate.
Qed.

Lemma numeros_sao_digitos_do_historico_witness :
  Cliente.numero_da_nf "NF REC ISS:000002902 CAERN" = Some "000002902"%string
  /\ contains "000002902" "NF REC ISS:000002902 CAERN" = true
  /\ Cliente.numero_do_recebimento "REF.RECEBIM.CR: ND1000670"
     = Some "1000670"%string
  /\ (6 <= String.length "1000670")
  /\ Cliente.numero_da_nf "ESTORNO" = None.
Proof.
  assert (E1 : Cliente.numero_da_nf "NF REC ISS:000002902 CAERN"
               = Some "000002902"%string) by (vm_compute; reflexivity).
  assert (E2 : Cliente.numero_do_recebimento "REF.RECEBIM.CR: ND1000670"
               = Some "1000670"%string) by (vm_compute; reflexivity).
  split; [exact E1|]. split.
  - exact (proj2 (proj2 (proj1 (numeros_sao_digitos_do_historico _) _ E1))).
  - split; [exact E2|]. split.
    + exact (proj1 (proj2 (proj1 (proj2 (numeros_sao_digitos_do_historico _))
                             _ E2))).
    + exact (proj1 (proj2 (proj2 (numeros_sao_digitos_do_historico "ESTORNO"))
                      eq_refl)).
Defined.

(* ================================================================== *)
(** * More properties of conciliar *)
(* ================================================================== *)

(** The number of OK rows. *)
Definition total_ok (out : list linha_out) : nat :=
  List.length (filter status_ok out).

Section ContagemFacts.

Variable list_set : list nat -> list nat.

Local Open Scope list_scope.

(** What the loop over the financial lines keeps of [usados_cont] and of
    the number of rows. *)
Definition contado (cont : df_cont) (min_len : Z) (feitas : list linha_fin)
    (st : estado) : Prop :=
  NoDup (fst st) /\
  (forall j, In j (fst st) -> j < List.length (cont_linhas cont)) /\
  total_ok (snd st) = List.length (fst st) /\
  List.length (snd st) = List.length (filter (passa_filtro min_len) feitas).

Lemma total_ok_app (a b : list linha_out) :
  total_ok (a ++ b) = total_ok a + total_ok b.
Proof. unfold total_ok. now rewrite filter_app, length_app. Qed.

Lemma existsb_eqb_In (j : nat) (l : list nat) :
  existsb (Nat.eqb j) l = false -> ~ In j l.
Proof.
  intros H Hin. assert (E : existsb (Nat.eqb j) l = true).
  { apply existsb_exists. exists j. split; [assumption | apply Nat.eqb_refl]. }
  congruence.
Qed.

Lemma NoDup_app_um (l : list nat) (j : nat) :
  NoDup l -> ~ In j l -> NoDup (l ++ [j]).
Proof.
  intros Hl Hj. apply NoDup_app; [exact Hl | repeat constructor; intros [] |].
  intros x Hx [<-|[]]. contradiction.
Qed.

Lemma passo_fin_contado cont idx usar tol min_len feitas st i f :
  contado cont min_len feitas st ->
  contado cont min_len (feitas ++ [f])
    (passo_fin list_set cont idx usar tol min_len st (i, f)).
Proof.
  destruct st as [usados out]. intros (Hn & Hb & Hok & Hlen).
  cbn [fst snd] in *.
  assert (Hf : List.length (filter (passa_filtro min_len) (feitas ++ [f]))
               = List.length (filter (passa_filtro min_len) feitas)
                 + (if passa_filtro min_len f then 1 else 0)).
  { rewrite filter_app, length_app. cbn [filter].
    now destruct (passa_filtro min_len f). }
  destruct (passo_fin_casos list_set cont idx usar tol min_len usados out i f)
    as [[Hp ->]|[[Hp [d ->]]|[Hp (d & j & r & Hu & Hj & _ & _ & ->)]]];
    unfold contado; cbn [fst snd]; rewrite Hf, Hp.
  - repeat split; try assumption. lia.
  - repeat split; try assumption.
    + rewrite total_ok_app, Hok. unfold total_ok. simpl. lia.
    + rewrite length_app. simpl. lia.
  - split; [apply NoDup_app_um; [assumption | now apply existsb_eqb_In]|].
    split; [|split].
    + intros k Hk. apply in_app_or in Hk as [Hk|[<-|[]]]; [now apply Hb|].
      apply nth_error_Some. congruence.
    + rewrite total_ok_app, Hok, length_app. unfold total_ok. simpl. lia.
    + rewrite length_app. simpl. lia.
Qed.

Lemma fold_passo_fin_contado cont idx usar tol min_len
    (l : list (nat * linha_fin)) :
  forall feitas st,
    contado cont min_len feitas st ->
    contado cont min_len (feitas ++ map snd l)
      (fold_left (passo_fin list_set cont idx usar tol min_len) l st).
Proof.
  induction l as [|[i f] l IH]; intros feitas st Hst; cbn [fold_left map].
  - now rewrite app_nil_r.
  - replace (feitas ++ snd (i, f) :: map snd l)
      with ((feitas ++ [f]) ++ map snd l)
      by (rewrite <- app_assoc; reflexivity).
    apply IH. now apply passo_fin_contado.
Qed.

Lemma map_snd_enumerate {A : Type} (l : list A) : map snd (enumerate l) = l.
Proof.
  unfold enumerate. generalize 0.
  induction l as [|a l IH]; intros s; simpl; [reflexivity|]. now rewrite IH.
Qed.

Lemma map_fst_enumerate {A : Type} (l : list A) :
  map fst (enumerate l) = seq 0 (List.length l).
Proof.
  unfold enumerate. generalize 0.
  induction l as [|a l IH]; intros s; simpl; [reflexivity|]. now rewrite IH.
Qed.

(** The members of a duplicate-free list of indices below [n], counted
    among [0 .. n-1]. *)
Lemma contar_usados (usados : list nat) (n : nat) :
  NoDup usados -> (forall j, In j usados -> j < n) ->
  List.length (filter (fun j => existsb (Nat.eqb j) usados) (seq 0 n))
  = List.length usados.
Proof.
  intros Hn Hb.
  assert (Hin : forall j, In j (filter (fun j => existsb (Nat.eqb j) usados)
                                 (seq 0 n)) <-> In j usados).
  { intros j. rewrite filter_In, in_seq, existsb_exists. split.
    - intros (_ & x & Hx & E). apply Nat.eqb_eq in E. now subst.
    - intros H. split; [specialize (Hb j H); lia|].
      exists j. split; [assumption | apply Nat.eqb_refl]. }
  apply Nat.le_antisymm.
  - apply NoDup_incl_length; [apply NoDup_filter, seq_NoDup|].
    intros j Hj. now apply Hin.
  - apply NoDup_incl_length; [assumption|].
    intros j Hj. now apply Hin.
Qed.

Lemma length_sobras (cont : df_cont) (usados : list nat) :
  NoDup usados ->
  (forall j, In j usados -> j < List.length (cont_linhas cont)) ->
  List.length (sobras cont usados) + List.length usados
  = List.length (cont_linhas cont).
Proof.
  intros Hn Hb. rewrite <- (contar_usados usados _ Hn Hb).
  rewrite <- map_fst_enumerate. unfold sobras.
  replace (List.length (cont_linhas cont))
    with (List.length (enumerate (cont_linhas cont)))
    by (rewrite <- (length_map snd), map_snd_enumerate; reflexivity).
  induction (enumerate (cont_linhas cont)) as [|[j r] l IH]; [reflexivity|].
  cbn [flat_map map filter fst snd]. rewrite length_app.
  destruct (existsb (Nat.eqb j) usados); cbn [List.length] in *; lia.
Qed.

Lemma total_ok_sobras (cont : df_cont) (usados : list nat) :
  total_ok (sobras cont usados) = 0.
Proof.
  unfold total_ok.
  assert (H : forall row, In row (sobras cont usados) -> status_ok row = false).
  { intros row Hr. apply sobras_divergentes in Hr. unfold status_ok.
    now rewrite Hr. }
  induction (sobras cont usados) as [|row l IH]; [reflexivity|].
  cbn [filter]. rewrite (H row (or_introl eq_refl)).
  apply IH. intros; apply H; now right.
Qed.

Lemma conciliar_contado fin cont tol min_len :
  let out := conciliar list_set fin cont tol min_len in
  List.length out + total_ok out
  = List.length (filter (passa_filtro min_len) (fin_linhas fin))
    + List.length (cont_linhas cont) /\
  total_ok out <= List.length (filter (passa_filtro min_len) (fin_linhas fin))
  /\
  total_ok out <= List.length (cont_linhas cont).
Proof.
  cbv zeta. unfold conciliar.
  pose proof (fold_passo_fin_contado cont
                (cont_by_val_tipo (cont_linhas cont))
                (fin_tem_data fin && cont_tem_data cont)%bool tol min_len
                (enumerate (fin_linhas fin)) [] ([], [])) as H.
  rewrite map_snd_enumerate in H. cbn [app] in H.
  match type of H with
  | _ -> contado _ _ _ ?R => destruct R as [usados out]
  end.
  destruct H as (Hn & Hb & Hok & Hlen).
  { repeat split; [constructor | intros j []]. }
  cbn [fst snd] in *.
  pose proof (length_sobras cont usados Hn Hb) as Hs.
  rewrite length_app, total_ok_app, total_ok_sobras, Hok, Hlen.
  assert (Hle : total_ok out <= List.length out).
  { unfold total_ok. apply filter_length_le. }
  lia.
Qed.

End ContagemFacts.

(** X8: the number of rows of the result.  Every financial line that passes
    the noise filter and every accounting line gives one row, and an OK row
    stands for one of each: rows + OK rows = filtered financial lines +
    accounting lines; the OK rows are no more than either. *)
Theorem conciliar_numero_de_linhas (list_set : list nat -> list nat)
    (fin : df_fin) (cont : df_cont) (tol : float) (min_len : Z) :
  let out := conciliar list_set fin cont tol min_len in
  List.length out + total_ok out
  = List.length (filter (passa_filtro min_len) (fin_linhas fin))
    + List.length (cont_linhas cont) /\
  total_ok out <= List.length (filter (passa_filtro min_len) (fin_linhas fin))
  /\
  total_ok out <= List.length (cont_linhas cont).
Proof. apply conciliar_contado. Qed.

Section LinhasFacts.

Variable list_set : list nat -> list nat.

Local Open Scope list_scope.

(** The textual evidence the matcher asks for: the normalised financial
    text is part of the normalised history, or the numbers match, or the
    identifiers match. *)
Definition evidencia_de_texto (f : linha_fin) (r : linha_cont) : bool :=
  (contains (TEXTO_FIN_NORM f) (HIST_NORM r)
   || match_num (TEXTO_FIN_NUM f) (HIST_NUM r)
   || match_id (IDENTIFICADOR_FIN f) (IDENTIFICADOR r))%bool.

(** When dates are in use and both lines are dated, the dates are at most
    one day apart. *)
Definition datas_proximas (usar_data : bool) (f : linha_fin) (r : linha_cont)
    : Prop :=
  usar_data = true ->
  forall a b, DATA_FIN f = Some a -> DATA_CONTABIL r = Some b ->
    (Z.abs (dias a b) <= 1)%Z.

Definition escolha_evidente (cont : list linha_cont) (usar : bool)
    (f : linha_fin) (m : melhor) : Prop :=
  match fst m with
  | None => True
  | Some j =>
      exists r, nth_error cont j = Some r /\
        evidencia_de_texto f r = true /\ datas_proximas usar f r
  end.

Lemma passo_candidato_evidente cont usados usar tol f m idx_c :
  escolha_evidente cont usar f m ->
  escolha_evidente cont usar f
    (passo_candidato cont usados usar tol f
       (if usar then DATA_FIN f else None) m idx_c).
Proof.
  intros Hm. unfold passo_candidato.
  destruct (existsb (Nat.eqb idx_c) usados); [exact Hm|].
  destruct (nth_error cont idx_c) as [r|] eqn:En; [|exact Hm].
  destruct (PrimFloat.ltb tol (abs (VALOR_FIN f - VALOR_CONTABIL r)));
    [exact Hm|].
  destruct (negb (tipo_contabil_eqb (TIPO_CONTABIL r)
                    (tipo_cont_de (TIPO_FIN f)))); [exact Hm|].
  match goal with |- context [if ?b then m else _] => destruct b eqn:Ed end;
    [exact Hm|].
  fold (evidencia_de_texto f r).
  destruct (evidencia_de_texto f r) eqn:Ev; cbn [negb]; [|exact Hm].
  match goal with |- context [if ?b then _ else m] => destruct b end;
    [|exact Hm].
  unfold escolha_evidente. cbn [fst]. exists r.
  split; [exact En|]. split; [exact Ev|].
  intros Hu a b Ha Hb. subst usar. rewrite Ha, Hb in Ed.
  apply Z.ltb_ge in Ed. exact Ed.
Qed.

Lemma fold_candidatos_evidente cont usados usar tol f cands m :
  escolha_evidente cont usar f m ->
  escolha_evidente cont usar f
    (fold_left (passo_candidato cont usados usar tol f
                  (if usar then DATA_FIN f else None)) cands m).
Proof.
  revert m. induction cands as [|c cands IH]; intros m Hm; simpl;
    [exact Hm|].
  apply IH. now apply passo_candidato_evidente.
Qed.

(** A row of the loop over the financial lines: a match with its evidence,
    or a financial line left alone. *)
Definition linha_do_financeiro (fin : list linha_fin) (cont : df_cont)
    (usar : bool) (min_len : Z) (row : linha_out) : Prop :=
  exists i f,
    nth_error fin i = Some f /\ passa_filtro min_len f = true /\
    (row = linha_divergente_fin i f (if usar then DATA_FIN f else None) \/
     exists j r,
       nth_error (cont_linhas cont) j = Some r /\
       evidencia_de_texto f r = true /\ datas_proximas usar f r /\
       row = linha_ok i f (if usar then DATA_FIN f else None) j r
               (cont_tem_data cont)).

Lemma passo_fin_linhas fin cont idx usar tol min_len st i f :
  nth_error fin i = Some f ->
  Forall (linha_do_financeiro fin cont usar min_len) (snd st) ->
  Forall (linha_do_financeiro fin cont usar min_len)
    (snd (passo_fin list_set cont idx usar tol min_len st (i, f))).
Proof.
  intros Hi Hst. destruct st as [usados out]. cbn [snd] in Hst.
  unfold passo_fin.
  destruct ((Z.of_nat (String.length (TEXTO_FIN_NORM f)) <? min_len)%Z
            && (Z.of_nat (String.length (IDENTIFICADOR_FIN f)) <? min_len)%Z)%bool
    eqn:Ef; [exact Hst|].
  assert (Hp : passa_filtro min_len f = true)
    by (unfold passa_filtro; now rewrite Ef).
  match goal with
  | |- context [fold_left ?g ?cands ?m0] =>
      pose proof (fold_candidatos_evidente (cont_linhas cont) usados usar tol
                    f cands m0 I) as Hv;
      destruct (fold_left g cands m0) as [[j|] sc]
  end; cbn [fst].
  - destruct Hv as (r & Hr & Hev & Hd). rewrite Hr. cbn [snd].
    apply Forall_app. split; [exact Hst|]. constructor; [|constructor].
    exists i, f. split; [exact Hi|]. split; [exact Hp|]. right.
    exists j, r. now repeat split.
  - cbn [snd]. apply Forall_app. split; [exact Hst|].
    constructor; [|constructor].
    exists i, f. split; [exact Hi|]. split; [exact Hp|]. now left.
Qed.

Lemma fold_passo_fin_linhas fin cont idx usar tol min_len l st :
  (forall i f, In (i, f) l -> nth_error fin i = Some f) ->
  Forall (linha_do_financeiro fin cont usar min_len) (snd st) ->
  Forall (linha_do_financeiro fin cont usar min_len)
    (snd (fold_left (passo_fin list_set cont idx usar tol min_len) l st)).
Proof.
  revert st. induction l as [|[i f] l IH]; intros st Hl Hst; simpl;
    [exact Hst|].
  apply IH; [intros; apply Hl; now right|].
  apply passo_fin_linhas; [apply Hl; now left | exact Hst].
Qed.

(** A row of the last loop. *)
Definition linha_do_contabil (cont : df_cont) (row : linha_out) : Prop :=
  exists j r, nth_error (cont_linhas cont) j = Some r /\
    row = linha_sobra_cont j r (cont_tem_data cont).

Lemma sobras_linhas cont usados :
  Forall (linha_do_contabil cont) (sobras cont usados).
Proof.
  apply Forall_forall. intros row H. unfold sobras in H.
  apply in_flat_map in H as ([j r] & Hjr & H).
  destruct (existsb (Nat.eqb (fst (j, r))) usados); [contradiction|].
  destruct H as [<-|[]]. exists j, r. split; [|reflexivity].
  now apply In_enumerate.
Qed.

(** The rows of the result: first those of the financial lines, in ledger
    order, then those of the accounting lines left over. *)
Lemma conciliar_linhas fin cont tol min_len :
  exists out usados,
    conciliar list_set fin cont tol min_len = out ++ sobras cont usados /\
    Forall (linha_do_financeiro (fin_linhas fin) cont
              (fin_tem_data fin && cont_tem_data cont)%bool min_len) out.
Proof.
  unfold conciliar.
  pose proof (fold_passo_fin_linhas (fin_linhas fin) cont
                (cont_by_val_tipo (cont_linhas cont))
                (fin_tem_data fin && cont_tem_data cont)%bool tol min_len
                (enumerate (fin_linhas fin)) ([], [])
                (fun i f H => In_enumerate _ i f H)) as H.
  match type of H with
  | _ -> Forall _ (snd ?R) => destruct R as [usados out]
  end.
  exists out, usados. split; [reflexivity|]. apply H. constructor.
Qed.

End LinhasFacts.

(** X9: an OK row never rests on the amount alone.  It pairs a financial
    line that passed the noise filter with an accounting line such that the
    normalised financial text is part of the normalised history, or the
    numbers match, or the identifiers match; and when both reports have
    dates and both lines are dated, the dates are at most one day apart. *)
Theorem conciliar_ok_tem_evidencia (list_set : list nat -> list nat)
    (fin : df_fin) (cont : df_cont) (tol : float) (min_len : Z)
    (row : linha_out) :
  In row (conciliar list_set fin cont tol min_len) ->
  STATUS row = OK ->
  exists f r,
    In f (fin_linhas fin) /\ In r (cont_linhas cont) /\
    TEXTO_RELATORIO_FINANCEIRO row = TEXTO_FIN f /\
    VALOR_RELATORIO_FINANCEIRO row = VALOR_FIN f /\
    HISTORICO_RELATORIO_CONTABIL row = HIST_TXT r /\
    VALOR_RELATORIO_CONTABIL row = VALOR_CONTABIL r /\
    passa_filtro min_len f = true /\
    (contains (TEXTO_FIN_NORM f) (HIST_NORM r)
     || match_num (TEXTO_FIN_NUM f) (HIST_NUM r)
     || match_id (IDENTIFICADOR_FIN f) (IDENTIFICADOR r))%bool = true /\
    (fin_tem_data fin = true -> cont_tem_data cont = true ->
     forall a b, DATA_FIN f = Some a -> DATA_CONTABIL r = Some b ->
       (Z.abs (dias a b) <= 1)%Z).
Proof.
  intros Hin Hok.
  destruct (conciliar_linhas list_set fin cont tol min_len)
    as (out & usados & E & Hout).
  rewrite E in Hin. apply in_app_or in Hin as [Hin|Hin].
  - rewrite Forall_forall in Hout.
    destruct (Hout row Hin) as (i & f & Hi & Hp & [->|(j & r & Hj & Hev & Hd & ->)]);
      [discriminate|].
    exists f, r.
    split; [eapply nth_error_In; exact Hi|].
    split; [eapply nth_error_In; exact Hj|].
    repeat (split; [reflexivity|]). split; [exact Hp|]. split; [exact Hev|].
    intros Hf Hc. apply Hd. now rewrite Hf, Hc.
  - apply sobras_divergentes in Hin. congruence.
Qed.

Lemma conciliar_ok_tem_evidencia_witness :
  exists row f r,
    nth_error
      (conciliar (nodup Nat.eq_dec) df_fin_exemplo df_cont_exemplo cent 3) 0
    = Some row /\
    In f (fin_linhas df_fin_exemplo) /\ In r (cont_linhas df_cont_exemplo) /\
    HISTORICO_RELATORIO_CONTABIL row = HIST_TXT r /\
    contains (TEXTO_FIN_NORM f) (HIST_NORM r) = true.
Proof.
  destruct (nth_error
              (conciliar (nodup Nat.eq_dec) df_fin_exemplo df_cont_exemplo
                 cent 3) 0) as [row|] eqn:E; [|vm_compute in E; discriminate].
  pose proof (nth_error_In _ _ E) as Hin.
  assert (Hok : STATUS row = OK)
    by (vm_compute in E; injection E as <-; reflexivity).
  destruct (conciliar_ok_tem_evidencia _ _ _ _ _ row Hin Hok)
    as (f & r & Hf & Hr & Ht & _ & Hh & _ & _ & Hev & _).
  exists row, f, r. split; [reflexivity|]. split; [exact Hf|].
  split; [exact Hr|]. split; [exact Hh|].
  vm_compute in E. injection E as <-.
  destruct Hr as [<-|[<-|[]]]; [discriminate Hh|].
  destruct Hf as [<-|[<-|[]]]; [reflexivity | discriminate Ht].
Defined.

(** X10: the three kinds of rows.  An OK row carries both sides; a row of an
    unmatched financial line has an empty accounting side, the amount 0.0
    there and the whole financial amount as DIF; a row of an accounting
    line left over has an empty financial side, the amount 0.0 there and
    the whole accounting amount as DIF.  The rows of the financial lines
    come first. *)
Theorem conciliar_tres_tipos_de_linha (list_set : list nat -> list nat)
    (fin : df_fin) (cont : df_cont) (tol : float) (min_len : Z) :
  exists out sobra,
    conciliar list_set fin cont tol min_len = out ++ sobra /\
    Forall
      (fun row =>
         TIPO_RELATORIO_FINANCEIRO row <> None /\
         ((STATUS row = OK /\ TIPO_RELATORIO_CONTABIL row <> None /\
           OBS row = "Conciliado automaticamente"%string) \/
          (STATUS row = DIVERGENTE /\ TIPO_RELATORIO_CONTABIL row = None /\
           DATA_RELATORIO_CONTABIL row = None /\
           HISTORICO_RELATORIO_CONTABIL row = ""%string /\
           VALOR_RELATORIO_CONTABIL row = zero /\
           DIF row = VALOR_RELATORIO_FINANCEIRO row /\
           OBS row = "Nao conciliado"%string)))
      out /\
    Forall
      (fun row =>
         STATUS row = DIVERGENTE /\ TIPO_RELATORIO_FINANCEIRO row = None /\
         DATA_RELATORIO_FINANCEIRO row = None /\
         TEXTO_RELATORIO_FINANCEIRO row = ""%string /\
         VALOR_RELATORIO_FINANCEIRO row = zero /\
         TIPO_RELATORIO_CONTABIL row <> None /\
         DIF row = VALOR_RELATORIO_CONTABIL row /\
         OBS row = "Sem correspondencia no Financeiro"%string)
      sobra.
Proof.
  destruct (conciliar_linhas list_set fin cont tol min_len)
    as (out & usados & E & Hout).
  exists out, (sobras cont usados). split; [exact E|]. split.
  - eapply Forall_impl; [|exact Hout].
    intros row (i & f & _ & _ & [->|(j & r & _ & _ & _ & ->)]);
      (split; [discriminate|]); [right | left]; repeat split; discriminate.
  - eapply Forall_impl; [|apply sobras_linhas].
    intros row (j & r & _ & ->). repeat split. discriminate.
Qed.

Section VazioFacts.

Variable list_set : list nat -> list nat.

Local Open Scope list_scope.

Lemma fold_passo_fin_sem_contabil cont idx usar tol min_len
    (l : list (nat * linha_fin)) :
  cont_linhas cont = [] ->
  forall usados out,
    exists out',
      fold_left (passo_fin list_set cont idx usar tol min_len) l (usados, out)
      = (usados, out ++ out') /\
      map TEXTO_RELATORIO_FINANCEIRO out'
      = map TEXTO_FIN (filter (passa_filtro min_len) (map snd l)) /\
      map VALOR_RELATORIO_FINANCEIRO out'
      = map VALOR_FIN (filter (passa_filtro min_len) (map snd l)) /\
      Forall (fun row => STATUS row = DIVERGENTE /\
                         OBS row = "Nao conciliado"%string) out'.
Proof.
  intros Hc. induction l as [|[i f] l IH]; intros usados out.
  - exists []. rewrite app_nil_r. repeat split. constructor.
  - cbn [fold_left map filter snd].
    destruct (passo_fin_casos list_set cont idx usar tol min_len usados out i f)
      as [[Hp ->]|[[Hp [d ->]]|[Hp (d & j & r & _ & Hj & _)]]].
    + rewrite Hp. apply IH.
    + rewrite Hp.
      destruct (IH usados (out ++ [linha_divergente_fin i f d]))
        as (out' & E & H1 & H2 & H3).
      exists (linha_divergente_fin i f d :: out').
      rewrite E, <- app_assoc. split; [reflexivity|]. cbn [map].
      rewrite H1, H2. repeat split. constructor; [now split | exact H3].
    + rewrite Hc in Hj. destruct j; discriminate.
Qed.

Lemma sobras_sem_usados (cont : df_cont) :
  sobras cont []
  = map (fun jr => linha_sobra_cont (fst jr) (snd jr) (cont_tem_data cont))
      (enumerate (cont_linhas cont)).
Proof.
  unfold sobras. induction (enumerate (cont_linhas cont)) as [|jr l IH];
    [reflexivity|].
  cbn [flat_map map]. rewrite IH. reflexivity.
Qed.

End VazioFacts.

(** X11: an empty report on one side.  With no accounting line, the result
    is one "Nao conciliado" row for each financial line that passes the
    noise filter, in ledger order; with no financial line, it is one "Sem
    correspondencia no Financeiro" row for each accounting line, in ledger
    order. *)
Theorem conciliar_com_relatorio_vazio (list_set : list nat -> list nat)
    (fin : df_fin) (cont : df_cont) (tol : float) (min_len : Z) :
  let out := conciliar list_set fin cont tol min_len in
  (cont_linhas cont = [] ->
   map TEXTO_RELATORIO_FINANCEIRO out
   = map TEXTO_FIN (filter (passa_filtro min_len) (fin_linhas fin)) /\
   map VALOR_RELATORIO_FINANCEIRO out
   = map VALOR_FIN (filter (passa_filtro min_len) (fin_linhas fin)) /\
   Forall (fun row => STATUS row = DIVERGENTE /\
                      OBS row = "Nao conciliado"%string) out) /\
  (fin_linhas fin = [] ->
   map HISTORICO_RELATORIO_CONTABIL out = map HIST_TXT (cont_linhas cont) /\
   map VALOR_RELATORIO_CONTABIL out = map VALOR_CONTABIL (cont_linhas cont) /\
   Forall (fun row => STATUS row = DIVERGENTE /\
                      OBS row = "Sem correspondencia no Financeiro"%string)
     out).
Proof.
  cbv zeta. split.
  - intros Hc. unfold conciliar.
    destruct (fold_passo_fin_sem_contabil list_set cont
                (cont_by_val_tipo (cont_linhas cont))
                (fin_tem_data fin && cont_tem_data cont)%bool tol min_len
                (enumerate (fin_linhas fin)) Hc [] [])
      as (out' & E & H1 & H2 & H3).
    rewrite E. cbn [app]. unfold sobras. rewrite Hc. cbn [enumerate].
    cbn [List.length seq combine flat_map]. rewrite app_nil_r.
    rewrite map_snd_enumerate in H1, H2. now repeat split.
  - intros Hf. unfold conciliar. rewrite Hf.
    cbn [enumerate List.length seq combine fold_left app].
    rewrite sobras_sem_usados, !map_map. cbn [linha_sobra_cont
      HISTORICO_RELATORIO_CONTABIL VALOR_RELATORIO_CONTABIL].
    split; [|split].
    + rewrite <- (map_snd_enumerate (cont_linhas cont)) at 2.
      now rewrite map_map.
    + rewrite <- (map_snd_enumerate (cont_linhas cont)) at 2.
      now rewrite map_map.
    + apply Forall_map, Forall_forall. intros jr _. now split.
Qed.

Lemma conciliar_com_relatorio_vazio_witness :
  map TEXTO_RELATORIO_FINANCEIRO
    (conciliar (nodup Nat.eq_dec) df_fin_exemplo (mk_df_cont false []) cent 3)
  = ["FT-12345"%string] /\
  map HISTORICO_RELATORIO_CONTABIL
    (conciliar (nodup Nat.eq_dec) (mk_df_fin false []) df_cont_exemplo cent 3)
  = ["TARIFA"%string; "PAGTO FT12345 FORNECEDOR"%string].
Proof.
  split.
  - exact (proj1 (proj1 (conciliar_com_relatorio_vazio (nodup Nat.eq_dec)
                           df_fin_exemplo (mk_df_cont false []) cent 3)
                    eq_refl)).
  - exact (proj1 (proj2 (conciliar_com_relatorio_vazio (nodup Nat.eq_dec)
                           (mk_df_fin false []) df_cont_exemplo cent 3)
                    eq_refl)).
Defined.

Section AbaFacts.

Local Open Scope string_scope.

(** The name of the sheet starts with the character 3. *)
Definition comeca_com_3 (sheet : string) : bool :=
  match sheet with
  | String c _ => Ascii.eqb c "3"
  | "" => false
  end.

Lemma code_chr (n : N) : (n < 256)%N -> code (chr n) = n.
Proof. intros H. unfold code, chr. now apply N_ascii_embedding. Qed.

Lemma code_lt_256 (c : ascii) : (code c < 256)%N.
Proof. apply N_ascii_bounded. Qed.

Lemma lower_char_3 (c : ascii) : lower_char c = "3"%char -> c = "3"%char.
Proof.
  unfold lower_char. pose proof (code_lt_256 c) as Hb.
  destruct (is_AZ c) eqn:A.
  - apply between_spec in A. intros H. apply (f_equal code) in H.
    rewrite code_chr in H by lia.
    change (code "3") with 51%N in H. lia.
  - destruct (between 192 222 c && negb (N.eqb (code c) 215))%bool eqn:B;
      [|auto].
    apply andb_true_iff in B as [B _]. apply between_spec in B.
    intros H. apply (f_equal code) in H.
    rewrite code_chr in H by lia.
    change (code "3") with 51%N in H. lia.
Qed.

Lemma aba_corresponde_sem_3 (c : ascii) (r nome p : string) :
  Ascii.eqb c "3" = false ->
  (exists n, nome = String "3" n) -> (exists q, p = String "3" q) ->
  nome_prefix nome = Some p ->
  aba_corresponde (String c r) nome = Some false.
Proof.
  intros Hc [n ->] [q ->] Hp. unfold aba_corresponde.
  cbn [String.eqb]. rewrite Hc. cbn [andb]. rewrite Hp.
  cbn [lower]. rewrite prefix_head_ne.
  - now rewrite andb_false_r.
  - intros H. symmetry in H. apply lower_char_3 in H. subst c. discriminate.
Qed.

Lemma aba_corresponde_com_3 (r nome p : string) :
  (exists n, nome = String "3" n) ->
  nome_prefix nome = Some p ->
  aba_corresponde (String "3" r) nome = Some true.
Proof.
  intros [n ->] Hp. unfold aba_corresponde. rewrite Hp.
  destruct (String.eqb _ _); [reflexivity|].
  destruct (startswith p _); reflexivity.
Qed.

Lemma procurar_nome_contabil (sheet : string) :
  procurar_nome sheet nomes_contabil
  = if comeca_com_3 sheet then Some (inl sheet) else None.
Proof.
  assert (P1 : nome_prefix "3-Lancamentos Contabeis" = Some "3-lancamentos")
    by (vm_compute; reflexivity).
  assert (P3 : nome_prefix "3-" = Some "3-") by (vm_compute; reflexivity).
  destruct sheet as [|c r]; [vm_compute; reflexivity|].
  unfold nomes_contabil. cbn [comeca_com_3 procurar_nome].
  destruct (Ascii.eqb c "3") eqn:E.
  - apply Ascii.eqb_eq in E. subst c.
    now rewrite (aba_corresponde_com_3 r _ _ (ex_intro _ _ eq_refl) P1).
  - rewrite !(aba_corresponde_sem_3 c r _ _ E (ex_intro _ _ eq_refl)
                (ex_intro _ _ eq_refl) P1).
    now rewrite (aba_corresponde_sem_3 c r _ _ E (ex_intro _ _ eq_refl)
                   (ex_intro _ _ eq_refl) P3).
Qed.

End AbaFacts.

(** X12: the sheet [ler_contabil] reads.  With the names it looks for,
    [_encontrar_aba] returns the first sheet of the workbook whose name
    starts with the character 3, whatever follows it, and raises ValueError
    when no sheet name starts with 3. *)
Theorem aba_do_contabil_comeca_com_3 (sheet_names : list string) :
  Contabil._encontrar_aba sheet_names Contabil.nomes_contabil
  = match find comeca_com_3 sheet_names with
    | Some sheet => inl sheet
    | None => inr (Contabil.Erro ValueError)
    end.
Proof.
  induction sheet_names as [|sheet r IH]; [reflexivity|].
  cbn [Contabil._encontrar_aba find].
  rewrite procurar_nome_contabil.
  destruct (comeca_com_3 sheet); [reflexivity | exact IH].
Qed.

Section RevisaoFacts.

Local Open Scope list_scope.

Lemma nao_ok_divergente (row : linha_out) :
  nao_ok row = true -> STATUS row = DIVERGENTE.
Proof. unfold nao_ok. now destruct (STATUS row). Qed.

Lemma possiveis_da_linha_In cont tol row data_fin rev :
  In rev (possiveis_da_linha cont tol row data_fin) ->
  exists r,
    In r cont /\
    rev = mk_linha_revisao data_fin (TIPO_RELATORIO_FINANCEIRO row)
            (TEXTO_RELATORIO_FINANCEIRO row) (VALOR_RELATORIO_FINANCEIRO row)
            (REV_DATA_CONTABIL rev) (TIPO_CONTABIL r) (HIST_TXT r)
            (VALOR_CONTABIL r)
            (abs (VALOR_RELATORIO_FINANCEIRO row - VALOR_CONTABIL r)) /\
    TIPO_CONTABIL r = tipo_cont_esperado (TIPO_RELATORIO_FINANCEIRO row) /\
    DATA_CONTABIL r = Some (REV_DATA_CONTABIL rev) /\
    PrimFloat.ltb tol (abs (VALOR_RELATORIO_FINANCEIRO row - VALOR_CONTABIL r))
    = false /\
    (Z.abs (dias data_fin (REV_DATA_CONTABIL rev)) <= 1)%Z.
Proof.
  unfold possiveis_da_linha. intros H.
  apply in_flat_map in H as (r & Hr & H). exists r. split; [exact Hr|].
  destruct (tipo_contabil_eqb (TIPO_CONTABIL r)
              (tipo_cont_esperado (TIPO_RELATORIO_FINANCEIRO row))) eqn:Et;
    cbn [negb] in H; [|contradiction].
  destruct (DATA_CONTABIL r) as [data_c|]; [|contradiction].
  destruct (PrimFloat.ltb tol _) eqn:El; [contradiction|].
  destruct (1 <? Z.abs (dias data_fin data_c))%Z eqn:Ed; [contradiction|].
  destruct H as [<-|[]]. cbn [REV_DATA_CONTABIL].
  split; [reflexivity|]. split; [now apply tipo_contabil_eqb_eq|].
  split; [reflexivity|]. split; [reflexivity|]. now apply Z.ltb_ge in Ed.
Qed.

End RevisaoFacts.

(** X13: the possible matches of the review sheet.  Without a date column
    in either report there is none.  Otherwise each one pairs a DIVERGENTE
    row that has a financial text with an accounting line of the
    counterpart type, both dated, at most one day apart, whose difference
    of amounts is not greater than the tolerance in the comparison the code
    makes (line 483), and is at most the tolerance when both amounts are
    finite and the tolerance is a number; the financial date is that of the
    FIRST financial line with the row's text; DIF is the difference. *)
Theorem possiveis_matches_por_data_e_valor (fin : df_fin) (cont : df_cont)
    (conc : list linha_out) (tol : float)
    (rows : list Contabil.linha_revisao) :
  Contabil.encontrar_possiveis_matches_data_valor fin cont conc tol
  = inl rows ->
  (fin_tem_data fin = false \/ cont_tem_data cont = false -> rows = []) /\
  forall rev, In rev rows ->
    exists row f r,
      In row conc /\ STATUS row = DIVERGENTE /\
      TEXTO_RELATORIO_FINANCEIRO row <> ""%string /\
      find (fun f => String.eqb (TEXTO_FIN f) (TEXTO_RELATORIO_FINANCEIRO row))
        (fin_linhas fin) = Some f /\
      DATA_FIN f = Some (Contabil.REV_DATA_FINANCEIRO rev) /\
      In r (cont_linhas cont) /\
      DATA_CONTABIL r = Some (Contabil.REV_DATA_CONTABIL rev) /\
      TIPO_CONTABIL r
      = Contabil.tipo_cont_esperado (TIPO_RELATORIO_FINANCEIRO row) /\
      Contabil.REV_TEXTO_FINANCEIRO rev = TEXTO_RELATORIO_FINANCEIRO row /\
      Contabil.REV_VALOR_FINANCEIRO rev = VALOR_RELATORIO_FINANCEIRO row /\
      Contabil.REV_HISTORICO_CONTABIL rev = HIST_TXT r /\
      Contabil.REV_VALOR_CONTABIL rev = VALOR_CONTABIL r /\
      Contabil.REV_DIF rev
      = abs (VALOR_RELATORIO_FINANCEIRO row - VALOR_CONTABIL r) /\
      PrimFloat.ltb tol (Contabil.REV_DIF rev) = false /\
      (is_finite (VALOR_RELATORIO_FINANCEIRO row) = true ->
       is_finite (VALOR_CONTABIL r) = true -> is_nan tol = false ->
       PrimFloat.leb (Contabil.REV_DIF rev) tol = true) /\
      (Z.abs (dias (Contabil.REV_DATA_FINANCEIRO rev)
                (Contabil.REV_DATA_CONTABIL rev)) <= 1)%Z.
Proof.
  unfold Contabil.encontrar_possiveis_matches_data_valor. intros H. split.
  - intros Hd.
    assert (E : (negb (fin_tem_data fin) || negb (cont_tem_data cont))%bool
                = true)
      by (destruct Hd as [-> | ->]; [reflexivity | apply orb_true_r]).
    rewrite E in H. now injection H as <-.
  - destruct (negb (fin_tem_data fin) || negb (cont_tem_data cont))%bool;
      [injection H as <-; intros rev []|].
    destruct conc as [|row0 conc0] eqn:Ec; [discriminate|].
    rewrite <- Ec in *. injection H as <-. intros rev Hrev.
    apply in_flat_map in Hrev as (row & Hrow & Hrev).
    apply filter_In in Hrow as [Hrow Hf].
    apply andb_true_iff in Hf as [Hn Ht].
    destruct (find _ (fin_linhas fin)) as [f|] eqn:Ef; [|contradiction].
    destruct (DATA_FIN f) as [data_fin|] eqn:Ed; [|contradiction].
    apply possiveis_da_linha_In in Hrev as (r & Hr & -> & Htipo & Hdc & Hl & Hdias).
    exists row, f, r. cbn.
    split; [exact Hrow|]. split; [now apply nao_ok_divergente|].
    split.
    { intros E. rewrite E in Ht. discriminate. }
    repeat (split; [first [assumption | reflexivity]|]).
    split; [|exact Hdias].
    intros Hfv Hcv Htol.
    apply nao_maior_e_menor_ou_igual; try assumption.
    now apply dif_finita_not_nan.
Qed.

Definition fin_datado : df_fin :=
  mk_df_fin true
    [mk_linha_fin "BOLETO 77" "BOLETO77" "77" "BOLETO 77" 250 ENTRADA
       (Some (3 * ns_por_dia)%Z)].

Definition cont_datado : df_cont :=
  mk_df_cont true
    [mk_linha_cont "DEPOSITO" "DEPOSITO" "" "DEPOSITO" 250 DEBITO
       (Some (4 * ns_por_dia)%Z)].

Lemma possiveis_matches_por_data_e_valor_witness :
  exists rows,
    Contabil.encontrar_possiveis_matches_data_valor fin_datado cont_datado
      (conciliar (nodup Nat.eq_dec) fin_datado cont_datado cent 3) dois_cent
    = inl rows /\
    map Contabil.REV_HISTORICO_CONTABIL rows = ["DEPOSITO"%string] /\
    forall rev, In rev rows ->
      (Z.abs (dias (Contabil.REV_DATA_FINANCEIRO rev)
                (Contabil.REV_DATA_CONTABIL rev)) <= 1)%Z.
Proof.
  destruct (Contabil.encontrar_possiveis_matches_data_valor fin_datado
              cont_datado
              (conciliar (nodup Nat.eq_dec) fin_datado cont_datado cent 3)
              dois_cent) as [rows|e] eqn:E; [|vm_compute in E; discriminate].
  pose proof (proj2 (possiveis_matches_por_data_e_valor _ _ _ _ _ E)) as H.
  exists rows. split; [reflexivity|]. split.
  - vm_compute in E. injection E as <-. reflexivity.
  - intros rev Hrev.
    destruct (H rev Hrev) as (row & f & r & Hx). intuition.
Defined.

Section EstatisticasFacts.

Variable list_set : list nat -> list nat.
Local Open Scope list_scope.

Lemma total_ok_nao_ok (conc : list linha_out) :
  List.length (filter (fun row => negb (nao_ok row)) conc) = total_ok conc.
Proof.
  unfold total_ok. f_equal. apply filter_ext. intros row.
  unfold nao_ok, status_ok. now destruct (STATUS row).
Qed.

Lemma possiveis_de_linhas fin cont conc tol :
  conc <> [] ->
  exists rows,
    encontrar_possiveis_matches_data_valor fin cont conc tol = inl rows.
Proof.
  intros Hc. unfold encontrar_possiveis_matches_data_valor.
  destruct (negb (fin_tem_data fin) || negb (cont_tem_data cont))%bool;
    [now eexists|].
  destruct conc; [contradiction | now eexists].
Qed.

Lemma conciliar_sem_linhas fin cont tol min_len :
  conciliar list_set fin cont tol min_len = [] <->
  cont_linhas cont = [] /\
  filter (passa_filtro min_len) (fin_linhas fin) = [].
Proof.
  destruct (conciliar_contado list_set fin cont tol min_len) as (H1 & H2 & H3).
  split.
  - intros E. rewrite E in *. cbn in H1, H2, H3.
    split; apply length_zero_iff_nil; lia.
  - intros [Ec Ef]. rewrite Ec, Ef in H1. cbn in H1.
    apply length_zero_iff_nil. lia.
Qed.

End EstatisticasFacts.

(** X14: the statistics of [processar_conciliacao].  When [conciliar] gives
    no row (no accounting line and no financial line that passes the noise
    filter) the run fails with KeyError at line 521, before the guards
    [if total else ...] of lines 570-572 are reached; otherwise it returns,
    with: total + ok = filtered financial lines + accounting lines,
    ok + nao_ok = total, and at least one review row for each row that is
    not OK. *)
Theorem estatisticas_da_conciliacao (list_set : list nat -> list nat)
    (fin : df_fin) (fin_totais : Contabil.totais) (cont : df_cont)
    (cont_totais : Contabil.totais) (tol : float) (min_len : Z) :
  let r := Contabil.processar_conciliacao list_set fin fin_totais cont
             cont_totais tol min_len in
  (r = inr Contabil.KeyError <->
   cont_linhas cont = [] /\
   filter (passa_filtro min_len) (fin_linhas fin) = []) /\
  ((exists st, r = inl st) \/ r = inr Contabil.KeyError) /\
  forall st, r = inl st ->
    1 <= Contabil.stat_total st /\
    Contabil.stat_total st + Contabil.stat_ok st
    = List.length (filter (passa_filtro min_len) (fin_linhas fin))
      + List.length (cont_linhas cont) /\
    Contabil.stat_ok st + Contabil.stat_nao_ok st
    = Contabil.stat_total st /\
    Contabil.stat_nao_ok st <= Contabil.stat_revisao_qtd st.
Proof.
  cbv zeta.
  pose proof (conciliar_sem_linhas list_set fin cont tol min_len) as Hv.
  pose proof (conciliar_contado list_set fin cont tol min_len) as (H1 & H2 & H3).
  unfold Contabil.processar_conciliacao.
  set (conc := conciliar list_set fin cont tol min_len) in *.
  destruct (Nat.eq_dec (List.length conc) 0) as [Hnil|Hcons].
  - assert (E : conc = []) by (now apply length_zero_iff_nil).
    rewrite E. split; [|split].
    + split; [intros _; now apply Hv | reflexivity].
    + now right.
    + discriminate.
  - assert (Hne : conc <> []) by (intros E; now rewrite E in Hcons).
    destruct (possiveis_de_linhas fin cont conc
                (Contabil.py_max tol dois_cent) Hne) as [rows Er].
    assert (Eu : forall (A : Type) (a b : A),
               match conc with [] => a | _ :: _ => b end = b)
      by (intros; destruct conc; [contradiction | reflexivity]).
    rewrite Eu, Er.
    split; [|split].
    + split; [discriminate|]. intros H. apply Hv in H. contradiction.
    + left. now eexists.
    + intros st [= <-]. cbn [Contabil.stat_total Contabil.stat_ok
                             Contabil.stat_nao_ok
                             Contabil.stat_revisao_qtd].
      rewrite total_ok_nao_ok.
      pose proof (filter_length Contabil.nao_ok conc) as Hp.
      rewrite total_ok_nao_ok in Hp.
      assert (1 <= List.length conc) by (destruct conc; [contradiction | cbn; lia]).
      lia.
Qed.

Section PartesFacts.

Local Open Scope string_scope.










End PartesFacts.

Section ConfrontoFacts.

Local Open Scope string_scope.
Local Open Scope list_scope.











End ConfrontoFacts.






Section BaldeFacts.

Import PyRe.
Local Open Scope string_scope.
Local Open Scope list_scope.

Lemma Dsum_app_um (xs : list Decimal) (x : Decimal) :
  Dsum (xs ++ [x]) = (a <- Dsum xs ;; Dadd a x).
Proof. unfold Dsum. now rewrite fold_left_app. Qed.

(** The date of a kept line, as [esta_no_intervalo] reads it. *)
Definition data_de (v : pyval) : option datetime :=
  match v with
  | PDatetime d => Some d
  | PStr s => strptime s
  | _ => None
  end.

(** The line is dated within the window, bounds included. *)
Definition na_janela (di df : option datetime) (l : lancamento) : Prop :=
  exists lo hi d,
    di = Some lo /\ df = Some hi /\ data_de (data l) = Some d /\
    dt_leb lo d = true /\ dt_leb d hi = true.

(** A line of an invoice bucket: a kept line of lot 008820001 whose
    description gives the bucket's number. *)
Definition linha_de_nf (st : sistema) (k : string) (l : lancamento) : Prop :=
  In l (lancamentos st) /\ numero_da_nf (historico l) = Some k /\
  startswith "008820001" (lote l) = true.

(** A line of a receipt bucket: a kept line of lot 008850001, or with
    RECEBIM in its description, whose description gives the bucket's
    number. *)
Definition linha_de_recebimento (st : sistema) (k : string) (l : lancamento)
    : Prop :=
  In l (lancamentos st) /\ numero_do_recebimento (historico l) = Some k /\
  (startswith "008850001" (lote l) = true \/
   contains "RECEBIM" (upper (historico l)) = true).

(** What holds of every entry of [self.nfs] or [self.recebimentos]. *)
Definition balde_ok (n : nat) (linha_de : string -> lancamento -> Prop)
    (kb : string * bucket) : Prop :=
  numero (snd kb) = fst kb /\
  digitos_min n (fst kb) /\
  lancamentos_do_bucket (snd kb) <> [] /\
  Forall (linha_de (fst kb)) (lancamentos_do_bucket (snd kb)) /\
  Dsum (map debito (lancamentos_do_bucket (snd kb)))
  = Ret (total_debito (snd kb)) /\
  Dsum (map credito (lancamentos_do_bucket (snd kb)))
  = Ret (total_credito (snd kb)).

(** The invariant of the loop of [processar_lancamentos]; [prox] bounds the
    row numbers seen so far. *)
Definition lancado (di df : option datetime) (prox : nat) (st : sistema)
    : Prop :=
  data_inicio st = di /\ data_fim st = df /\
  Forall (fun l => 3 <= linha l < prox /\ na_janela di df l) (lancamentos st) /\
  StronglySorted lt (map linha (lancamentos st)) /\
  Forall (balde_ok 1 (linha_de_nf st)) (nfs st) /\
  Forall (balde_ok 6 (linha_de_recebimento st)) (recebimentos st).

Lemma dict_set_Forall_par {A : Type} (P : string * A -> Prop) (k : string)
    (v : A) (d : dict A) :
  Forall P d -> P (k, v) -> Forall P (dict_set k v d).
Proof.
  intros Hd Hv. induction d as [|[k' v'] d IH]; simpl.
  - now constructor.
  - inversion Hd; subst. destruct (String.eqb k' k) eqn:E.
    + apply String.eqb_eq in E. subst. now constructor.
    + constructor; [assumption | now apply IH].
Qed.

Lemma dict_lookup_In {A : Type} (k : string) (d : dict A) (v : A) :
  dict_lookup k d = Some v -> In (k, v) d.
Proof.
  induction d as [|[k' v'] d IH]; simpl; [discriminate|].
  destruct (String.eqb k' k) eqn:E.
  - apply String.eqb_eq in E. subst. intros [= ->]. now left.
  - intros H. right. now apply IH.
Qed.

(** The bucket a line is added to, before the line is added. *)
Lemma obter_bucket_ok (n : nat) (linha_de : string -> lancamento -> Prop)
    (k : string) (d : dict bucket) :
  Forall (balde_ok n linha_de) d -> digitos_min n k ->
  let b := obter_bucket k d in
  numero b = k /\
  Forall (linha_de k) (lancamentos_do_bucket b) /\
  Dsum (map debito (lancamentos_do_bucket b)) = Ret (total_debito b) /\
  Dsum (map credito (lancamentos_do_bucket b)) = Ret (total_credito b).
Proof.
  intros Hd Hk. cbv zeta. unfold obter_bucket.
  destruct (dict_lookup k d) as [b|] eqn:E.
  - apply dict_lookup_In in E. rewrite Forall_forall in Hd.
    destruct (Hd _ E) as (H1 & _ & _ & H4 & H5 & H6). now repeat split.
  - repeat split. constructor.
Qed.

Lemma balde_ok_mono (n : nat) (P Q : string -> lancamento -> Prop)
    (d : dict bucket) :
  (forall k l, P k l -> Q k l) ->
  Forall (balde_ok n P) d -> Forall (balde_ok n Q) d.
Proof.
  intros HPQ. apply Forall_impl. intros [k b] (H1 & H2 & H3 & H4 & H5).
  split; [exact H1|]. split; [exact H2|]. split; [exact H3|].
  split; [|exact H5].
  eapply Forall_impl; [|exact H4]. intros l. apply HPQ.
Qed.

(** Adding the line [l] to the bucket of [k]. *)
Lemma balde_atualizado (n : nat) (linha_de : string -> lancamento -> Prop)
    (k : string) (d : dict bucket) (l : lancamento) (td tc vl : Decimal) :
  Forall (balde_ok n linha_de) d -> digitos_min n k -> linha_de k l ->
  Dadd (total_debito (obter_bucket k d)) (debito l) = Ret td ->
  Dadd (total_credito (obter_bucket k d)) (credito l) = Ret tc ->
  Forall (balde_ok n linha_de)
    (dict_set k
       (mk_bucket (numero (obter_bucket k d)) td tc vl
          (lancamentos_do_bucket (obter_bucket k d) ++ [l])) d).
Proof.
  intros Hd Hk Hl Etd Etc.
  destruct (obter_bucket_ok n linha_de k d Hd Hk) as (H1 & H4 & H5 & H6).
  apply dict_set_Forall_par; [exact Hd|].
  unfold balde_ok. cbn [fst snd numero lancamentos_do_bucket total_debito
                        total_credito].
  split; [exact H1|]. split; [exact Hk|]. split.
  - intros E. apply app_eq_nil in E as [_ E]. discriminate.
  - split; [apply Forall_app; split; [exact H4 | now constructor]|].
    rewrite !map_app. cbn [map]. rewrite !Dsum_app_um, H5, H6.
    cbn [bind]. now split.
Qed.

Lemma processar_nf_lancado di df prox st l st' :
  lancado di df prox st -> In l (lancamentos st) ->
  startswith "008820001" (lote l) = true ->
  processar_nf numero_da_nf st l = Ret st' ->
  lancado di df prox st'.
Proof.
  intros (Hi & Hf & Hl & Hs & Hn & Hr) Hin Hlote H. unfold processar_nf in H.
  destruct (numero_da_nf (historico l)) as [k|] eqn:Ek;
    [|injection H as <-; now repeat split].
  destruct (Dadd _ (debito l)) as [td|] eqn:Etd; [|discriminate].
  cbn [bind] in H.
  destruct (Dadd _ (credito l)) as [tc|] eqn:Etc; [|discriminate].
  cbn [bind] in H.
  destruct (Dsub td tc) as [vl|]; [|discriminate]. cbn [bind] in H.
  injection H as <-. unfold lancado, set_nfs.
  cbn [data_inicio data_fim lancamentos nfs recebimentos].
  repeat split; try assumption.
  apply numero_da_nf_digitos in Ek as Hk. destruct Hk as [Hk _].
  refine (balde_ok_mono 1 (linha_de_nf st) _ _ _ _).
  - intros k' l' H'. exact H'.
  - apply balde_atualizado; try assumption. now repeat split.
Qed.

Lemma processar_recebimento_lancado di df prox st l st' :
  lancado di df prox st -> In l (lancamentos st) ->
  (startswith "008850001" (lote l) = true \/
   contains "RECEBIM" (upper (historico l)) = true) ->
  processar_recebimento numero_do_recebimento st l = Ret st' ->
  lancado di df prox st'.
Proof.
  intros (Hi & Hf & Hl & Hs & Hn & Hr) Hin Hlote H.
  unfold processar_recebimento in H.
  destruct (numero_do_recebimento (historico l)) as [k|] eqn:Ek;
    [|injection H as <-; now repeat split].
  destruct (Dadd _ (debito l)) as [td|] eqn:Etd; [|discriminate].
  cbn [bind] in H.
  destruct (Dadd _ (credito l)) as [tc|] eqn:Etc; [|discriminate].
  cbn [bind] in H.
  destruct (Dsub tc td) as [vl|]; [|discriminate]. cbn [bind] in H.
  injection H as <-. unfold lancado, set_recebimentos.
  cbn [data_inicio data_fim lancamentos nfs recebimentos].
  repeat split; try assumption.
  apply numero_do_recebimento_digitos in Ek as Hk. destruct Hk as [Hk _].
  refine (balde_ok_mono 6 (linha_de_recebimento st) _ _ _ _).
  - intros k' l' H'. exact H'.
  - apply balde_atualizado; try assumption. now repeat split.
Qed.

Lemma no_intervalo_janela st d :
  no_intervalo st d = Ret true ->
  exists lo hi, data_inicio st = Some lo /\ data_fim st = Some hi /\
    dt_leb lo d = true /\ dt_leb d hi = true.
Proof.
  unfold no_intervalo, leb_opt_l, leb_opt_r.
  destruct (data_inicio st) as [lo|]; [|discriminate]. cbn [bind].
  destruct (dt_leb lo d) eqn:E1; [|discriminate].
  destruct (data_fim st) as [hi|]; [|discriminate].
  intros [= E2]. now exists lo, hi.
Qed.

Lemma esta_no_intervalo_janela st v :
  esta_no_intervalo st v = Ret true ->
  exists lo hi d, data_inicio st = Some lo /\ data_fim st = Some hi /\
    data_de v = Some d /\ dt_leb lo d = true /\ dt_leb d hi = true.
Proof.
  destruct v; simpl; try discriminate.
  - destruct (strptime s) as [d|] eqn:E; [|discriminate].
    intros H. apply no_intervalo_janela in H as (lo & hi & H).
    exists lo, hi, d. intuition.
  - intros H. apply no_intervalo_janela in H as (lo & hi & H).
    exists lo, hi, d. intuition.
Qed.

Lemma StronglySorted_app_um (l : list nat) (x : nat) :
  StronglySorted lt l -> Forall (fun y => y < x) l ->
  StronglySorted lt (l ++ [x]).
Proof.
  induction 1 as [|a l Hs IH Ha]; intros Hx; simpl.
  - repeat constructor.
  - inversion Hx; subst. constructor; [now apply IH|].
    apply Forall_app. split; [exact Ha | now repeat constructor].
Qed.

Lemma processar_linha_lancado di df prox st row_num c st' :
  lancado di df prox st -> 3 <= row_num -> prox <= row_num ->
  processar_linha numero_da_nf numero_do_recebimento st (row_num, c)
  = Ret st' ->
  lancado di df (S row_num) st'.
Proof.
  intros Hst H3 Hp H. unfold processar_linha in H.
  assert (Hmono : lancado di df (S row_num) st).
  { destruct Hst as (Hi & Hf & Hl & Hs & Hn & Hr).
    repeat split; try assumption.
    eapply Forall_impl; [|exact Hl]. intros l [[? ?] ?]. split; [lia|assumption]. }
  destruct (parse_valor (cel_debito c)) as [deb|]; [|discriminate].
  cbn [bind] in H.
  destruct (parse_valor (cel_credito c)) as [cre|]; [|discriminate].
  cbn [bind] in H.
  destruct (esta_no_intervalo st (cel_data c)) as [[|]|] eqn:Ed;
    [| |discriminate]; cbn [bind negb] in H;
    [|injection H as <-; exact Hmono].
  apply esta_no_intervalo_janela in Ed as (lo & hi & d & Elo & Ehi & Ed & L1 & L2).
  set (l := mk_lancamento row_num (cel_data c) (str_ou_vazio (cel_lote c))
              (str_ou_vazio (cel_historico c)) deb cre
              (str_ou_vazio (cel_saldo_atual c))) in *.
  set (st1 := set_lancamentos st (lancamentos st ++ [l])) in *.
  assert (Hin : In l (lancamentos st1))
    by (unfold st1; cbn; apply in_or_app; right; now left).
  assert (H1 : lancado di df (S row_num) st1).
  { destruct Hst as (Hi & Hf & Hl & Hs & Hn & Hr).
    unfold lancado, st1, set_lancamentos.
    cbn [data_inicio data_fim lancamentos nfs recebimentos].
    split; [exact Hi|]. split; [exact Hf|]. split; [|split; [|split]].
    - apply Forall_app. split.
      + eapply Forall_impl; [|exact Hl]. intros x [[? ?] ?].
        split; [lia | assumption].
      + constructor; [|constructor]. split; [cbn; lia|].
        exists lo, hi, d. subst di df. now repeat split.
    - rewrite map_app. apply StronglySorted_app_um; [exact Hs|].
      apply Forall_map. eapply Forall_impl; [|exact Hl].
      intros x [[? ?] ?]. cbn. lia.
    - eapply balde_ok_mono; [|exact Hn].
      intros k x (Hx & ? & ?). split; [|now split].
      cbn. apply in_or_app. now left.
    - eapply balde_ok_mono; [|exact Hr].
      intros k x (Hx & ? & ?). split; [|now split].
      cbn. apply in_or_app. now left. }
  clearbody st1.
  destruct (truthy (cel_historico c) && truthy (cel_lote c)
            && startswith "008820001" (py_str (cel_lote c)))%bool eqn:Cnf.
  - apply andb_true_iff in Cnf as [Cnf Clote].
    apply andb_true_iff in Cnf as [Ch Cl].
    assert (Hlote : startswith "008820001" (lote l) = true).
    { unfold l, str_ou_vazio. cbn [lote]. now rewrite Cl. }
    destruct (processar_nf numero_da_nf st1 l) as [st2|] eqn:E2;
      [|discriminate].
    cbn [bind] in H.
    pose proof (processar_nf_lancado _ _ _ _ _ _ H1 Hin Hlote E2) as H2.
    assert (Hin2 : In l (lancamentos st2)).
    { unfold processar_nf in E2.
      destruct (numero_da_nf (historico l)); [|now injection E2 as <-].
      destruct (Dadd _ (debito l)); [|discriminate]. cbn [bind] in E2.
      destruct (Dadd _ (credito l)); [|discriminate]. cbn [bind] in E2.
      destruct (Dsub _ _); [|discriminate]. cbn [bind] in E2.
      injection E2 as <-. exact Hin. }
    match type of H with
    | (if ?b then _ else _) = _ => destruct b eqn:Crec
    end; [|injection H as <-; exact H2].
    refine (processar_recebimento_lancado _ _ _ _ _ _ H2 Hin2 _ H).
    apply orb_true_iff in Crec as [Crec|Crec].
    + left. apply andb_true_iff in Crec as [_ Crec]. exact Hlote || idtac.
      unfold l, str_ou_vazio. cbn [lote]. now rewrite Cl.
    + right. apply andb_true_iff in Crec as [_ Crec].
      unfold l, str_ou_vazio. cbn [historico]. now rewrite Ch.
  - cbn [bind] in H.
    match type of H with
    | (if ?b then _ else _) = _ => destruct b eqn:Crec
    end; [|injection H as <-; exact H1].
    refine (processar_recebimento_lancado _ _ _ _ _ _ H1 Hin _ H).
    apply orb_true_iff in Crec as [Crec|Crec].
    + left. apply andb_true_iff in Crec as [Cl Crec].
      unfold l, str_ou_vazio. cbn [lote]. now rewrite Cl.
    + right. apply andb_true_iff in Crec as [Ch Crec].
      unfold l, str_ou_vazio. cbn [historico]. now rewrite Ch.
Qed.

Lemma fold_processar_lancado di df (l : list (nat * linha_planilha)) :
  forall prox st st',
    lancado di df prox st ->
    StronglySorted lt (map fst l) ->
    Forall (fun nl => 3 <= fst nl /\ prox <= fst nl) l ->
    fold_left
      (fun acc nl =>
         s <- acc ;;
         processar_linha numero_da_nf numero_do_recebimento s nl)
      l (Ret st) = Ret st' ->
    exists prox', lancado di df prox' st'.
Proof.
  induction l as [|[n c] l IH]; intros prox st st' Hst Hs Hl H.
  - injection H as <-. now exists prox.
  - cbn [fold_left bind] in H.
    destruct (processar_linha numero_da_nf numero_do_recebimento st (n, c))
      as [s1|e] eqn:E.
    + inversion Hl as [|? ? [H3 Hp] Hl']; subst. cbn [fst] in *.
      inversion Hs as [|? ? Hs' Hall]; subst.
      refine (IH (S n) s1 st' _ Hs' _ H).
      * eapply processar_linha_lancado; eassumption.
      * rewrite Forall_forall in Hl'. rewrite Forall_forall in Hall.
        apply Forall_forall. intros nl Hin. split; [now apply Hl'|].
        apply (Hall (fst nl)). now apply in_map.
    + rewrite fold_processar_raise in H. discriminate.
Qed.

Lemma combine_seq_ordenado (rows : list linha_planilha) (s : nat) :
  StronglySorted lt (map fst (combine (seq s (List.length rows)) rows)) /\
  Forall (fun nl => s <= fst nl) (combine (seq s (List.length rows)) rows).
Proof.
  revert s. induction rows as [|r rows IH]; intros s;
    cbn [List.length seq combine map].
  - split; constructor.
  - destruct (IH (S s)) as [H1 H2]. split.
    + constructor; [exact H1|].
      rewrite Forall_forall in H2. apply Forall_forall. intros x Hx.
      apply in_map_iff in Hx as (nl & <- & Hnl). apply H2 in Hnl.
      cbn [fst]. lia.
    + constructor; [cbn; lia|].
      eapply Forall_impl; [|exact H2]. cbn. intros nl ?. lia.
Qed.

Lemma numerar_ordenado (rows : list linha_planilha) :
  StronglySorted lt (map fst (numerar rows)) /\
  Forall (fun nl => 3 <= fst nl /\ 3 <= fst nl) (numerar rows).
Proof.
  destruct (combine_seq_ordenado rows 3) as [H1 H2]. split; [exact H1|].
  eapply Forall_impl; [|exact H2]. intros nl ?. now split.
Qed.

Lemma processar_lancamentos_lancado si di df rows st :
  processar_lancamentos numero_da_nf numero_do_recebimento
    (novo_sistema si di df) rows = Ret st ->
  exists prox, lancado di df prox st.
Proof.
  intros H. destruct (numerar_ordenado rows) as [H1 H2].
  refine (fold_processar_lancado di df (numerar rows) 3 _ st _ H1 H2 H).
  unfold lancado, novo_sistema. cbn. repeat split; constructor.
Qed.

End BaldeFacts.

Local Open Scope string_scope.
Local Open Scope list_scope.

(** X16: after [processar_lancamentos], every entry of [self.nfs] is filed
    under its own number, a run of one or more digits; it holds at least
    one line, and each of its lines is a kept line of lot 008820001 whose
    description gives that number.  The same holds of [self.recebimentos],
    with six or more digits and lines of lot 008850001 or with RECEBIM in
    the description. *)
Theorem baldes_de_notas_e_recebimentos (si : Decimal)
    (di df : option datetime) (rows : list linha_planilha) (st : sistema) :
  processar_lancamentos numero_da_nf numero_do_recebimento
    (novo_sistema si di df) rows = Ret st ->
  (forall k b, In (k, b) (nfs st) ->
     numero b = k /\ str_forall is_digit k = true /\ 1 <= String.length k /\
     lancamentos_do_bucket b <> [] /\
     forall l, In l (lancamentos_do_bucket b) ->
       In l (lancamentos st) /\ numero_da_nf (historico l) = Some k /\
       startswith "008820001" (lote l) = true) /\
  (forall k b, In (k, b) (recebimentos st) ->
     numero b = k /\ str_forall is_digit k = true /\ 6 <= String.length k /\
     lancamentos_do_bucket b <> [] /\
     forall l, In l (lancamentos_do_bucket b) ->
       In l (lancamentos st) /\
       numero_do_recebimento (historico l) = Some k /\
       (startswith "008850001" (lote l) = true \/
        contains "RECEBIM" (upper (historico l)) = true)).
Proof.
  intros H.
  destruct (processar_lancamentos_lancado _ _ _ _ _ H)
    as (prox & _ & _ & _ & _ & Hn & Hr).
  rewrite Forall_forall in Hn. rewrite Forall_forall in Hr.
  split; intros k b Hin.
  - destruct (Hn _ Hin) as (H1 & [H2 H2'] & H3 & H4 & _).
    cbn [fst snd] in *. rewrite Forall_forall in H4.
    split; [exact H1|]. split; [exact H2|]. split; [exact H2'|].
    split; [exact H3|]. intros l Hl. exact (H4 l Hl).
  - destruct (Hr _ Hin) as (H1 & [H2 H2'] & H3 & H4 & _).
    cbn [fst snd] in *. rewrite Forall_forall in H4.
    split; [exact H1|]. split; [exact H2|]. split; [exact H2'|].
    split; [exact H3|]. intros l Hl. exact (H4 l Hl).
Qed.

(** An invoice line and a receipt line of March 2024. *)
Definition linha_nf_exemplo : linha_planilha :=
  mk_linha_planilha (PDatetime (mk_datetime 2024 3 5 0 0 0 0))
    (PStr "008820001") (PStr "NF: 000002902") (PStr "980,00") PNone PNone.

Definition linha_recebimento_exemplo : linha_planilha :=
  mk_linha_planilha (PDatetime (mk_datetime 2024 3 9 0 0 0 0))
    (PStr "008850001") (PStr "REF.RECEBIM.CR: ND1000670") PNone
    (PStr "980,00") PNone.

Definition sistema_exemplo : sistema :=
  novo_sistema D_zero (Some (mk_datetime 2024 1 1 0 0 0 0))
    (Some (mk_datetime 2024 12 31 0 0 0 0)).

Definition planilha_exemplo : list linha_planilha :=
  [linha_nf_exemplo; linha_recebimento_exemplo].

Lemma baldes_de_notas_e_recebimentos_witness :
  exists st,
    processar_lancamentos numero_da_nf numero_do_recebimento
      sistema_exemplo planilha_exemplo = Ret st /\
    map fst (nfs st) = ["000002902"%string] /\
    map fst (recebimentos st) = ["1000670"%string] /\
    forall k b, In (k, b) (recebimentos st) ->
      numero b = k /\ 6 <= String.length k.
Proof.
  eexists. split; [vm_compute; reflexivity|].
  split; [reflexivity|]. split; [reflexivity|].
  intros k b Hin.
  match type of Hin with
  | In _ (recebimentos ?s) =>
      assert (E : processar_lancamentos numero_da_nf numero_do_recebimento
                    sistema_exemplo planilha_exemplo = Ret s)
        by (vm_compute; reflexivity);
      destruct (proj2 (baldes_de_notas_e_recebimentos _ _ _ _ _ E) k b Hin)
        as (H1 & _ & H3 & _)
  end.
  now split.
Defined.

(** X17: the totals of a bucket are the running Decimal sums, from zero and
    in ledger order, of the debits and of the credits of the bucket's own
    lines. *)
Theorem totais_dos_baldes (si : Decimal) (di df : option datetime)
    (rows : list linha_planilha) (st : sistema) :
  processar_lancamentos numero_da_nf numero_do_recebimento
    (novo_sistema si di df) rows = Ret st ->
  forall k b, In (k, b) (nfs st) \/ In (k, b) (recebimentos st) ->
    Dsum (map debito (lancamentos_do_bucket b)) = Ret (total_debito b) /\
    Dsum (map credito (lancamentos_do_bucket b)) = Ret (total_credito b).
Proof.
  intros H.
  destruct (processar_lancamentos_lancado _ _ _ _ _ H)
    as (prox & _ & _ & _ & _ & Hn & Hr).
  rewrite Forall_forall in Hn. rewrite Forall_forall in Hr.
  intros k b [Hin|Hin].
  - destruct (Hn _ Hin) as (_ & _ & _ & _ & H5). exact H5.
  - destruct (Hr _ Hin) as (_ & _ & _ & _ & H5). exact H5.
Qed.

Lemma totais_dos_baldes_witness :
  exists st b,
    processar_lancamentos numero_da_nf numero_do_recebimento
      sistema_exemplo (planilha_exemplo ++ [linha_nf_exemplo]) = Ret st /\
    nfs st = [("000002902"%string, b)] /\
    total_debito b = DFin false 196000 (-2) /\
    Dsum (map debito (lancamentos_do_bucket b)) = Ret (total_debito b).
Proof.
  destruct (processar_lancamentos numero_da_nf numero_do_recebimento
              sistema_exemplo (planilha_exemplo ++ [linha_nf_exemplo]))
    as [st|e] eqn:E; [|vm_compute in E; discriminate].
  pose proof (totais_dos_baldes _ _ _ _ _ E) as T.
  vm_compute in E. injection E as <-.
  eexists. eexists. split; [reflexivity|].
  split; [reflexivity|]. split; [reflexivity|].
  refine (proj1 (T "000002902"%string _ _)). left. left. reflexivity.
Defined.

(** X18: every line that [processar_lancamentos] keeps is dated, by a
    datetime or by a text in the format "%Y-%m-%d %H:%M:%S", within the
    window, both bounds included; the kept lines are in sheet order, their
    row numbers starting at 3 and strictly increasing. *)
Theorem lancamentos_na_janela (si : Decimal) (di df : option datetime)
    (rows : list linha_planilha) (st : sistema) :
  processar_lancamentos numero_da_nf numero_do_recebimento
    (novo_sistema si di df) rows = Ret st ->
  (forall l, In l (lancamentos st) ->
     3 <= linha l /\
     exists lo hi d,
       di = Some lo /\ df = Some hi /\ data_de (data l) = Some d /\
       dt_leb lo d = true /\ dt_leb d hi = true) /\
  StronglySorted lt (map linha (lancamentos st)).
Proof.
  intros H.
  destruct (processar_lancamentos_lancado _ _ _ _ _ H)
    as (prox & _ & _ & Hl & Hs & _).
  rewrite Forall_forall in Hl. split; [|exact Hs].
  intros l Hin. destruct (Hl l Hin) as [[H3 _] Hj]. split; [exact H3|].
  exact Hj.
Qed.

(** A line of February 2025, outside the window of the example. *)
Definition linha_fora_da_janela : linha_planilha :=
  mk_linha_planilha (PStr "2025-02-01 00:00:00") (PStr "008820001")
    (PStr "NF: 000003000") (PStr "10,00") PNone PNone.

Lemma lancamentos_na_janela_witness :
  exists st,
    processar_lancamentos numero_da_nf numero_do_recebimento
      sistema_exemplo (linha_fora_da_janela :: planilha_exemplo) = Ret st /\
    map linha (lancamentos st) = [4; 5] /\
    StronglySorted lt (map linha (lancamentos st)).
Proof.
  eexists. split; [vm_compute; reflexivity|]. split; [reflexivity|].
  match goal with
  | |- StronglySorted lt (map linha (lancamentos ?s)) =>
      refine (proj2 (lancamentos_na_janela D_zero
                       (Some (mk_datetime 2024 1 1 0 0 0 0))
                       (Some (mk_datetime 2024 12 31 0 0 0 0))
                       (linha_fora_da_janela :: planilha_exemplo) s _))
  end.
  vm_compute. reflexivity.
Defined.

Section JanelaIncompleta.

Variable numero_nf numero_rec : string -> option string.

Lemma data_valida_de (v : pyval) :
  data_invalida v = false -> exists d, data_de v = Some d.
Proof.
  destruct v; simpl; try discriminate.
  - destruct (strptime s) as [d|]; [now exists d | discriminate].
  - now eexists.
Qed.

Lemma esta_no_intervalo_de st v d :
  data_de v = Some d -> esta_no_intervalo st v = no_intervalo st d.
Proof.
  destruct v; simpl; try discriminate.
  - now intros ->.
  - now intros [= ->].
Qed.

(** The loop with a bound missing: it fails at the first line whose date
    is compared with the missing bound. *)
Lemma fold_sem_janela (compara : datetime -> bool) (st : sistema)
    (l : list (nat * linha_planilha)) :
  (forall d, compara d = true -> no_intervalo st d = Raise TypeError) ->
  (forall d, compara d = false -> no_intervalo st d = Ret false) ->
  Forall (fun nl => valores_lidos (snd nl)) l ->
  Exists (fun nl => exists d, data_de (cel_data (snd nl)) = Some d /\
                              compara d = true) l ->
  fold_left
    (fun acc nl => s <- acc ;; processar_linha numero_nf numero_rec s nl)
    l (Ret st) = Raise TypeError.
Proof.
  intros Hsim Hnao Hv He.
  induction l as [|[n c] l IH]; [inversion He|].
  inversion Hv as [|? ? [[d1 E1] [d2 E2]] Hv']; subst. cbn [snd] in *.
  cbn [fold_left bind].
  assert (Hraise : forall d, data_de (cel_data c) = Some d ->
             compara d = true ->
             processar_linha numero_nf numero_rec st (n, c) = Raise TypeError).
  { intros d Ed Hc. unfold processar_linha. rewrite E1, E2. cbn [bind].
    now rewrite (esta_no_intervalo_de st _ d Ed), (Hsim d Hc). }
  assert (Hskip : (forall d, data_de (cel_data c) = Some d ->
                      compara d = false) ->
             processar_linha numero_nf numero_rec st (n, c) = Ret st).
  { intros Hd. unfold processar_linha. rewrite E1, E2. cbn [bind].
    destruct (data_invalida (cel_data c)) eqn:Ei.
    - now rewrite esta_no_intervalo_invalida.
    - destruct (data_valida_de _ Ei) as [d Ed].
      now rewrite (esta_no_intervalo_de st _ d Ed), (Hnao d (Hd d Ed)). }
  destruct (data_de (cel_data c)) as [d|] eqn:Ed.
  - destruct (compara d) eqn:Hc.
    + rewrite (Hraise d eq_refl Hc). apply fold_processar_raise.
    + rewrite Hskip by (intros d' [= <-]; exact Hc).
      apply IH; [exact Hv'|].
      inversion He as [? ? (d' & Ed' & Hc')|]; subst; [|assumption].
      cbn [snd] in Ed'. congruence.
  - rewrite Hskip by discriminate.
    apply IH; [exact Hv'|].
    inversion He as [? ? (d' & Ed' & Hc')|]; subst; [|assumption].
    cbn [snd] in Ed'. congruence.
Qed.

Lemma Forall_numerar (P : linha_planilha -> Prop) (rows : list linha_planilha) :
  Forall P rows -> Forall (fun nl => P (snd nl)) (numerar rows).
Proof.
  intros H. unfold numerar. generalize 3.
  induction H as [|r rows Hr Hrows IH];
    intros s; cbn [List.length seq combine]; constructor; auto.
Qed.

Lemma Exists_numerar (P : linha_planilha -> Prop) (rows : list linha_planilha) :
  Exists P rows -> Exists (fun nl => P (snd nl)) (numerar rows).
Proof.
  intros H. unfold numerar. generalize 3.
  induction H as [r rows Hr|r rows Hrows IH];
    intros s; cbn [List.length seq combine].
  - now left.
  - right. apply IH.
Qed.

End JanelaIncompleta.

(** X19: a window with a bound missing makes the run fail.  Without a start
    date, [processar_lancamentos] raises TypeError as soon as a line has a
    readable date; with a start date and no end date, as soon as a line is
    dated on or after the start (the amount cells being readable). *)
Theorem janela_incompleta (numero_nf numero_rec : string -> option string)
    (si : Decimal) (rows : list linha_planilha) :
  Forall valores_lidos rows ->
  (forall df,
     Exists (fun c => exists d, data_de (cel_data c) = Some d) rows ->
     processar_lancamentos numero_nf numero_rec (novo_sistema si None df) rows
     = Raise TypeError) /\
  (forall lo,
     Exists (fun c => exists d, data_de (cel_data c) = Some d /\
                                dt_leb lo d = true) rows ->
     processar_lancamentos numero_nf numero_rec
       (novo_sistema si (Some lo) None) rows
     = Raise TypeError).
Proof.
  intros Hv. split.
  - intros df He. unfold processar_lancamentos.
    apply (fold_sem_janela numero_nf numero_rec (fun _ => true)).
    + reflexivity.
    + intros d Hd. cbv beta in Hd. discriminate Hd.
    + now apply Forall_numerar.
    + apply (Exists_numerar
               (fun c => exists d, data_de (cel_data c) = Some d /\ true = true)).
      eapply Exists_impl; [|exact He]. intros c [d Ed]. now exists d.
  - intros lo He. unfold processar_lancamentos.
    apply (fold_sem_janela numero_nf numero_rec (dt_leb lo)).
    + intros d Hd. unfold no_intervalo, leb_opt_l, leb_opt_r, novo_sistema.
      cbn [data_inicio data_fim bind]. now rewrite Hd.
    + intros d Hd. unfold no_intervalo, leb_opt_l, leb_opt_r, novo_sistema.
      cbn [data_inicio data_fim bind]. now rewrite Hd.
    + now apply Forall_numerar.
    + now apply (Exists_numerar
                   (fun c => exists d, data_de (cel_data c) = Some d /\
                                       dt_leb lo d = true)).
Qed.

Lemma janela_incompleta_witness :
  processar_lancamentos numero_da_nf numero_do_recebimento
    (novo_sistema D_zero None None) planilha_exemplo = Raise TypeError.
Proof.
  refine (proj1 (janela_incompleta numero_da_nf numero_do_recebimento D_zero
                   planilha_exemplo _) None _).
  - repeat constructor; eexists; vm_compute; reflexivity.
  - left. eexists. reflexivity.
Defined.

(* ================================================================== *)
(** * The final balance that is reported *)
(* ================================================================== *)









Section DecimalExato.

Local Open Scope Z_scope.

Variable E : Z.
Hypothesis HE : 0 <= E <= 999999.













End DecimalExato.





Section SaldoExato.

Local Open Scope Z_scope.

Variable E : Z.
Hypothesis HE : 0 <= E <= 999999.









End SaldoExato.

Section SaldoRelatado.

Local Open Scope Z_scope.


End SaldoRelatado.




